(** * AI-Invoice: the pattern-based extraction path, the structured invoice
      model and the extraction orchestrator, embedded in Rocq.

    Sources embedded here:
    - [src/testing files/structured_data.py]: one module for each dataclass
      ([Address], [Contact], ..., [LineItem], [Summary],
      [StructuredInvoiceData]);
    - [src/gemini_extractor.py]: module [GeminiAIExtractor];
    - [src/app.py], class [InvoiceProcessor]: module [InvoiceProcessor];
    - the parts of Python's [str] and [re] that these files call: modules
      [PyStr] and [Re].

    Modelling conventions.
    - A Python [str] is a list of Unicode code points ([N]).  The behaviour
      of [str] and [re] on ASCII code points is written out; what the
      interpreter's Unicode tables say about code points from 128 upwards is
      a parameter ([UnicodeTables]).
    - A Python [float] is read as the exact rational it denotes ([Q]); the
      specification states its numeric properties within floating tolerance.
    - [None] is [None]; a field that the dataclasses type as [float] but that
      the code tests with [is not None] is an [option Q].
    - A call that may raise returns an [outcome]. *)

From Stdlib Require Import String Ascii DecimalString NArith ZArith QArith Qminmax Qabs Bool Lia Lqa
  Arith List Permutation.
Import ListNotations.

Set Implicit Arguments.

Local Open Scope N_scope.

(** ** Python strings *)

Definition pystr := list N.

(** What the running interpreter's Unicode database says about the code
    points that are not ASCII. *)
Class UnicodeTables := {
  uc_isspace : N -> bool;          (* str.isspace, [\s], str.strip *)
  uc_isdecimal : N -> bool;        (* category Nd: [\d] *)
  uc_decimal_value : N -> N;       (* the digit value float() reads *)
  uc_isalnum : N -> bool;          (* [\w] without the underscore *)
  uc_isdigit : N -> bool;          (* str.isdigit *)
  uc_isupper : N -> bool;          (* str.isupper of a one-character string *)
  uc_lower : pystr -> pystr;       (* str.lower of a string that is not ASCII *)
  uc_upper1 : N -> pystr;          (* str.upper of a one-character string *)
  uc_ci_lit : N -> N -> bool;      (* re.IGNORECASE: pattern literal against a character *)
  uc_ci_range : N -> N -> N -> bool (* re.IGNORECASE: pattern range against a character *)
}.

(** A table that knows no letters, digits or blanks outside ASCII.  It is
    only used to run the model on ASCII inputs, which never consult it. *)
Definition plain_tables : UnicodeTables := {|
  uc_isspace := fun _ => false;
  uc_isdecimal := fun _ => false;
  uc_decimal_value := fun _ => 0;
  uc_isalnum := fun _ => false;
  uc_isdigit := fun _ => false;
  uc_isupper := fun _ => false;
  uc_lower := fun s => s;
  uc_upper1 := fun c => [c];
  uc_ci_lit := N.eqb;
  uc_ci_range := fun lo hi c => (lo <=? c) && (c <=? hi)
|}.

Module PyStr.

(** Reading a source literal: the code points of a UTF-8 byte string. *)
Fixpoint utf8_decode (pending : N) (need : nat) (bs : list N) : pystr :=
  match bs with
  | [] => []
  | b :: bs' =>
    match need with
    | O =>
      if b <? 128 then b :: utf8_decode 0 0 bs'
      else if b <? 224 then utf8_decode (b - 192) 1 bs'
      else if b <? 240 then utf8_decode (b - 224) 2 bs'
      else utf8_decode (b - 240) 3 bs'
    | S O => (pending * 64 + (b - 128)) :: utf8_decode 0 0 bs'
    | S n => utf8_decode (pending * 64 + (b - 128)) n bs'
    end
  end.

Definition py (s : string) : pystr :=
  utf8_decode 0 0 (map N_of_ascii (list_ascii_of_string s)).

Definition in_range (lo hi c : N) : bool := (lo <=? c) && (c <=? hi).

Definition is_ascii (c : N) : bool := c <? 128.

Definition ascii_lower (c : N) : N := if in_range 65 90 c then c + 32 else c.
Definition ascii_upper (c : N) : N := if in_range 97 122 c then c - 32 else c.

Fixpoint pystr_eqb (a b : pystr) : bool :=
  match a, b with
  | [], [] => true
  | x :: a', y :: b' => (x =? y) && pystr_eqb a' b'
  | _, _ => false
  end.

(** Truthiness of a string, and of an optional string. *)
Definition truthy (s : pystr) : bool := match s with [] => false | _ => true end.
Definition truthy_opt (o : option pystr) : bool :=
  match o with Some s => truthy s | None => false end.

(** [prefix in s] at the head of [s]. *)
Fixpoint starts_with (p s : pystr) : bool :=
  match p, s with
  | [], _ => true
  | x :: p', y :: s' => (x =? y) && starts_with p' s'
  | _ :: _, [] => false
  end.

(** [sub in s] *)
Fixpoint py_in (sub s : pystr) : bool :=
  starts_with sub s || match s with [] => false | _ :: s' => py_in sub s' end.

(** [s.split(sep)] for a one-character separator. *)
Fixpoint split_on (sep : N) (s : pystr) : list pystr :=
  match s with
  | [] => [[]]
  | c :: s' =>
    if c =? sep then [] :: split_on sep s'
    else match split_on sep s' with
         | [] => [[c]]
         | w :: ws => (c :: w) :: ws
         end
  end.

(** [s.endswith(suffix)] *)
Definition ends_with (suffix s : pystr) : bool := starts_with (rev suffix) (rev s).

(** [s[:-n]] for [n] > 0 *)
Definition drop_last (n : nat) (s : pystr) : pystr := firstn (length s - n) s.

(** [str(n)] for a non-negative integer. *)
Definition str_of_nat (n : nat) : pystr := py (NilZero.string_of_uint (Nat.to_uint n)).

(** [s.rsplit(sep, 1)[1]] for a one-character separator: what follows the
    last separator, [None] (IndexError) when there is none. *)
Fixpoint after_last (sep : N) (s : pystr) : option pystr :=
  match s with
  | [] => None
  | c :: s' =>
    match after_last sep s' with
    | Some t => Some t
    | None => if c =? sep then Some s' else None
    end
  end.

Section WithUnicode.
Context {U : UnicodeTables}.

Definition isspace (c : N) : bool :=
  if is_ascii c then in_range 9 13 c || in_range 28 32 c else uc_isspace c.

(** [\d] of a [str] pattern. *)
Definition isdecimal (c : N) : bool :=
  if is_ascii c then in_range 48 57 c else uc_isdecimal c.

Definition decimal_value (c : N) : N :=
  if is_ascii c then c - 48 else uc_decimal_value c.

(** [\w] of a [str] pattern. *)
Definition isword (c : N) : bool :=
  if is_ascii c
  then in_range 48 57 c || in_range 65 90 c || in_range 97 122 c || (c =? 95)
  else uc_isalnum c.

Definition char_isdigit (c : N) : bool :=
  if is_ascii c then in_range 48 57 c else uc_isdigit c.

Definition char_isupper (c : N) : bool :=
  if is_ascii c then in_range 65 90 c else uc_isupper c.

(** [s.isdigit()] *)
Definition str_isdigit (s : pystr) : bool := truthy s && forallb char_isdigit s.

(** [s.lower()] *)
Definition lower (s : pystr) : pystr :=
  if forallb is_ascii s then map ascii_lower s else uc_lower s.

(** [c.upper()] for a one-character string. *)
Definition upper1 (c : N) : pystr :=
  if is_ascii c then [ascii_upper c] else uc_upper1 c.

Fixpoint lstrip (s : pystr) : pystr :=
  match s with
  | c :: s' => if isspace c then lstrip s' else s
  | [] => []
  end.

Definition rstrip (s : pystr) : pystr := rev (lstrip (rev s)).

(** [s.strip()] *)
Definition strip (s : pystr) : pystr := rstrip (lstrip s).

End WithUnicode.

End PyStr.

(** ** Python's [re], as far as the sources use it *)

Module Re.
Import PyStr.

Inductive cset_item :=
| CChar (c : N)
| CRange (lo hi : N)
| CDigit                       (* \d *)
| CSpace                       (* \s *)
| CWord.                       (* \w *)

Inductive regex :=
| REmpty
| RChar (c : N)
| RAny                                   (* .  : anything but a newline *)
| RSet (neg : bool) (items : list cset_item)
| RBol                                   (* ^ *)
| REol                                   (* $ *)
| RWordB                                 (* \b *)
| RSeq (r1 r2 : regex)
| RAlt (r1 r2 : regex)
| RRep (r : regex) (lo : nat) (hi : option nat) (greedy : bool)
| RGroup (idx : nat) (r : regex).        (* capturing group number idx *)

Record flags := { ignorecase : bool; multiline : bool }.

Definition NOFLAGS := {| ignorecase := false; multiline := false |}.
Definition IGNORECASE := {| ignorecase := true; multiline := false |}.
Definition IGNORECASE_MULTILINE := {| ignorecase := true; multiline := true |}.

(** *** Compiling a pattern string *)

Definition option_bind {A B} (o : option A) (f : A -> option B) : option B :=
  match o with Some a => f a | None => None end.

Notation "x <- a ;; b" := (option_bind a (fun x => b))
  (at level 61, a at next level, right associativity).
Notation "' p <- a ;; b" := (option_bind a (fun x => match x with p => b end))
  (at level 61, p pattern, a at next level, right associativity).

Definition is_ascii_alnum (c : N) : bool :=
  in_range 48 57 c || in_range 65 90 c || in_range 97 122 c.

(** A run of decimal digits, as a number. *)
Fixpoint parse_nat (acc : option nat) (s : pystr) : option nat * pystr :=
  match s with
  | c :: s' =>
    if in_range 48 57 c
    then parse_nat (Some (match acc with Some a => a * 10 | None => O end
                          + N.to_nat (c - 48))%nat) s'
    else (acc, s)
  | [] => (acc, s)
  end.

(** One member of a bracketed set that stands for itself or for a class. *)
Definition class_member (s : pystr) : option (cset_item * pystr) :=
  match s with
  | 92 :: e :: s' =>
    if e =? 100 then Some (CDigit, s')
    else if e =? 115 then Some (CSpace, s')
    else if e =? 119 then Some (CWord, s')
    else if is_ascii_alnum e then None
    else Some (CChar e, s')
  | 92 :: [] => None
  | c :: s' => Some (CChar c, s')
  | [] => None
  end.

(** The members of a bracketed set, up to and including the closing bracket. *)
Fixpoint parse_set (fuel : nat) (s : pystr) : option (list cset_item * pystr) :=
  match fuel with
  | O => None
  | S f =>
    match s with
    | 93 :: s' => Some ([], s')
    | _ =>
      '(it, s1) <- class_member s ;;
      match it, s1 with
      | CChar lo, 45 :: c2 :: s2 =>
        if c2 =? 93
        then '(rest, s3) <- parse_set f s1 ;; Some (it :: rest, s3)
        else
          '(it2, s3) <- class_member (c2 :: s2) ;;
          match it2 with
          | CChar hi => '(rest, s4) <- parse_set f s3 ;; Some (CRange lo hi :: rest, s4)
          | _ => None
          end
      | _, _ => '(rest, s3) <- parse_set f s1 ;; Some (it :: rest, s3)
      end
    end
  end.

(** A quantifier suffix: bounds and greediness. *)
Definition parse_quant (s : pystr) : option (option (nat * option nat * bool) * pystr) :=
  let lazy (b : nat * option nat) (s' : pystr) :=
    match s' with
    | 63 :: s'' => Some (Some (b, false), s'')
    | _ => Some (Some (b, true), s')
    end in
  match s with
  | 42 :: s' => lazy (O, None) s'
  | 43 :: s' => lazy (1%nat, None) s'
  | 63 :: s' => lazy (O, Some 1%nat) s'
  | 123 :: s' =>
    match parse_nat None s' with
    | (Some lo, 125 :: s1) => lazy (lo, Some lo) s1
    | (Some lo, 44 :: s1) =>
      match parse_nat None s1 with
      | (hi, 125 :: s2) => lazy (lo, hi) s2
      | _ => None
      end
    | _ => None
    end
  | _ => Some (None, s)
  end.

Definition parse_atom (rec : pystr -> nat -> option (regex * pystr * nat))
    (s : pystr) (g : nat) : option (regex * pystr * nat) :=
  match s with
  | [] => None
  | c :: s' =>
    if c =? 40 then
      match s' with
      | 63 :: 58 :: s'' =>
        '(r, s1, g1) <- rec s'' g ;;
        match s1 with 41 :: s2 => Some (r, s2, g1) | _ => None end
      | 63 :: _ => None
      | _ =>
        '(r, s1, g1) <- rec s' (S g) ;;
        match s1 with 41 :: s2 => Some (RGroup (S g) r, s2, g1) | _ => None end
      end
    else if c =? 91 then
      match s' with
      | 94 :: s'' =>
        '(items, s1) <- parse_set (S (length s'')) s'' ;; Some (RSet true items, s1, g)
      | _ =>
        '(items, s1) <- parse_set (S (length s')) s' ;; Some (RSet false items, s1, g)
      end
    else if c =? 92 then
      match s' with
      | e :: s'' =>
        if e =? 100 then Some (RSet false [CDigit], s'', g)
        else if e =? 115 then Some (RSet false [CSpace], s'', g)
        else if e =? 119 then Some (RSet false [CWord], s'', g)
        else if e =? 98 then Some (RWordB, s'', g)
        else if is_ascii_alnum e then None
        else Some (RChar e, s'', g)
      | [] => None
      end
    else if c =? 46 then Some (RAny, s', g)
    else if c =? 94 then Some (RBol, s', g)
    else if c =? 36 then Some (REol, s', g)
    else if (c =? 42) || (c =? 43) || (c =? 63) || (c =? 123) || (c =? 41) || (c =? 124)
    then None
    else Some (RChar c, s', g)
  end.

Inductive pmode := PAlt | PSeq.

(** Alternations ([PAlt]) of sequences ([PSeq]) of quantified atoms; [g] is
    the number of capturing groups opened so far. *)
Fixpoint parse (fuel : nat) (mode : pmode) (s : pystr) (g : nat)
    : option (regex * pystr * nat) :=
  match fuel with
  | O => None
  | S f =>
    match mode with
    | PAlt =>
      '(r1, s1, g1) <- parse f PSeq s g ;;
      match s1 with
      | 124 :: s2 => '(r2, s3, g2) <- parse f PAlt s2 g1 ;; Some (RAlt r1 r2, s3, g2)
      | _ => Some (r1, s1, g1)
      end
    | PSeq =>
      match s with
      | [] => Some (REmpty, s, g)
      | c :: _ =>
        if (c =? 124) || (c =? 41) then Some (REmpty, s, g)
        else
          '(a, s1, g1) <- parse_atom (parse f PAlt) s g ;;
          '(q, s2) <- parse_quant s1 ;;
          '(r, s3, g2) <- parse f PSeq s2 g1 ;;
          match q with
          | Some (lo, hi, greedy) => Some (RSeq (RRep a lo hi greedy) r, s3, g2)
          | None => Some (RSeq a r, s3, g2)
          end
      end
    end
  end.

(** [re.compile(pattern)]; [None] for a pattern outside the supported syntax. *)
Definition compile (pattern : pystr) : option regex :=
  match parse (2 * length pattern + 2) PAlt pattern O with
  | Some (r, [], _) => Some r
  | _ => None
  end.

(** *** Matching *)

Section WithUnicode.
Context {U : UnicodeTables}.

(** A pattern literal against a character.  The only literals of the
    sources' patterns that are not ASCII are the currency signs, which have
    no case and match themselves only. *)
Definition lit_match (ic : bool) (p c : N) : bool :=
  if ic then
    if is_ascii p then
      if is_ascii c then ascii_lower p =? ascii_lower c else uc_ci_lit p c
    else p =? c
  else p =? c.

Definition item_match (ic : bool) (it : cset_item) (c : N) : bool :=
  match it with
  | CChar p => lit_match ic p c
  | CRange lo hi =>
    if ic then
      if is_ascii c
      then in_range lo hi (ascii_lower c) || in_range lo hi (ascii_upper c)
      else uc_ci_range lo hi c
    else in_range lo hi c
  | CDigit => isdecimal c
  | CSpace => isspace c
  | CWord => isword c
  end.

Definition set_match (ic : bool) (neg : bool) (items : list cset_item) (c : N) : bool :=
  xorb neg (existsb (fun it => item_match ic it c) items).

Definition captures := list (nat * pystr).

Definition isword_opt (o : option N) : bool :=
  match o with Some c => isword c | None => false end.

Definition below (n : nat) (hi : option nat) : bool :=
  match hi with Some h => Nat.ltb n h | None => true end.

(** What follows a pattern: it receives the position reached and answers
    with the result of the whole match. *)
Definition cont (A : Type) := option N -> pystr -> captures -> option A.

(** A matching step that only looks at what its continuation returns. *)
Definition extensional {A}
    (step : option N -> pystr -> captures -> cont A -> option A) : Prop :=
  forall prev s cs (k1 k2 : cont A),
    (forall prev' s' cs', k1 prev' s' cs' = k2 prev' s' cs') ->
    step prev s cs k1 = step prev s cs k2.

(** The loop of a repeat [r{lo,hi}]: [step] matches [r] once, [n] counts
    the iterations made.  A greedy repeat prefers one more iteration, a lazy
    one prefers to leave.  An iteration that consumes nothing is not taken
    (no repeated sub-pattern of the sources can match the empty string), so
    every iteration shortens the text and the fuel, one more than the length
    of the text, is never used up (lemma [rep_loop_fuel]). *)
Fixpoint rep_loop {A}
    (step : option N -> pystr -> captures ->
            (option N -> pystr -> captures -> option A) -> option A)
    (lo : nat) (hi : option nat) (greedy : bool)
    (k : option N -> pystr -> captures -> option A)
    (fuel : nat) (n : nat) (prev : option N) (s : pystr) (cs : captures)
    {struct fuel} : option A :=
  match fuel with
  | O => None
  | S fuel' =>
    let again (_ : unit) :=
      if below n hi then
        step prev s cs
          (fun prev' s' cs' =>
             if Nat.ltb (length s') (length s)
             then rep_loop step lo hi greedy k fuel' (S n) prev' s' cs' else None)
      else None in
    let leave (_ : unit) := if Nat.leb lo n then k prev s cs else None in
    if greedy then
      match again tt with Some a => Some a | None => leave tt end
    else
      match leave tt with Some a => Some a | None => again tt end
  end.

(** Backtracking matcher in continuation-passing style.  [prev] is the
    character before the current position ([None] at the start of the
    string), [s] the text from the current position on, [cs] the groups
    captured so far; [k] continues with what follows the pattern. *)
Fixpoint rmatch {A} (fl : flags) (r : regex) (prev : option N) (s : pystr)
    (cs : captures) (k : option N -> pystr -> captures -> option A) : option A :=
  match r with
  | REmpty => k prev s cs
  | RChar p =>
    match s with
    | c :: s' => if lit_match (ignorecase fl) p c then k (Some c) s' cs else None
    | [] => None
    end
  | RAny =>
    match s with
    | c :: s' => if c =? 10 then None else k (Some c) s' cs
    | [] => None
    end
  | RSet neg items =>
    match s with
    | c :: s' => if set_match (ignorecase fl) neg items c then k (Some c) s' cs else None
    | [] => None
    end
  | RBol =>
    match prev with
    | None => k prev s cs
    | Some c => if multiline fl && (c =? 10) then k prev s cs else None
    end
  | REol =>
    match s with
    | [] => k prev s cs
    | c :: s' =>
      if (c =? 10) && (multiline fl || match s' with [] => true | _ => false end)
      then k prev s cs else None
    end
  | RWordB =>
    if xorb (isword_opt prev) (isword_opt (hd_error s)) then k prev s cs else None
  | RSeq r1 r2 =>
    rmatch fl r1 prev s cs (fun prev' s' cs' => rmatch fl r2 prev' s' cs' k)
  | RAlt r1 r2 =>
    match rmatch fl r1 prev s cs k with
    | Some a => Some a
    | None => rmatch fl r2 prev s cs k
    end
  | RGroup idx r1 =>
    rmatch fl r1 prev s cs
      (fun prev' s' cs' => k prev' s' ((idx, firstn (length s - length s') s) :: cs'))
  | RRep r1 lo hi greedy =>
    rep_loop (rmatch fl r1) lo hi greedy k (S (length s)) O prev s cs
  end.

(** A match object: the text matched and the captured groups. *)
Record match_obj := { m_all : pystr; m_groups : captures }.

Fixpoint assoc (i : nat) (cs : captures) : option pystr :=
  match cs with
  | [] => None
  | (j, v) :: cs' => if Nat.eqb i j then Some v else assoc i cs'
  end.

(** [m.group(i)] for a group that took part in the match; every group the
    sources read is on the only path through its pattern. *)
Definition group (m : match_obj) (i : nat) : pystr :=
  match assoc i (m_groups m) with Some v => v | None => [] end.

(** [pattern.match] at the current position. *)
Definition match_here (fl : flags) (r : regex) (prev : option N) (s : pystr)
    : option match_obj :=
  rmatch fl r prev s []
    (fun _ s' cs => Some {| m_all := firstn (length s - length s') s; m_groups := cs |}).

Fixpoint search_from (fl : flags) (r : regex) (prev : option N) (s : pystr)
    : option match_obj :=
  match match_here fl r prev s with
  | Some m => Some m
  | None =>
    match s with
    | [] => None
    | c :: s' => search_from fl r (Some c) s'
    end
  end.

(** [re.search(pattern, s, flags)]: the leftmost match. *)
Definition search (fl : flags) (r : regex) (s : pystr) : option match_obj :=
  search_from fl r None s.

(** [re.sub(pattern, repl, s, flags=flags)] for a replacement without
    group references.  [skip] counts the characters of a match still to be
    dropped. *)
Fixpoint sub_from (fl : flags) (r : regex) (repl : pystr) (skip : nat)
    (prev : option N) (s : pystr) : pystr :=
  match s with
  | [] =>
    match skip, match_here fl r prev [] with
    | O, Some _ => repl
    | _, _ => []
    end
  | c :: s' =>
    match skip with
    | S n => sub_from fl r repl n (Some c) s'
    | O =>
      match match_here fl r prev s with
      | Some m =>
        match length (m_all m) with
        | O => repl ++ c :: sub_from fl r repl O (Some c) s'
        | S n => repl ++ sub_from fl r repl n (Some c) s'
        end
      | None => c :: sub_from fl r repl O (Some c) s'
      end
    end
  end.

Definition sub (fl : flags) (r : regex) (repl : pystr) (s : pystr) : pystr :=
  sub_from fl r repl O None s.

(** The module-level functions, which take the pattern as a string.  Every
    pattern of the sources compiles (lemma [source_patterns_compile]), so
    the [None] branches below are not taken. *)
Definition re_search (pattern : pystr) (s : pystr) (fl : flags) : option match_obj :=
  match compile pattern with
  | Some r => search fl r s
  | None => None
  end.

Definition re_sub (pattern repl s : pystr) (fl : flags) : pystr :=
  match compile pattern with
  | Some r => sub fl r repl s
  | None => s
  end.

(** [re.match(pattern, s, flags)]: a match at the start of [s]. *)
Definition re_match (pattern s : pystr) (fl : flags) : option match_obj :=
  match compile pattern with
  | Some r => match_here fl r None s
  | None => None
  end.

End WithUnicode.

End Re.

(** ** Numbers and raising calls *)

Local Open Scope Q_scope.

Definition Qlt_bool (x y : Q) : bool := negb (Qle_bool y x).

(** [x or 0] for a number that may be [None]. *)
Definition or0 (o : option Q) : Q :=
  match o with
  | Some x => if Qeq_bool x 0 then 0 else x
  | None => 0
  end.

(** [sum(xs)]: the built-in, starting from 0. *)
Definition py_sum (xs : list Q) : Q := fold_left Qplus xs 0.

(** The result of a call that may raise. *)
Inductive outcome (A : Type) :=
| Returned (a : A)
| Raised.
Arguments Raised {A}.

(** ** structured_data.py *)

Module Address.
Record t := {
  street : option pystr;
  city : option pystr;
  state : option pystr;
  postal_code : option pystr;
  country : option pystr
}.
Definition new : t :=
  {| street := None; city := None; state := None; postal_code := None; country := None |}.
Definition is_complete (a : t) : bool :=
  PyStr.truthy_opt (street a) && PyStr.truthy_opt (city a).
End Address.

Module Contact.
Record t := {
  phone : option pystr;
  email : option pystr;
  website : option pystr
}.
Definition new : t := {| phone := None; email := None; website := None |}.

Definition email_pattern : pystr :=
  PyStr.py "^[a-zA-Z0-9._%+-]+@[a-zA-Z0-9.-]+\.[a-zA-Z]{2,}$".

Definition validate_email {U : UnicodeTables} (c : t) : bool :=
  match email c with
  | Some e =>
    if PyStr.truthy e
    then match Re.re_match email_pattern e Re.NOFLAGS with Some _ => true | None => false end
    else true
  | None => true
  end.
End Contact.

Module InvoiceMetadata.
Record t := {
  invoice_number : option pystr;
  invoice_date : option pystr;
  due_date : option pystr;
  po_number : option pystr;
  currency : option pystr;
  language : option pystr
}.
Definition new : t :=
  {| invoice_number := None; invoice_date := None; due_date := None; po_number := None;
     currency := Some (PyStr.py "USD"); language := Some (PyStr.py "en") |}.

Definition date_pattern : pystr := PyStr.py "^\d{4}-\d{2}-\d{2}$".

(** A date that is present and does not have the shape of the pattern. *)
Definition bad_date {U : UnicodeTables} (date : option pystr) : bool :=
  match date with
  | Some d =>
    PyStr.truthy d
    && match Re.re_match date_pattern d Re.NOFLAGS with Some _ => false | None => true end
  | None => false
  end.

Definition validate_dates {U : UnicodeTables} (m : t) : list pystr :=
  (if bad_date (invoice_date m)
   then [PyStr.py "Invoice date must be in YYYY-MM-DD format"] else [])
  ++ (if bad_date (due_date m)
      then [PyStr.py "Due date must be in YYYY-MM-DD format"] else []).
End InvoiceMetadata.

Module VendorDetails.
Record t := {
  name : option pystr;
  address : Address.t;
  contact : Contact.t;
  tax_id : option pystr;
  registration_number : option pystr
}.
Definition new : t :=
  {| name := None; address := Address.new; contact := Contact.new;
     tax_id := None; registration_number := None |}.
End VendorDetails.

Module CustomerDetails.
Record t := {
  name : option pystr;
  address : Address.t;
  contact : Contact.t;
  customer_id : option pystr
}.
Definition new : t :=
  {| name := None; address := Address.new; contact := Contact.new; customer_id := None |}.
End CustomerDetails.

Module LineItem.
Record t := {
  item_id : option pystr;
  description : option pystr;
  quantity : option Q;
  unit_price : option Q;
  unit_type : option pystr;
  subtotal : option Q;
  tax_rate : option Q;
  tax_amount : option Q;
  total : option Q;
  category : pystr
}.

(** [LineItem(description=.., quantity=.., unit_price=.., subtotal=..,
    total=.., category=..)], the other fields at their defaults. *)
Definition new (description : option pystr) (quantity unit_price subtotal total : option Q)
    (category : pystr) : t :=
  {| item_id := None; description := description; quantity := quantity;
     unit_price := unit_price; unit_type := None; subtotal := subtotal;
     tax_rate := Some 0; tax_amount := Some 0; total := total; category := category |}.

(** The three assignments of [calculate_totals], each reading the fields
    as the earlier ones left them. *)
Definition new_subtotal (it : t) : option Q :=
  match unit_price it, quantity it with
  | Some p, Some q => Some (q * p)
  | _, _ => subtotal it
  end.

Definition new_tax_amount (it : t) : option Q :=
  match tax_rate it, new_subtotal it with
  | Some r, Some s => if Qlt_bool 0 r then Some (s * r) else tax_amount it
  | _, _ => tax_amount it
  end.

Definition new_total (it : t) : option Q :=
  match new_subtotal it, new_tax_amount it with
  | Some s, Some ta => Some (s + ta)
  | Some s, None => Some s
  | None, _ => total it
  end.

Definition calculate_totals (it : t) : t :=
  {| item_id := item_id it; description := description it; quantity := quantity it;
     unit_price := unit_price it; unit_type := unit_type it;
     subtotal := new_subtotal it;
     tax_rate := tax_rate it;
     tax_amount := new_tax_amount it;
     total := new_total it;
     category := category it |}.

Definition negative (o : option Q) : bool :=
  match o with Some x => Qlt_bool x 0 | None => false end.

Definition validate (it : t) : list pystr :=
  (if negb (PyStr.truthy_opt (description it))
   then [PyStr.py "Line item description is required"] else [])
  ++ (if negative (quantity it) then [PyStr.py "Quantity cannot be negative"] else [])
  ++ (if negative (unit_price it) then [PyStr.py "Unit price cannot be negative"] else [])
  ++ (if match tax_rate it with
         | Some r => Qlt_bool r 0 || Qlt_bool 1 r
         | None => false
         end
      then [PyStr.py "Tax rate must be between 0 and 1"] else []).
End LineItem.

Module TaxBreakdown.
Record t := {
  tax_type : pystr;
  rate : Q;
  amount : Q;
  description : option pystr
}.
End TaxBreakdown.

Module Summary.
Record t := {
  subtotal : option Q;
  tax_breakdown : list TaxBreakdown.t;
  total_tax : option Q;
  discounts : option Q;
  shipping : option Q;
  grand_total : option Q
}.
Definition new : t :=
  {| subtotal := Some 0; tax_breakdown := []; total_tax := Some 0;
     discounts := Some 0; shipping := Some 0; grand_total := Some 0 |}.

Definition is_tax (it : LineItem.t) : bool :=
  PyStr.pystr_eqb (LineItem.category it) (PyStr.py "tax").

Definition calculate_totals (s : t) (line_items : list LineItem.t) : t :=
  let subtotal' :=
    py_sum (map (fun item => or0 (LineItem.subtotal item))
                (filter (fun item => negb (is_tax item)) line_items)) in
  let total_tax' := py_sum (map (fun item => or0 (LineItem.tax_amount item)) line_items) in
  {| subtotal := Some subtotal';
     tax_breakdown := tax_breakdown s;
     total_tax := Some total_tax';
     discounts := discounts s;
     shipping := shipping s;
     grand_total :=
       Some (or0 (Some subtotal') + or0 (Some total_tax') + or0 (shipping s)
             - or0 (discounts s)) |}.
End Summary.

Module BankDetails.
Record t := {
  account_name : option pystr;
  account_number : option pystr;
  routing_number : option pystr;
  iban : option pystr;
  swift_code : option pystr
}.
Definition new : t :=
  {| account_name := None; account_number := None; routing_number := None;
     iban := None; swift_code := None |}.
End BankDetails.

Module PaymentTerms.
Record t := {
  terms : option pystr;
  payment_methods : list pystr;
  bank_details : BankDetails.t
}.
Definition new : t :=
  {| terms := None; payment_methods := []; bank_details := BankDetails.new |}.
End PaymentTerms.

Module AdditionalInfo.
Record t := {
  notes : option pystr;
  terms_conditions : option pystr;
  reference_numbers : list pystr
}.
Definition new : t := {| notes := None; terms_conditions := None; reference_numbers := [] |}.
End AdditionalInfo.

Module ExtractionMetadata.
Record t := {
  method : pystr;
  model : option pystr;
  confidence_score : option Q;
  processing_time : option Q;
  fallback_used : bool;
  extracted_at : pystr;
  errors : list pystr
}.
(** [now] is what [datetime.now().isoformat()] returns at creation. *)
Definition new (now : pystr) : t :=
  {| method := PyStr.py "unknown"; model := None; confidence_score := None;
     processing_time := None; fallback_used := false; extracted_at := now; errors := [] |}.
End ExtractionMetadata.

Module StructuredInvoiceData.
Record t := {
  extraction_metadata : ExtractionMetadata.t;
  invoice_metadata : InvoiceMetadata.t;
  vendor_details : VendorDetails.t;
  customer_details : CustomerDetails.t;
  line_items : list LineItem.t;
  summary : Summary.t;
  payment_terms : PaymentTerms.t;
  additional_info : AdditionalInfo.t
}.
Definition new (now : pystr) : t :=
  {| extraction_metadata := ExtractionMetadata.new now;
     invoice_metadata := InvoiceMetadata.new;
     vendor_details := VendorDetails.new;
     customer_details := CustomerDetails.new;
     line_items := [];
     summary := Summary.new;
     payment_terms := PaymentTerms.new;
     additional_info := AdditionalInfo.new |}.

(** Every line item is recalculated in place, then the summary is
    recalculated from the refreshed items. *)
Definition calculate_all_totals (d : t) : t :=
  let items := map LineItem.calculate_totals (line_items d) in
  {| extraction_metadata := extraction_metadata d;
     invoice_metadata := invoice_metadata d;
     vendor_details := vendor_details d;
     customer_details := customer_details d;
     line_items := items;
     summary := Summary.calculate_totals (summary d) items;
     payment_terms := payment_terms d;
     additional_info := additional_info d |}.

(** The loop over [enumerate(self.line_items)], from index [i]. *)
Fixpoint line_item_errors (i : nat) (items : list LineItem.t) : list pystr :=
  match items with
  | [] => []
  | item :: items' =>
    map (fun error =>
           PyStr.py "Line item " ++ PyStr.str_of_nat (i + 1) ++ PyStr.py ": " ++ error)
        (LineItem.validate item)
    ++ line_item_errors (S i) items'
  end.

Definition validate {U : UnicodeTables} (d : t) : list pystr :=
  InvoiceMetadata.validate_dates (invoice_metadata d)
  ++ (if negb (Contact.validate_email (VendorDetails.contact (vendor_details d)))
      then [PyStr.py "Invalid vendor email format"] else [])
  ++ (if negb (Contact.validate_email (CustomerDetails.contact (customer_details d)))
      then [PyStr.py "Invalid customer email format"] else [])
  ++ line_item_errors 0 (line_items d).
End StructuredInvoiceData.

(** [StructuredInvoiceData.get_legacy_format] and the flat dict it builds. *)
Module LegacyFormat.

Record item := {
  description : option pystr;
  quantity : Q;
  unit_price : option Q;
  amount : Q;
  item_type : pystr;
  formatted_amount : pystr;
  formatted_quantity : pystr
}.

Record t := {
  invoice_number : option pystr;
  date : option pystr;
  vendor : option pystr;
  total : option pystr;
  line_items : list item;
  processed_at : pystr;
  extraction_method : pystr;
  structured_data : StructuredInvoiceData.t      (* self.to_dict() *)
}.

(** [int(x)]: towards zero. *)
Definition int (x : Q) : Z := Z.quot (Qnum x) (Zpos (Qden x)).

(** A list comprehension whose element expression may raise. *)
Fixpoint comprehension {A B} (f : A -> outcome B) (l : list A) : outcome (list B) :=
  match l with
  | [] => Returned []
  | a :: l' =>
    match f a with
    | Raised => Raised
    | Returned b =>
      match comprehension f l' with
      | Raised => Raised
      | Returned bs => Returned (b :: bs)
      end
    end
  end.

Section Formatting.
(** The renderings of a float that the f-strings and [str] use. *)
Variable str_float : Q -> pystr.      (* str(x) *)
Variable format_2f : Q -> pystr.      (* f"{x:.2f}" *)
Variable format_0f : Q -> pystr.      (* f"{x:.0f}" *)

(** One dict of the comprehension; formatting a [None] total and [int] of a
    [None] quantity raise TypeError. *)
Definition legacy_item (it : LineItem.t) : outcome item :=
  match LineItem.total it with
  | None => Raised
  | Some total =>
    match LineItem.quantity it with
    | None => Raised
    | Some quantity =>
      Returned
        {| description := LineItem.description it;
           quantity := quantity;
           unit_price := LineItem.unit_price it;
           amount := total;
           item_type := LineItem.category it;
           formatted_amount := PyStr.py "â‚¹" ++ format_2f total;
           formatted_quantity :=
             if Qeq_bool quantity (inject_Z (int quantity))
             then format_0f quantity else format_2f quantity |}
    end
  end.

Definition get_legacy_format (d : StructuredInvoiceData.t) : outcome t :=
  let total :=
    match Summary.grand_total (StructuredInvoiceData.summary d) with
    | Some g => if Qeq_bool g 0 then None else Some (str_float g)
    | None => None
    end in
  match comprehension legacy_item (StructuredInvoiceData.line_items d) with
  | Raised => Raised
  | Returned items =>
    Returned
      {| invoice_number :=
           InvoiceMetadata.invoice_number (StructuredInvoiceData.invoice_metadata d);
         date := InvoiceMetadata.invoice_date (StructuredInvoiceData.invoice_metadata d);
         vendor := VendorDetails.name (StructuredInvoiceData.vendor_details d);
         total := total;
         line_items := items;
         processed_at :=
           ExtractionMetadata.extracted_at (StructuredInvoiceData.extraction_metadata d);
         extraction_method :=
           ExtractionMetadata.method (StructuredInvoiceData.extraction_metadata d);
         structured_data := d |}
  end.

End Formatting.
End LegacyFormat.

(** ** config.py *)

Module AIConfig.
(** The settings read from the environment when the module is imported. *)
Record t := {
  api_key : option pystr;
  model : pystr;
  temperature : Q;
  max_tokens : Z;
  enabled : bool;
  fallback_enabled : bool;
  timeout : Z;
  max_retries : Z
}.

Definition is_configured (c : t) : bool := PyStr.truthy_opt (api_key c) && enabled c.

Definition validate (c : t) : list pystr :=
  (if enabled c && negb (PyStr.truthy_opt (api_key c))
   then [PyStr.py "GEMINI_API_KEY is required when AI extraction is enabled"] else [])
  ++ (if Qlt_bool (temperature c) 0 || Qlt_bool 2 (temperature c)
      then [PyStr.py "GEMINI_TEMPERATURE must be between 0 and 2"] else [])
  ++ (if (max_tokens c <? 1)%Z || (32768 <? max_tokens c)%Z
      then [PyStr.py "GEMINI_MAX_TOKENS must be between 1 and 32768"] else [])
  ++ (if (timeout c <? 1)%Z || (300 <? timeout c)%Z
      then [PyStr.py "GEMINI_TIMEOUT must be between 1 and 300 seconds"] else []).
End AIConfig.

(** ** gemini_extractor.py *)

Module GeminiAIExtractor.

(** The extractor as the orchestrator sees it: whether it reports itself
    available, and what a call of [extract] does (the network call, its
    retries and the parsing of the reply are outside this development). *)
Record t := {
  is_available : bool;
  extract : pystr -> outcome (option StructuredInvoiceData.t * pystr)
}.

Definition add_if (b : bool) (w : Q) (score : Q) : Q := if b then score + w else score.

Definition positive (o : option Q) : bool :=
  match o with Some x => Qlt_bool 0 x | None => false end.

Definition detailed (item : LineItem.t) : bool :=
  PyStr.truthy_opt (LineItem.description item) && positive (LineItem.quantity item).

(** The block "Line items (3 points)": one point for a non-empty list, and
    half a point for each detailed item, two points at most. *)
Definition line_items_points (items : list LineItem.t) (score : Q) : Q :=
  match items with
  | [] => score
  | _ =>
    let score := score + 1 in
    let detailed_items := length (filter detailed items) in
    if Nat.ltb 0 detailed_items
    then score + Qmin 2 (inject_Z (Z.of_nat detailed_items) * (1 # 2))
    else score
  end.

(** [_calculate_confidence_score]; no operation in it can raise on a
    model built from the dataclasses, so the [except] branch (0.5) is not
    reached. *)
Definition _calculate_confidence_score (d : StructuredInvoiceData.t) : Q :=
  let im := StructuredInvoiceData.invoice_metadata d in
  let vd := StructuredInvoiceData.vendor_details d in
  let items := StructuredInvoiceData.line_items d in
  let sm := StructuredInvoiceData.summary d in
  let max_score := 10 in
  let score := 0 in
  let score := add_if (PyStr.truthy_opt (InvoiceMetadata.invoice_number im)) 1 score in
  let score := add_if (PyStr.truthy_opt (InvoiceMetadata.invoice_date im)) 1 score in
  let score := add_if (PyStr.truthy_opt (VendorDetails.name vd)) (3 # 2) score in
  let score :=
    add_if (PyStr.truthy_opt (Address.street (VendorDetails.address vd))
            || PyStr.truthy_opt (Address.city (VendorDetails.address vd))) 1 score in
  let score :=
    add_if (PyStr.truthy_opt (Contact.email (VendorDetails.contact vd))
            || PyStr.truthy_opt (Contact.phone (VendorDetails.contact vd))) (1 # 2) score in
  let score := line_items_points items score in
  let score := add_if (positive (Summary.grand_total sm)) 1 score in
  let score :=
    add_if (positive (Summary.subtotal sm) || positive (Summary.total_tax sm)) 1 score in
  Qmin 1 (score / max_score).

(** *** The extractor itself *)

(** [self.model.generate_content(prompt)] followed by [.text], at the given
    attempt (counted from 0): the text of the reply, or an exception. *)
Definition generative_model := pystr -> nat -> outcome pystr.

(** What a call of the extractor does besides computing: the requests it
    sends and the pauses it makes. *)
Inductive event :=
| Request (attempt : nat)
| Sleep (seconds : nat).

Section Extractor.
Context {U : UnicodeTables}.

(** The loop of [_generate_with_retry] from [attempt] on, with [remaining]
    attempts left of [max_retries]. *)
Fixpoint retry_loop (generate : nat -> outcome pystr) (max_retries : nat)
    (attempt remaining : nat) : option pystr * list event :=
  match remaining with
  | O => (None, [])
  | S remaining' =>
    match generate attempt with
    | Returned text =>
      if PyStr.truthy text then (Some (PyStr.strip text), [Request attempt])
      else
        let (r, events) := retry_loop generate max_retries (S attempt) remaining' in
        (r, Request attempt :: events)
    | Raised =>
      let pause :=
        if Nat.ltb attempt (max_retries - 1) then [Sleep (2 ^ attempt)] else [] in
      let (r, events) := retry_loop generate max_retries (S attempt) remaining' in
      (r, Request attempt :: pause ++ events)
    end
  end.

Definition _generate_with_retry (generate : nat -> outcome pystr) (max_retries : Z)
    : option pystr * list event :=
  retry_loop generate (Z.to_nat max_retries) O (Z.to_nat max_retries).

(** The first lines of [_parse_response]: the reply without its markdown
    code fence. *)
Definition unfence (response_text : pystr) : pystr :=
  let t := PyStr.strip response_text in
  let t := if PyStr.starts_with (PyStr.py "```json") t then skipn 7 t else t in
  let t := if PyStr.starts_with (PyStr.py "```") t then skipn 3 t else t in
  let t := if PyStr.ends_with (PyStr.py "```") t then PyStr.drop_last 3 t else t in
  PyStr.strip t.

(** The surroundings of [_parse_response]: [json.loads] followed by
    [from_dict] ([None] when either raises, or when the decoded values do
    not have the types of the dataclasses, in which case a later step
    raises: every exception makes [_parse_response] return [None]); the
    clock at the creation of the metadata; the time the call took. *)
Variable loads : pystr -> option StructuredInvoiceData.t.
Variable now : pystr.
Variable processing_time : Q.

Definition _parse_response (model_name : pystr) (response_text : pystr)
    : option StructuredInvoiceData.t :=
  match loads (unfence response_text) with
  | None => None
  | Some structured_data =>
    let d := StructuredInvoiceData.calculate_all_totals structured_data in
    let confidence_score := _calculate_confidence_score d in
    let with_metadata (errors : list pystr) :=
      {| StructuredInvoiceData.extraction_metadata :=
           {| ExtractionMetadata.method := PyStr.py "gemini_ai";
              ExtractionMetadata.model := Some model_name;
              ExtractionMetadata.confidence_score := Some confidence_score;
              ExtractionMetadata.processing_time := Some processing_time;
              ExtractionMetadata.fallback_used := false;
              ExtractionMetadata.extracted_at := now;
              ExtractionMetadata.errors := errors |};
         StructuredInvoiceData.invoice_metadata := StructuredInvoiceData.invoice_metadata d;
         StructuredInvoiceData.vendor_details := StructuredInvoiceData.vendor_details d;
         StructuredInvoiceData.customer_details := StructuredInvoiceData.customer_details d;
         StructuredInvoiceData.line_items := StructuredInvoiceData.line_items d;
         StructuredInvoiceData.summary := StructuredInvoiceData.summary d;
         StructuredInvoiceData.payment_terms := StructuredInvoiceData.payment_terms d;
         StructuredInvoiceData.additional_info := StructuredInvoiceData.additional_info d |} in
    Some (with_metadata (StructuredInvoiceData.validate (with_metadata [])))
  end.

(** The two fixed pieces of the prompt's f-string, before and after the
    invoice text. *)
Variable prompt_head prompt_tail : pystr.

Definition _create_extraction_prompt (text : pystr) : pystr :=
  prompt_head ++ text ++ prompt_tail.

(** The state of an extractor: its configuration and [self.model]. *)
Record state := {
  config : AIConfig.t;
  model : option generative_model
}.

(** [__init__]: [built] is what building the model with the key does, the
    model or an exception. *)
Definition _initialize_model (config : AIConfig.t) (built : outcome generative_model)
    : state :=
  {| config := config;
     model :=
       if AIConfig.is_configured config
       then match built with Returned m => Some m | Raised => None end
       else None |}.

Definition state_is_available (e : state) : bool :=
  match model e with Some _ => AIConfig.is_configured (config e) | None => false end.

(** [extract]: the pair it returns and what it did meanwhile. *)
Definition extract_with_events (e : state) (text : pystr)
    : (option StructuredInvoiceData.t * pystr) * list event :=
  match model e with
  | None => ((None, PyStr.py "model_unavailable"), [])
  | Some m =>
    let prompt := _create_extraction_prompt text in
    let (response, events) :=
      _generate_with_retry (m prompt) (AIConfig.max_retries (config e)) in
    match response with
    | Some r =>
      if PyStr.truthy r then
        match _parse_response (AIConfig.model (config e)) r with
        | Some structured_data => ((Some structured_data, PyStr.py "gemini_ai"), events)
        | None => ((None, PyStr.py "parse_error"), events)
        end
      else ((None, PyStr.py "no_response"), events)
    | None => ((None, PyStr.py "no_response"), events)
    end
  end.

(** The extractor as the orchestrator sees it. *)
Definition extractor (e : state) : t :=
  {| is_available := state_is_available e;
     extract := fun text => Returned (fst (extract_with_events e text)) |}.

End Extractor.

End GeminiAIExtractor.

(** ** app.py: class InvoiceProcessor *)

Module InvoiceProcessor.
Import PyStr Re.

(** [self.patterns] *)
Definition patterns : list (pystr * list pystr) :=
  [ (py "invoice_number",
     [ py "invoice\s*#?\s*:?\s*([A-Z0-9\-\/]+)";
       py "inv\s*#?\s*:?\s*([A-Z0-9\-\/]+)";
       py "bill\s*#?\s*:?\s*([A-Z0-9\-\/]+)";
       py "receipt\s*#?\s*:?\s*([A-Z0-9\-\/]+)";
       py "#\s*([A-Z0-9\-\/]+)";
       py "invoice\s*no\.?\s*:?\s*([A-Z0-9\-\/]+)" ]);
    (py "date",
     [ py "date\s*:?\s*(\d{1,2}[\/\-\.]\d{1,2}[\/\-\.]\d{2,4})";
       py "invoice\s*date\s*:?\s*(\d{1,2}[\/\-\.]\d{1,2}[\/\-\.]\d{2,4})";
       py "bill\s*date\s*:?\s*(\d{1,2}[\/\-\.]\d{1,2}[\/\-\.]\d{2,4})";
       py "(\d{4}-\d{2}-\d{2})";
       py "(\d{1,2}[\/\-\.]\d{1,2}[\/\-\.]\d{2,4})" ]);
    (py "total",
     [ py "total\s*:?\s*₹?\$?€?£?([0-9,]+\.?\d{0,2})";
       py "amount\s*due\s*:?\s*₹?\$?€?£?([0-9,]+\.?\d{0,2})";
       py "grand\s*total\s*:?\s*₹?\$?€?£?([0-9,]+\.?\d{0,2})";
       py "net\s*amount\s*:?\s*₹?\$?€?£?([0-9,]+\.?\d{0,2})";
       py "balance\s*due\s*:?\s*₹?\$?€?£?([0-9,]+\.?\d{0,2})" ]);
    (py "vendor",
     [ py "^([A-Z][A-Za-z\s&\.\-,]+(?:Inc|LLC|Corp|Ltd|Co|Company|Corporation|Limited|Pvt|Private|LLP|Partnership)\.?)";
       py "^([A-Z][A-Za-z\s&\.\-,]{5,50})";
       py "(?:from|bill\s*from)\s*:?\s*([A-Z][A-Za-z\s&\.\-,]+)";
       py "(?:vendor|supplier)\s*:?\s*([A-Z][A-Za-z\s&\.\-,]+)" ]);
    (py "vendor_address",
     [ py "(\d+\s+[A-Za-z\s\.\-,]+(?:Street|St|Avenue|Ave|Road|Rd|Lane|Ln|Drive|Dr|Boulevard|Blvd))";
       py "(P\.?O\.?\s*Box\s+\d+)";
       py "([A-Z][A-Za-z\s\.\-,]+,\s*[A-Z][A-Za-z\s]+,\s*\d{5,6})" ]);
    (py "vendor_phone",
     [ py "(?:phone|tel|mobile|contact)\s*:?\s*([+]?[\d\s\-\(\)]{10,15})";
       py "([+]?[\d\s\-\(\)]{10,15})" ]);
    (py "vendor_email",
     [ py "([a-zA-Z0-9._%+-]+@[a-zA-Z0-9.-]+\.[a-zA-Z]{2,})" ]);
    (py "customer",
     [ py "(?:bill\s*to|customer|client)\s*:?\s*([A-Z][A-Za-z\s&\.\-,]+)";
       py "(?:ship\s*to|deliver\s*to)\s*:?\s*([A-Z][A-Za-z\s&\.\-,]+)" ]) ].

(** [self.patterns.get(field_type, [])] *)
Fixpoint patterns_get (field_type : pystr) (tbl : list (pystr * list pystr)) : list pystr :=
  match tbl with
  | [] => []
  | (k, v) :: tbl' => if pystr_eqb k field_type then v else patterns_get field_type tbl'
  end.

(** The six line shapes of [extract_line_items], in the order of the list. *)
Definition line_patterns : list pystr :=
  [ py "^(\d+(?:\.\d+)?)\s+(.+?)\s+(?:₹|€|£)?([0-9,]+\.?\d{0,2})$";
    py "^(.+?)\s+(\d+(?:\.\d+)?)\s+(?:₹|€|£)?([0-9,]+\.?\d{0,2})\s+(?:₹|€|£)?([0-9,]+\.?\d{0,2})$";
    py "^([A-Z0-9\-]+)\s+(.+?)\s+(\d+(?:\.\d+)?)\s+(?:₹|€|£)?([0-9,]+\.?\d{0,2})$";
    py "^(.+?(?:GST|VAT|TAX|CGST|SGST|IGST|UTGST).*?)\s+(?:₹|€|£)?([0-9,]+\.?\d{0,2})$";
    py "^(.+?(?:charge|fee|discount|shipping|handling|delivery).*?)\s+(?:₹|€|£)?([0-9,]+\.?\d{0,2})$";
    py "^(.+?)\s+(?:₹|€|£)?([0-9,]+\.?\d{0,2})$" ].

Definition skip_patterns : list pystr :=
  [ py "^(qty|quantity|description|amount|total|subtotal|item|product).*$";
    py "^(invoice|bill|receipt|order).*$";
    py "^(page|continued|terms|conditions).*$";
    py "^(thank you|thanks|signature|authorized).*$";
    py "^\s*[-=_]+\s*$";
    py "^\s*\d+\s*$" ].

(** A draft line item: the dict that [_parse_line_item] builds.  (The two
    display strings that [_categorize_line_items] adds to each dict are
    left out.) *)
Record item := {
  item_type : pystr;
  product_code : option pystr;
  quantity : Q;
  description : pystr;
  unit_price : option Q;
  amount : Q;
  original_line : pystr
}.

Section WithUnicode.
Context {U : UnicodeTables}.

(** [float(s)] for a string of decimal digits, dots, signs and blanks,
    which is all its callers can pass: [Some] the number, [None] for
    ValueError. *)
Fixpoint digits_value (acc : N) (s : pystr) : N :=
  match s with
  | [] => acc
  | c :: s' => digits_value (acc * 10 + decimal_value c)%N s'
  end.

Fixpoint take_digits (s : pystr) : pystr * pystr :=
  match s with
  | c :: s' =>
    if isdecimal c then let (d, r) := take_digits s' in (c :: d, r) else ([], s)
  | [] => ([], [])
  end.

Fixpoint pow10 (n : nat) : positive :=
  match n with O => 1%positive | S n' => (10 * pow10 n')%positive end.

Definition float (s : pystr) : option Q :=
  let s := strip s in
  let (negative, body) :=
    match s with
    | 45%N :: r => (true, r)
    | 43%N :: r => (false, r)
    | _ => (false, s)
    end in
  let (ip, rest) := take_digits body in
  let frac :=
    match rest with
    | [] => Some []
    | 46%N :: f => if forallb isdecimal f then Some f else None
    | _ => None
    end in
  match frac with
  | Some f =>
    if truthy ip || truthy f then
      let v := Z.of_N (digits_value 0 (ip ++ f)) in
      Some (Qmake (if negative then - v else v) (pow10 (length f)))
    else None
  | None => None
  end.

(** The first pattern of the list that is found in [s], with its match. *)
Fixpoint first_search (ps : list pystr) (s : pystr) (fl : flags) : option match_obj :=
  match ps with
  | [] => None
  | pattern :: ps' =>
    match re_search pattern s fl with
    | Some m => Some m
    | None => first_search ps' s fl
    end
  end.

Definition skip_words : list pystr :=
  map py ["invoice"; "bill"; "receipt"; "tax"; "date"; "number"; "page"]%string.

Definition company_indicators : list pystr :=
  map py ["inc"; "llc"; "corp"; "ltd"; "co"; "company"; "corporation"; "limited";
          "pvt"; "private"]%string.

(** The tests that a header line passes before its name is cleaned
    ([line] is already stripped). *)
Definition header_candidate (line : pystr) : bool :=
  negb (negb (truthy line) || Nat.ltb (length line) 3)
  && negb (existsb (fun word => py_in word (lower line)) skip_words)
  && (existsb (fun indicator => py_in indicator (lower line)) company_indicators
      || (Nat.ltb 5 (length line)
          && match line with c :: _ => char_isupper c | [] => false end
          && negb (str_isdigit line))).

Definition clean_name (line : pystr) : pystr :=
  strip (re_sub (py "[^\w\s&\.\-,]") [] line NOFLAGS).

(** The loop over [lines[:10]]. *)
Fixpoint header_scan (lines : list pystr) : option pystr :=
  match lines with
  | [] => None
  | line :: lines' =>
    let line := strip line in
    if header_candidate line && Nat.ltb 3 (length (clean_name line))
    then Some (clean_name line)
    else header_scan lines'
  end.

Definition _extract_vendor_name (text : pystr) : option pystr :=
  let lines := split_on 10 text in
  match header_scan (firstn 10 lines) with
  | Some cleaned_name => Some cleaned_name
  | None =>
    match first_search (patterns_get (py "vendor") patterns) text IGNORECASE_MULTILINE with
    | Some m => Some (strip (group m 1))
    | None => None
    end
  end.

Definition extract_field (text field_type : pystr) : option pystr :=
  if pystr_eqb field_type (py "vendor") then _extract_vendor_name text
  else
    let text_lower := lower text in
    match first_search (patterns_get field_type patterns) text_lower IGNORECASE_MULTILINE with
    | Some m => Some (strip (group m 1))
    | None => None
    end.

Definition _clean_description (description : pystr) : pystr :=
  if negb (truthy description) then []
  else
    let description := re_sub (py "\s+") (py " ") (strip description) NOFLAGS in
    let description := re_sub (py "^(item|product|service):\s*") [] description IGNORECASE in
    match description with
    | c :: rest => upper1 c ++ rest
    | [] => []
    end.

Definition _clean_amount (amount_str : pystr) : Q :=
  if negb (truthy amount_str) then 0
  else
    let cleaned := re_sub (py "[^\d\.-]") [] amount_str NOFLAGS in
    match float cleaned with
    | Some x => x
    | None => 0
    end.

(** [None] stands both for the [return None] of an unknown pattern type and
    for the ValueError of [float], which the function catches. *)
Definition _parse_line_item (m : match_obj) (pattern_type : nat) (original_line : pystr)
    : option item :=
  match pattern_type with
  | 1%nat =>
    match float (group m 1) with
    | Some q =>
      Some {| item_type := py "product"; product_code := None; quantity := q;
              description := _clean_description (group m 2); unit_price := None;
              amount := _clean_amount (group m 3); original_line := original_line |}
    | None => None
    end
  | 2%nat =>
    match float (group m 2) with
    | Some q =>
      Some {| item_type := py "product"; product_code := None; quantity := q;
              description := _clean_description (group m 1);
              unit_price := Some (_clean_amount (group m 3));
              amount := _clean_amount (group m 4); original_line := original_line |}
    | None => None
    end
  | 3%nat =>
    match float (group m 3) with
    | Some q =>
      Some {| item_type := py "product"; product_code := Some (group m 1); quantity := q;
              description := _clean_description (group m 2); unit_price := None;
              amount := _clean_amount (group m 4); original_line := original_line |}
    | None => None
    end
  | 4%nat =>
    Some {| item_type := py "tax"; product_code := None; quantity := 1;
            description := _clean_description (group m 1); unit_price := None;
            amount := _clean_amount (group m 2); original_line := original_line |}
  | 5%nat =>
    Some {| item_type := py "service"; product_code := None; quantity := 1;
            description := _clean_description (group m 1); unit_price := None;
            amount := _clean_amount (group m 2); original_line := original_line |}
  | 6%nat =>
    Some {| item_type := py "other"; product_code := None; quantity := 1;
            description := _clean_description (group m 1); unit_price := None;
            amount := _clean_amount (group m 2); original_line := original_line |}
  | _ => None
  end.

Definition _validate_line_item (it : item) : bool :=
  if negb (truthy (description it)) then false
  else if Qlt_bool (amount it) 0 || Qlt_bool 999999 (amount it) then false
  else if Qlt_bool (quantity it) 0 || Qlt_bool 10000 (quantity it) then false
  else if Nat.ltb (length (description it)) 3 then false
  else true.

(** The inner loop over [enumerate(patterns)]: the number (from 1) and the
    match of the first pattern found in the line; the loop breaks there. *)
Fixpoint try_patterns (i : nat) (ps : list pystr) (line : pystr) : option (nat * match_obj) :=
  match ps with
  | [] => None
  | pattern :: ps' =>
    match re_search pattern line IGNORECASE with
    | Some m => Some (S i, m)
    | None => try_patterns (S i) ps' line
    end
  end.

Definition skipped (line : pystr) : bool :=
  negb (truthy line) || Nat.ltb (length line) 5
  || existsb (fun pattern =>
                match re_search pattern line IGNORECASE with
                | Some _ => true
                | None => false
                end) skip_patterns.

(** What one physical line appends to [line_items]. *)
Definition items_of_line (line : pystr) : list item :=
  let line := strip line in
  if skipped line then []
  else
    match try_patterns 0 line_patterns line with
    | Some (pattern_type, m) =>
      match _parse_line_item m pattern_type line with
      | Some it => if _validate_line_item it then [it] else []
      | None => []
      end
    | None => []
    end.

(** [line_items] when the loop over the lines ends. *)
Definition collect_line_items (text : pystr) : list item :=
  flat_map items_of_line (split_on 10 text).

(** The [categorized] dict of [_categorize_line_items]. *)
Record categorized := {
  products : list item;
  services : list item;
  taxes : list item;
  discounts : list item;
  other : list item;
  total_items : nat;
  summary_subtotal : Q;
  summary_tax_total : Q;
  summary_grand_total : Q
}.

Definition tax_words : list pystr :=
  map py ["gst"; "vat"; "tax"; "cgst"; "sgst"; "igst"; "utgst"]%string.
Definition service_words : list pystr :=
  map py ["shipping"; "delivery"; "handling"; "fee"; "charge"]%string.

(** One turn of the categorising loop. *)
Definition categorize_item (c : categorized) (it : item) : categorized :=
  let descr := lower (description it) in
  if pystr_eqb (item_type it) (py "tax") || existsb (fun w => py_in w descr) tax_words then
    {| products := products c; services := services c; taxes := taxes c ++ [it];
       discounts := discounts c; other := other c; total_items := total_items c;
       summary_subtotal := summary_subtotal c;
       summary_tax_total := summary_tax_total c + amount it;
       summary_grand_total := summary_grand_total c |}
  else if py_in (py "discount") descr || Qlt_bool (amount it) 0 then
    {| products := products c; services := services c; taxes := taxes c;
       discounts := discounts c ++ [it]; other := other c; total_items := total_items c;
       summary_subtotal := summary_subtotal c;
       summary_tax_total := summary_tax_total c;
       summary_grand_total := summary_grand_total c |}
  else if pystr_eqb (item_type it) (py "service")
          || existsb (fun w => py_in w descr) service_words then
    {| products := products c; services := services c ++ [it]; taxes := taxes c;
       discounts := discounts c; other := other c; total_items := total_items c;
       summary_subtotal := summary_subtotal c + amount it;
       summary_tax_total := summary_tax_total c;
       summary_grand_total := summary_grand_total c |}
  else if pystr_eqb (item_type it) (py "product") then
    {| products := products c ++ [it]; services := services c; taxes := taxes c;
       discounts := discounts c; other := other c; total_items := total_items c;
       summary_subtotal := summary_subtotal c + amount it;
       summary_tax_total := summary_tax_total c;
       summary_grand_total := summary_grand_total c |}
  else
    {| products := products c; services := services c; taxes := taxes c;
       discounts := discounts c; other := other c ++ [it]; total_items := total_items c;
       summary_subtotal := summary_subtotal c + amount it;
       summary_tax_total := summary_tax_total c;
       summary_grand_total := summary_grand_total c |}.

Definition categorize (items : list item) : categorized :=
  let c := fold_left categorize_item items
             {| products := []; services := []; taxes := []; discounts := []; other := [];
                total_items := length items; summary_subtotal := 0;
                summary_tax_total := 0; summary_grand_total := 0 |} in
  {| products := products c; services := services c; taxes := taxes c;
     discounts := discounts c; other := other c; total_items := total_items c;
     summary_subtotal := summary_subtotal c; summary_tax_total := summary_tax_total c;
     summary_grand_total := summary_subtotal c + summary_tax_total c |}.

(** The flat list that [_categorize_line_items] returns. *)
Definition _categorize_line_items (items : list item) : list item :=
  let c := categorize items in
  products c ++ services c ++ taxes c ++ discounts c ++ other c.

Definition extract_line_items (text : pystr) : list item :=
  _categorize_line_items (collect_line_items text).

End WithUnicode.

Section Processor.
Context {U : UnicodeTables}.

(** The surroundings of one call: the clock read when the model is
    created, [dateutil]'s parser followed by [strftime("%Y-%m-%d")] ([None]
    when it raises), [self.gemini_extractor] and [config.ai.fallback_enabled]. *)
Variable now : pystr.
Variable parse_date : pystr -> option pystr.
Variable gemini_extractor : GeminiAIExtractor.t.
Variable fallback_enabled : bool.

Definition currency_patterns : list (pystr * pystr) :=
  [ (py "₹", py "INR"); (py "\$", py "USD"); (py "€", py "EUR"); (py "£", py "GBP") ].

Fixpoint detect_currency (ps : list (pystr * pystr)) (text : pystr) (default : option pystr)
    : option pystr :=
  match ps with
  | [] => default
  | (pattern, currency) :: ps' =>
    match re_search pattern text NOFLAGS with
    | Some _ => Some currency
    | None => detect_currency ps' text default
    end
  end.

Definition set_if (new : option pystr) (old : option pystr) : option pystr :=
  if truthy_opt new then new else old.

(** The address fields filled from the comma-separated parts. *)
Definition parse_address (vendor_address : pystr) : Address.t :=
  let address_parts := split_on 44 vendor_address in
  let street := Some (strip (hd [] address_parts)) in
  let city :=
    if Nat.leb 2 (length address_parts) then Some (strip (nth 1 address_parts [])) else None in
  let last_part := strip (last address_parts []) in
  let postal_match :=
    if Nat.leb 3 (length address_parts)
    then re_search (py "\b\d{5,6}\b") last_part NOFLAGS else None in
  let state_country := strip (re_sub (py "\b\d{5,6}\b") [] last_part NOFLAGS) in
  {| Address.street := street;
     Address.city := city;
     Address.state :=
       match postal_match with
       | Some _ => if truthy state_country then Some state_country else None
       | None => None
       end;
     Address.postal_code :=
       match postal_match with Some m => Some (m_all m) | None => None end;
     Address.country := None |}.

Definition to_line_item (it : item) : LineItem.t :=
  LineItem.calculate_totals
    (LineItem.new (Some (description it)) (Some (quantity it)) (unit_price it)
                  (Some (amount it)) (Some (amount it)) (item_type it)).

Definition is_tax_item (it : item) : bool :=
  py_in (py "tax") (lower (description it)) || pystr_eqb (item_type it) (py "tax").

Definition _convert_regex_to_structured (text : pystr) : StructuredInvoiceData.t :=
  let invoice_number := extract_field text (py "invoice_number") in
  let date := extract_field text (py "date") in
  let vendor_name := extract_field text (py "vendor") in
  let total := extract_field text (py "total") in
  let line_items := extract_line_items text in
  let vendor_address := extract_field text (py "vendor_address") in
  let vendor_phone := extract_field text (py "vendor_phone") in
  let vendor_email := extract_field text (py "vendor_email") in
  let customer_name := extract_field text (py "customer") in
  let extraction_metadata :=
    {| ExtractionMetadata.method := py "regex_fallback";
       ExtractionMetadata.model := None;
       ExtractionMetadata.confidence_score := Some (6 # 10);
       ExtractionMetadata.processing_time := None;
       ExtractionMetadata.fallback_used := true;
       ExtractionMetadata.extracted_at := now;
       ExtractionMetadata.errors := [] |} in
  let invoice_metadata :=
    {| InvoiceMetadata.invoice_number := invoice_number;
       InvoiceMetadata.invoice_date :=
         match date with
         | Some d =>
           if truthy d
           then match parse_date d with Some iso => Some iso | None => Some d end
           else None
         | None => None
         end;
       InvoiceMetadata.due_date := None;
       InvoiceMetadata.po_number := None;
       InvoiceMetadata.currency := detect_currency currency_patterns text (Some (py "USD"));
       InvoiceMetadata.language := Some (py "en") |} in
  let vendor_details :=
    {| VendorDetails.name := vendor_name;
       VendorDetails.address :=
         match vendor_address with
         | Some a => if truthy a then parse_address a else Address.new
         | None => Address.new
         end;
       VendorDetails.contact :=
         {| Contact.phone := set_if vendor_phone None;
            Contact.email := set_if vendor_email None;
            Contact.website := None |};
       VendorDetails.tax_id := None;
       VendorDetails.registration_number := None |} in
  let customer_details :=
    {| CustomerDetails.name := set_if customer_name None;
       CustomerDetails.address := Address.new;
       CustomerDetails.contact := Contact.new;
       CustomerDetails.customer_id := None |} in
  let grand_total :=
    match total with
    | Some t =>
      if truthy t
      then match float (re_sub (py "[^\d\.]") [] t NOFLAGS) with
           | Some total_amount => Some total_amount
           | None => Some 0
           end
      else Some 0
    | None => Some 0
    end in
  let tax_items := filter is_tax_item line_items in
  let total_tax :=
    match tax_items with
    | [] => Some 0
    | _ => Some (py_sum (map amount tax_items))
    end in
  let summary :=
    {| Summary.subtotal := Some 0; Summary.tax_breakdown := [];
       Summary.total_tax := total_tax; Summary.discounts := Some 0;
       Summary.shipping := Some 0; Summary.grand_total := grand_total |} in
  StructuredInvoiceData.calculate_all_totals
    {| StructuredInvoiceData.extraction_metadata := extraction_metadata;
       StructuredInvoiceData.invoice_metadata := invoice_metadata;
       StructuredInvoiceData.vendor_details := vendor_details;
       StructuredInvoiceData.customer_details := customer_details;
       StructuredInvoiceData.line_items := map to_line_item line_items;
       StructuredInvoiceData.summary := summary;
       StructuredInvoiceData.payment_terms := PaymentTerms.new;
       StructuredInvoiceData.additional_info := AdditionalInfo.new |}.

(** The body of the [try] of [_extract_with_ai_fallback]: [Returned (Some
    r)] when it returns [r], [Returned None] when it falls out of the [if],
    [Raised] when an exception leaves it.  With no model, the warning's
    f-string reads [structured_data.extraction_metadata] of [None]; with a
    model whose score is [None], the comparison with 0.3 raises. *)
Definition try_gemini (text : pystr)
    : outcome (option (StructuredInvoiceData.t * pystr)) :=
  match GeminiAIExtractor.extract gemini_extractor text with
  | Raised => Raised
  | Returned (None, _) => Raised
  | Returned (Some structured_data, method) =>
    match ExtractionMetadata.confidence_score
            (StructuredInvoiceData.extraction_metadata structured_data) with
    | None => Raised
    | Some score =>
      if Qlt_bool (3 # 10) score then Returned (Some (structured_data, method))
      else Returned None
    end
  end.

Definition _extract_with_ai_fallback (text : pystr)
    : option StructuredInvoiceData.t * pystr :=
  let accepted :=
    if GeminiAIExtractor.is_available gemini_extractor then
      match try_gemini text with
      | Returned (Some r) => Some r
      | Returned None => None
      | Raised => None            (* except Exception: logged *)
      end
    else None in
  match accepted with
  | Some (structured_data, method) => (Some structured_data, method)
  | None =>
    if fallback_enabled
    then (Some (_convert_regex_to_structured text), py "regex_fallback")
    else (None, py "extraction_failed")
  end.

(** *** The legacy dicts and [process_invoice] *)

(** The renderings of a float ([str(x)], [f"{x:.2f}"], [f"{x:.0f}"]). *)
Variable str_float : Q -> pystr.
Variable format_2f : Q -> pystr.
Variable format_0f : Q -> pystr.

(** The line items of an [invoice_data] dict: the parser's dicts on the
    regex-only path, the dicts of the legacy format otherwise. *)
Inductive line_dicts :=
| Parsed (items : list item)
| Legacy (items : list LegacyFormat.item).

(** The [invoice_data] dict that [process_invoice] returns. *)
Record invoice_data := {
  d_invoice_number : option pystr;
  d_date : option pystr;
  d_vendor : option pystr;
  d_total : option pystr;
  d_line_items : line_dicts;
  d_raw_text : pystr;
  d_processed_at : pystr;
  d_extraction_method : pystr;
  d_structured_data : option StructuredInvoiceData.t   (* key absent on the regex-only path *)
}.

Definition _extract_with_regex_only (text : pystr) : invoice_data :=
  let date := extract_field text (py "date") in
  let total := extract_field text (py "total") in
  {| d_invoice_number := extract_field text (py "invoice_number");
     d_date :=
       match date with
       | Some d =>
         if truthy d
         then match parse_date d with Some iso => Some iso | None => Some d end
         else Some d
       | None => None
       end;
     d_vendor := extract_field text (py "vendor");
     d_total :=
       match total with
       | Some t => if truthy t then Some (re_sub (py "[^\d\.]") [] t NOFLAGS) else Some t
       | None => None
       end;
     d_line_items := Parsed (extract_line_items text);
     d_raw_text := text;
     d_processed_at := now;
     d_extraction_method := py "regex_only";
     d_structured_data := None |}.

(** [get_legacy_format()] with the [raw_text] key added. *)
Definition legacy_with_text (structured_data : StructuredInvoiceData.t) (text : pystr)
    : outcome invoice_data :=
  match LegacyFormat.get_legacy_format str_float format_2f format_0f structured_data with
  | Raised => Raised
  | Returned l =>
    Returned
      {| d_invoice_number := LegacyFormat.invoice_number l;
         d_date := LegacyFormat.date l;
         d_vendor := LegacyFormat.vendor l;
         d_total := LegacyFormat.total l;
         d_line_items := Legacy (LegacyFormat.line_items l);
         d_raw_text := text;
         d_processed_at := LegacyFormat.processed_at l;
         d_extraction_method := LegacyFormat.extraction_method l;
         d_structured_data := Some (LegacyFormat.structured_data l) |}
  end.

(** [process_invoice], from the text that the OCR step returned for the
    file (the empty string when that step failed). *)
Definition process_invoice (text : pystr) : outcome (option invoice_data) :=
  if negb (truthy text) then Returned None
  else
    match _extract_with_ai_fallback text with
    | (Some structured_data, _) =>
      match legacy_with_text structured_data text with
      | Raised => Raised
      | Returned invoice_data => Returned (Some invoice_data)
      end
    | (None, _) => Returned (Some (_extract_with_regex_only text))
    end.


End Processor.
End InvoiceProcessor.

(** ** app.py: the module-level helpers *)

Module App.
Import PyStr.

Definition ALLOWED_EXTENSIONS : list pystr :=
  map py ["pdf"; "png"; "jpg"; "jpeg"; "gif"; "bmp"; "tiff"; "webp"]%string.

(** [x in xs] for a collection of strings. *)
Definition str_in (x : pystr) (xs : list pystr) : bool := existsb (pystr_eqb x) xs.

(** A line-item dict as the helpers read it: [None] for a key that is
    absent. *)
Record line_dict := {
  item_type : option pystr;
  description : option pystr;
  amount : option Q
}.

Definition of_item (it : InvoiceProcessor.item) : line_dict :=
  {| item_type := Some (InvoiceProcessor.item_type it);
     description := Some (InvoiceProcessor.description it);
     amount := Some (InvoiceProcessor.amount it) |}.

Definition of_legacy_item (it : LegacyFormat.item) : line_dict :=
  {| item_type := Some (LegacyFormat.item_type it);
     description := LegacyFormat.description it;
     amount := Some (LegacyFormat.amount it) |}.

(** [item.get(key, default)] *)
Definition get {A} (o : option A) (default : A) : A :=
  match o with Some v => v | None => default end.

Definition get_account_code (item_type : pystr) : pystr :=
  if pystr_eqb item_type (py "product") then py "4000"
  else if pystr_eqb item_type (py "service") then py "4100"
  else if pystr_eqb item_type (py "tax") then py "2200"
  else if pystr_eqb item_type (py "discount") then py "4900"
  else if pystr_eqb item_type (py "other") then py "4999"
  else py "4999".

(** The [categories] dict, in insertion order: item type, count, total
    amount. *)
Definition categories := list (pystr * (nat * Q)).

(** [categories[item_type]['count'] += 1] and
    [categories[item_type]['total_amount'] += amount], after the entry has
    been created when it was missing. *)
Fixpoint bump (item_type : pystr) (amount : Q) (cats : categories) : categories :=
  match cats with
  | [] => [(item_type, ((0 + 1)%nat, 0 + amount))]
  | (k, (count, total_amount)) :: cats' =>
    if pystr_eqb k item_type
    then (k, ((count + 1)%nat, total_amount + amount)) :: cats'
    else (k, (count, total_amount)) :: bump item_type amount cats'
  end.

Definition categorize_items_summary (line_items : list line_dict) : categories :=
  fold_left
    (fun cats item => bump (get (item_type item) (py "other")) (get (amount item) 0) cats)
    line_items [].

Record totals := {
  subtotal : Q;
  tax_total : Q;
  discount_total : Q;
  grand_total : Q
}.

(** One turn of the loop of [calculate_line_items_totals]. *)
Definition add_to_totals (t : totals) (item : line_dict) : totals :=
  let amount := get (amount item) 0 in
  let item_type := get (item_type item) (py "other") in
  let t :=
    if str_in item_type [py "product"; py "service"] then
      {| subtotal := subtotal t + amount; tax_total := tax_total t;
         discount_total := discount_total t; grand_total := grand_total t |}
    else if pystr_eqb item_type (py "tax") then
      {| subtotal := subtotal t; tax_total := tax_total t + amount;
         discount_total := discount_total t; grand_total := grand_total t |}
    else if pystr_eqb item_type (py "discount") || Qlt_bool amount 0 then
      {| subtotal := subtotal t; tax_total := tax_total t;
         discount_total := discount_total t + Qabs amount; grand_total := grand_total t |}
    else t in
  {| subtotal := subtotal t; tax_total := tax_total t;
     discount_total := discount_total t; grand_total := grand_total t + amount |}.

Definition calculate_line_items_totals (line_items : list line_dict) : totals :=
  fold_left add_to_totals line_items
    {| subtotal := 0; tax_total := 0; discount_total := 0; grand_total := 0 |}.

Section WithUnicode.
Context {U : UnicodeTables}.

Definition allowed_file (filename : pystr) : bool :=
  py_in (py ".") filename
  && match after_last 46 filename with
     | Some ext => str_in (lower ext) ALLOWED_EXTENSIONS
     | None => false
     end.

(** [Raised]: the IndexError of [rsplit(".", 1)[1]] on a name without a dot. *)
Definition get_file_type (filename : pystr) : outcome pystr :=
  match after_last 46 filename with
  | None => Raised
  | Some ext =>
    let ext := lower ext in
    if pystr_eqb ext (py "pdf") then Returned (py "PDF Document")
    else if str_in ext (map py ["png"; "jpg"; "jpeg"; "gif"; "bmp"; "tiff"; "webp"]%string)
    then Returned (py "Image File")
    else Returned (py "Unknown")
  end.

Definition get_tax_code (item : line_dict) : pystr :=
  let description := lower (get (description item) []) in
  if py_in (py "gst") description || py_in (py "vat") description then py "GST"
  else if py_in (py "sales tax") description then py "ST"
  else py "TAX".

End WithUnicode.
End App.

(** ** Notions used to state the properties *)

(** The sum of a list of amounts, as the specification writes it. *)
Definition total_of (xs : list Q) : Q := fold_right Qplus 0 xs.

Definition non_tax_subtotals (items : list LineItem.t) : list Q :=
  map (fun item => or0 (LineItem.subtotal item))
      (filter (fun item => negb (Summary.is_tax item)) items).

Definition tax_amounts (items : list LineItem.t) : list Q :=
  map (fun item => or0 (LineItem.tax_amount item)) items.

(** The same model with another invoice number. *)
Definition with_invoice_number (d : StructuredInvoiceData.t) (n : option pystr)
    : StructuredInvoiceData.t :=
  let im := StructuredInvoiceData.invoice_metadata d in
  {| StructuredInvoiceData.extraction_metadata := StructuredInvoiceData.extraction_metadata d;
     StructuredInvoiceData.invoice_metadata :=
       {| InvoiceMetadata.invoice_number := n;
          InvoiceMetadata.invoice_date := InvoiceMetadata.invoice_date im;
          InvoiceMetadata.due_date := InvoiceMetadata.due_date im;
          InvoiceMetadata.po_number := InvoiceMetadata.po_number im;
          InvoiceMetadata.currency := InvoiceMetadata.currency im;
          InvoiceMetadata.language := InvoiceMetadata.language im |};
     StructuredInvoiceData.vendor_details := StructuredInvoiceData.vendor_details d;
     StructuredInvoiceData.customer_details := StructuredInvoiceData.customer_details d;
     StructuredInvoiceData.line_items := StructuredInvoiceData.line_items d;
     StructuredInvoiceData.summary := StructuredInvoiceData.summary d;
     StructuredInvoiceData.payment_terms := StructuredInvoiceData.payment_terms d;
     StructuredInvoiceData.additional_info := StructuredInvoiceData.additional_info d |}.

(** No accepted smart-extraction result for [text]: the extractor reports
    itself unavailable, or its call raises, returns no model, or returns a
    model whose confidence score is at most 0.3. *)
Definition no_accepted_result (g : GeminiAIExtractor.t) (text : pystr) : Prop :=
  GeminiAIExtractor.is_available g = false
  \/ GeminiAIExtractor.extract g text = Raised
  \/ (exists method, GeminiAIExtractor.extract g text = Returned (None, method))
  \/ (exists d method score,
        GeminiAIExtractor.extract g text = Returned (Some d, method)
        /\ ExtractionMetadata.confidence_score (StructuredInvoiceData.extraction_metadata d)
           = Some score
        /\ score <= 3 # 10).

(** An extractor that is not configured. *)
Definition unavailable : GeminiAIExtractor.t :=
  {| GeminiAIExtractor.is_available := false;
     GeminiAIExtractor.extract := fun _ => Returned (None, PyStr.py "model_unavailable") |}.

(** An extractor that is available and whose call raises. *)
Definition failing : GeminiAIExtractor.t :=
  {| GeminiAIExtractor.is_available := true;
     GeminiAIExtractor.extract := fun _ => Raised |}.

(** An extractor that answers every text with an otherwise empty model of
    the given confidence score. *)
Definition answering (score : Q) : GeminiAIExtractor.t :=
  {| GeminiAIExtractor.is_available := true;
     GeminiAIExtractor.extract := fun _ =>
       Returned
         (Some {| StructuredInvoiceData.extraction_metadata :=
                    {| ExtractionMetadata.method := PyStr.py "gemini_ai";
                       ExtractionMetadata.model := None;
                       ExtractionMetadata.confidence_score := Some score;
                       ExtractionMetadata.processing_time := None;
                       ExtractionMetadata.fallback_used := false;
                       ExtractionMetadata.extracted_at := [];
                       ExtractionMetadata.errors := [] |};
                  StructuredInvoiceData.invoice_metadata := InvoiceMetadata.new;
                  StructuredInvoiceData.vendor_details := VendorDetails.new;
                  StructuredInvoiceData.customer_details := CustomerDetails.new;
                  StructuredInvoiceData.line_items := [];
                  StructuredInvoiceData.summary := Summary.new;
                  StructuredInvoiceData.payment_terms := PaymentTerms.new;
                  StructuredInvoiceData.additional_info := AdditionalInfo.new |},
          PyStr.py "gemini_ai") |}.

(** Scenario 1 of the specification. *)
Definition scenario_text : pystr :=
  PyStr.py "Invoice #INV-2024-001
Date: 2024-08-13
ACME Corp Inc.
Web Development Services 1 2500.00
Total: 2500.00".

(** What scenario 1 says of the entry point's result, for a given invoice
    number. *)
Definition scenario_outcome (number : pystr)
    (r : option StructuredInvoiceData.t * pystr) : Prop :=
  exists d vendor li amount g,
    r = (Some d, PyStr.py "regex_fallback")
    /\ InvoiceMetadata.invoice_number (StructuredInvoiceData.invoice_metadata d) = Some number
    /\ VendorDetails.name (StructuredInvoiceData.vendor_details d) = Some vendor
    /\ PyStr.py_in (PyStr.py "ACME Corp Inc.") vendor = true
    /\ StructuredInvoiceData.line_items d = [li]
    /\ LineItem.category li = PyStr.py "product"
    /\ LineItem.total li = Some amount
    /\ amount == 2500
    /\ Summary.grand_total (StructuredInvoiceData.summary d) = Some g
    /\ g == 2500
    /\ ExtractionMetadata.method (StructuredInvoiceData.extraction_metadata d)
       = PyStr.py "regex_fallback"
    /\ ExtractionMetadata.confidence_score (StructuredInvoiceData.extraction_metadata d)
       = Some (6 # 10).

Section Shapes.
Context {U : UnicodeTables}.
Import PyStr Re InvoiceProcessor.

(** The pattern is found somewhere in the line. *)
Definition found (pattern line : pystr) : bool :=
  match re_search pattern line IGNORECASE with Some _ => true | None => false end.

(** The line has line shape number [n] (from 1). *)
Definition has_shape (n : nat) (line : pystr) : bool :=
  match nth_error line_patterns (n - 1) with
  | Some pattern => found pattern line
  | None => false
  end.

(** The characters that the header scan keeps: word characters, blanks and
    [& . - ,]. *)
Definition kept_in_name (c : N) : bool :=
  isword c || isspace c || (c =? 38)%N || (c =? 46)%N || (c =? 45)%N || (c =? 44)%N.

Definition name_of_line (line : pystr) : pystr := strip (filter kept_in_name line).

(** The characters of the set [[A-Za-z0-9 &.,-]]. *)
Definition in_listed_set (c : N) : bool :=
  in_range 65 90 c || in_range 97 122 c || in_range 48 57 c
  || (c =? 32)%N || (c =? 38)%N || (c =? 46)%N || (c =? 44)%N || (c =? 45)%N.

(** The shape of the header scan's result, for a way [clean] of cleaning an
    accepted line: the first line of the header area that passes the tests
    and whose cleaned form is longer than 3 characters is returned cleaned;
    a line that passes the tests with a shorter cleaned form is passed over. *)
Definition header_scan_returns (clean : pystr -> pystr) : Prop :=
  forall (text : pystr) (before : list pystr) (line : pystr) (after : list pystr),
    firstn 10 (split_on 10 text) = before ++ line :: after ->
    (forall l, In l before ->
       header_candidate (strip l) && Nat.ltb 3 (length (clean (strip l))) = false) ->
    header_candidate (strip line) = true ->
    ((3 < length (clean (strip line)))%nat ->
       _extract_vendor_name text = Some (clean (strip line)))
    /\ ((length (clean (strip line)) <= 3)%nat ->
        header_scan (firstn 10 (split_on 10 text)) = header_scan after).

End Shapes.

(** Every pattern string that the sources hand to [re]. *)
Definition source_patterns : list pystr :=
  flat_map snd InvoiceProcessor.patterns
  ++ InvoiceProcessor.line_patterns
  ++ InvoiceProcessor.skip_patterns
  ++ map fst InvoiceProcessor.currency_patterns
  ++ map PyStr.py ["[^\w\s&\.\-,]"; "\s+"; "^(item|product|service):\s*"; "[^\d\.-]";
                   "[^\d\.]"; "\b\d{5,6}\b"]%string.

(** A line item whose derived fields agree with the fields they are
    derived from. *)
Definition consistent (it : LineItem.t) : Prop :=
  (forall p q, LineItem.unit_price it = Some p -> LineItem.quantity it = Some q ->
               LineItem.subtotal it = Some (q * p))
  /\ (forall r s, LineItem.tax_rate it = Some r -> 0 < r -> LineItem.subtotal it = Some s ->
                  LineItem.tax_amount it = Some (s * r))
  /\ (forall s ta, LineItem.subtotal it = Some s -> LineItem.tax_amount it = Some ta ->
                   LineItem.total it = Some (s + ta))
  /\ (forall s, LineItem.subtotal it = Some s -> LineItem.tax_amount it = None ->
                LineItem.total it = Some s).

(** The amount and the item type that the helpers of app.py read from a
    line-item dict. *)
Definition amount_of (item : App.line_dict) : Q := App.get (App.amount item) 0.
Definition type_of (item : App.line_dict) : pystr :=
  App.get (App.item_type item) (PyStr.py "other").

Definition has_type (names : list string) (item : App.line_dict) : bool :=
  App.str_in (type_of item) (map PyStr.py names).

(** [v] is a contiguous piece of [t]. *)
Definition occurs_in (v t : pystr) : Prop := exists a b, t = a ++ v ++ b.

Section Alphabet.
Context {U : UnicodeTables}.
Import PyStr Re.
Variable fl : flags.

(** The characters that a match of [r] can consume. *)
Fixpoint alphabet (r : regex) (c : N) : bool :=
  match r with
  | REmpty | RBol | REol | RWordB => false
  | RChar p => lit_match (ignorecase fl) p c
  | RAny => negb (c =? 10)%N
  | RSet neg items => set_match (ignorecase fl) neg items c
  | RSeq r1 r2 | RAlt r1 r2 => alphabet r1 c || alphabet r2 c
  | RRep r1 _ _ _ => alphabet r1 c
  | RGroup _ r1 => alphabet r1 c
  end.

(** The characters that group number [idx] of [r] can capture. *)
Fixpoint group_alphabet (idx : nat) (r : regex) (c : N) : bool :=
  match r with
  | RGroup i r1 => (Nat.eqb i idx && alphabet r1 c) || group_alphabet idx r1 c
  | RSeq r1 r2 | RAlt r1 r2 => group_alphabet idx r1 c || group_alphabet idx r2 c
  | RRep r1 _ _ _ => group_alphabet idx r1 c
  | _ => false
  end.

(** The captures [cs'] reached from [cs] while matching [r] in the text
    [t]: what is new in them was captured by a group of [r] in [t]. *)
Definition captures_ok (t : pystr) (r : regex) (cs cs' : captures) : Prop :=
  forall i v, In (i, v) cs' ->
    In (i, v) cs
    \/ (Forall (fun c => group_alphabet i r c = true) v /\ occurs_in v t).

End Alphabet.

(** What a successful matching step guarantees: it consumed a prefix [w] of
    the text made of characters of the alphabet [ok], it reached captures
    related by [caps] to those it started from, and its result is that of
    its continuation there. *)
Definition step_sound {A} (ok : N -> bool)
    (caps : pystr -> Re.captures -> Re.captures -> Prop)
    (step : option N -> pystr -> Re.captures -> Re.cont A -> option A) : Prop :=
  forall prev s cs (k : Re.cont A) a t pre,
    t = pre ++ s ->
    step prev s cs k = Some a ->
    exists w s' prev' cs',
      s = w ++ s' /\ Forall (fun c => ok c = true) w /\ caps t cs cs'
      /\ k prev' s' cs' = Some a.

(** The bucket that the categoriser chooses for an item: 0 products,
    1 services, 2 taxes, 3 discounts, 4 other. *)
Definition bucket_of {U : UnicodeTables} (it : InvoiceProcessor.item) : nat :=
  let descr := PyStr.lower (InvoiceProcessor.description it) in
  if PyStr.pystr_eqb (InvoiceProcessor.item_type it) (PyStr.py "tax")
     || existsb (fun w => PyStr.py_in w descr) InvoiceProcessor.tax_words then 2
  else if PyStr.py_in (PyStr.py "discount") descr
          || Qlt_bool (InvoiceProcessor.amount it) 0 then 3
  else if PyStr.pystr_eqb (InvoiceProcessor.item_type it) (PyStr.py "service")
          || existsb (fun w => PyStr.py_in w descr) InvoiceProcessor.service_words then 1
  else if PyStr.pystr_eqb (InvoiceProcessor.item_type it) (PyStr.py "product") then 0
  else 4.

Definition in_bucket {U : UnicodeTables} (b : nat) (items : list InvoiceProcessor.item)
    : list InvoiceProcessor.item :=
  filter (fun it => Nat.eqb (bucket_of it) b) items.

(** How a legacy line-item dict of the fallback path relates to the
    parser's dict it comes from: the same description, type, quantity and
    unit price, and as amount the quantity times the unit price when a
    unit price was parsed, the parsed amount otherwise. *)
Definition legacy_of_parsed (it : InvoiceProcessor.item) (e : LegacyFormat.item) : Prop :=
  LegacyFormat.description e = Some (InvoiceProcessor.description it)
  /\ LegacyFormat.item_type e = InvoiceProcessor.item_type it
  /\ LegacyFormat.quantity e = InvoiceProcessor.quantity it
  /\ LegacyFormat.unit_price e = InvoiceProcessor.unit_price it
  /\ LegacyFormat.amount e
     == match InvoiceProcessor.unit_price it with
        | Some p => InvoiceProcessor.quantity it * p
        | None => InvoiceProcessor.amount it
        end.

(** The attempts at which a request was sent, in order. *)
Fixpoint requests (events : list GeminiAIExtractor.event) : list nat :=
  match events with
  | [] => []
  | GeminiAIExtractor.Request attempt :: rest => attempt :: requests rest
  | GeminiAIExtractor.Sleep _ :: rest => requests rest
  end.

(** The seconds spent sleeping. *)
Fixpoint total_sleep (events : list GeminiAIExtractor.event) : nat :=
  match events with
  | [] => O
  | GeminiAIExtractor.Request _ :: rest => total_sleep rest
  | GeminiAIExtractor.Sleep seconds :: rest => (seconds + total_sleep rest)%nat
  end.

(** An attempt that gives nothing: the request raised, or the reply was
    empty. *)
Definition unanswered (reply : outcome pystr) : Prop :=
  match reply with
  | Raised => True
  | Returned text => PyStr.truthy text = false
  end.

(** A reply inside a markdown fence. *)
Definition fenced (body : pystr) : pystr := PyStr.py "```json" ++ body ++ PyStr.py "```".

(** A configuration with another number of attempts. *)
Definition with_max_retries (c : AIConfig.t) (n : Z) : AIConfig.t :=
  {| AIConfig.api_key := AIConfig.api_key c;
     AIConfig.model := AIConfig.model c;
     AIConfig.temperature := AIConfig.temperature c;
     AIConfig.max_tokens := AIConfig.max_tokens c;
     AIConfig.enabled := AIConfig.enabled c;
     AIConfig.fallback_enabled := AIConfig.fallback_enabled c;
     AIConfig.timeout := AIConfig.timeout c;
     AIConfig.max_retries := n |}.

(** What the entry point returns when the extractor gives nothing usable. *)
Definition fallback_result {U : UnicodeTables} (now : pystr)
    (parse_date : pystr -> option pystr) (enabled : bool) (text : pystr)
    : option StructuredInvoiceData.t * pystr :=
  if enabled
  then (Some (InvoiceProcessor._convert_regex_to_structured now parse_date text),
        PyStr.py "regex_fallback")
  else (None, PyStr.py "extraction_failed").

(** * Properties *)

(** ** The patterns *)

Lemma source_patterns_compile :
  forallb (fun pattern => match Re.compile pattern with Some _ => true | None => false end)
          source_patterns = true.
Proof. vm_compute. reflexivity. Qed.

(** ** The matcher: the fuel of a repeat is enough *)

Section Fuel.
Context {U : UnicodeTables}.
Import PyStr Re.
Variable A : Type.

Lemma rep_loop_ext step lo hi greedy (k1 k2 : cont A) :
  extensional step ->
  (forall prev s cs, k1 prev s cs = k2 prev s cs) ->
  forall fuel n prev s cs,
    rep_loop step lo hi greedy k1 fuel n prev s cs
    = rep_loop step lo hi greedy k2 fuel n prev s cs.
Proof.
  intros Hstep Hk fuel; induction fuel as [|fuel IH]; intros n prev s cs; cbn [rep_loop].
  - reflexivity.
  - rewrite Hk.
    rewrite (Hstep prev s cs _
               (fun prev' s' cs' =>
                  if Nat.ltb (length s') (length s)
                  then rep_loop step lo hi greedy k2 fuel (S n) prev' s' cs' else None)).
    + reflexivity.
    + intros prev' s' cs'. rewrite IH. reflexivity.
Qed.

Lemma rmatch_extensional (fl : flags) (r : regex) : extensional (rmatch (A := A) fl r).
Proof.
  induction r as [| p | | neg items | | | | r1 IH1 r2 IH2 | r1 IH1 r2 IH2
                 | r1 IH1 lo hi greedy | idx r1 IH1];
    intros prev s cs k1 k2 Hk; cbn [rmatch].
  - apply Hk.
  - destruct s as [|c s]; [reflexivity|]. destruct (lit_match _ p c); [apply Hk | reflexivity].
  - destruct s as [|c s]; [reflexivity|]. destruct (c =? 10)%N; [reflexivity | apply Hk].
  - destruct s as [|c s]; [reflexivity|].
    destruct (set_match _ neg items c); [apply Hk | reflexivity].
  - destruct prev as [c|]; [|apply Hk].
    destruct (multiline fl && (c =? 10)%N); [apply Hk | reflexivity].
  - destruct s as [|c s]; [apply Hk|].
    destruct ((c =? 10)%N && _); [apply Hk | reflexivity].
  - destruct (xorb _ _); [apply Hk | reflexivity].
  - apply IH1. intros prev' s' cs'. apply IH2. exact Hk.
  - rewrite (IH1 prev s cs k1 k2 Hk), (IH2 prev s cs k1 k2 Hk). reflexivity.
  - apply rep_loop_ext; assumption.
  - apply IH1. intros prev' s' cs'. apply Hk.
Qed.

(** Any fuel above the length of the text gives the same result: the loop
    never stops for lack of fuel. *)
Lemma rep_loop_fuel step lo hi greedy (k : cont A) :
  extensional step ->
  forall fuel1 fuel2 n prev s cs,
    (length s < fuel1)%nat -> (length s < fuel2)%nat ->
    rep_loop step lo hi greedy k fuel1 n prev s cs
    = rep_loop step lo hi greedy k fuel2 n prev s cs.
Proof.
  intros Hstep fuel1; induction fuel1 as [|fuel1 IH]; intros fuel2 n prev s cs H1 H2.
  - lia.
  - destruct fuel2 as [|fuel2]; [lia|]. cbn [rep_loop].
    rewrite (Hstep prev s cs _
               (fun prev' s' cs' =>
                  if Nat.ltb (length s') (length s)
                  then rep_loop step lo hi greedy k fuel2 (S n) prev' s' cs' else None)).
    + reflexivity.
    + intros prev' s' cs'. destruct (Nat.ltb (length s') (length s)) eqn:E; [|reflexivity].
      apply Nat.ltb_lt in E. apply IH; lia.
Qed.

Lemma rmatch_repeat_fuel (fl : flags) (r : regex) lo hi greedy prev s cs (k : cont A)
    (fuel : nat) :
  (length s < fuel)%nat ->
  rmatch fl (RRep r lo hi greedy) prev s cs k
  = rep_loop (rmatch fl r) lo hi greedy k fuel O prev s cs.
Proof.
  intros H. cbn [rmatch]. apply rep_loop_fuel; [apply rmatch_extensional | lia | exact H].
Qed.

End Fuel.

(** ** The structured model: derived totals *)

Lemma fold_left_Qplus_shift (xs : list Q) (a : Q) :
  fold_left Qplus xs a == a + total_of xs.
Proof.
  revert a; induction xs as [|x xs IH]; intros a; simpl.
  - ring.
  - rewrite IH. ring.
Qed.

Lemma py_sum_total_of (xs : list Q) : py_sum xs == total_of xs.
Proof. unfold py_sum. rewrite fold_left_Qplus_shift. ring. Qed.

Lemma or0_Some (x : Q) : or0 (Some x) == x.
Proof.
  unfold or0. destruct (Qeq_bool x 0) eqn:E; [|reflexivity].
  apply Qeq_bool_eq in E. symmetry; exact E.
Qed.

Lemma summary_calculate_totals_spec (s : Summary.t) (items : list LineItem.t) :
  exists sub tax g,
    Summary.subtotal (Summary.calculate_totals s items) = Some sub /\
    Summary.total_tax (Summary.calculate_totals s items) = Some tax /\
    Summary.grand_total (Summary.calculate_totals s items) = Some g /\
    sub == total_of (non_tax_subtotals items) /\
    tax == total_of (tax_amounts items) /\
    g == sub + tax + or0 (Summary.shipping s) - or0 (Summary.discounts s).
Proof.
  unfold Summary.calculate_totals.
  cbn [Summary.subtotal Summary.total_tax Summary.grand_total].
  do 3 eexists. repeat split; try reflexivity.
  - apply py_sum_total_of.
  - apply py_sum_total_of.
  - rewrite !or0_Some. reflexivity.
Qed.

(** C2.  After [calculate_all_totals], the summary's subtotal is the sum of
    the subtotals of the line items whose category is not "tax", its
    total_tax is the sum of the tax amounts of all line items, and its
    grand_total is subtotal + total_tax + shipping - discounts (an absent
    amount counts as 0, as [x or 0] does). *)
Theorem C2_summary_invariant (d : StructuredInvoiceData.t) :
  let d' := StructuredInvoiceData.calculate_all_totals d in
  let s' := StructuredInvoiceData.summary d' in
  exists sub tax g,
    Summary.subtotal s' = Some sub /\
    Summary.total_tax s' = Some tax /\
    Summary.grand_total s' = Some g /\
    sub == total_of (non_tax_subtotals (StructuredInvoiceData.line_items d')) /\
    tax == total_of (tax_amounts (StructuredInvoiceData.line_items d')) /\
    g == sub + tax + or0 (Summary.shipping s') - or0 (Summary.discounts s').
Proof.
  cbv zeta. unfold StructuredInvoiceData.calculate_all_totals.
  cbn [StructuredInvoiceData.summary StructuredInvoiceData.line_items].
  exact (summary_calculate_totals_spec (StructuredInvoiceData.summary d)
           (map LineItem.calculate_totals (StructuredInvoiceData.line_items d))).
Qed.

Lemma line_item_subtotal_stable (it : LineItem.t) :
  LineItem.new_subtotal (LineItem.calculate_totals it) = LineItem.new_subtotal it.
Proof.
  unfold LineItem.new_subtotal, LineItem.calculate_totals; simpl.
  unfold LineItem.new_subtotal.
  destruct (LineItem.unit_price it), (LineItem.quantity it); reflexivity.
Qed.

Lemma line_item_tax_amount_stable (it : LineItem.t) :
  LineItem.new_tax_amount (LineItem.calculate_totals it) = LineItem.new_tax_amount it.
Proof.
  unfold LineItem.new_tax_amount at 1. rewrite line_item_subtotal_stable.
  cbn [LineItem.calculate_totals LineItem.tax_rate LineItem.tax_amount].
  unfold LineItem.new_tax_amount.
  destruct (LineItem.tax_rate it) as [r|], (LineItem.new_subtotal it) as [s|];
    try reflexivity.
  destruct (Qlt_bool 0 r); reflexivity.
Qed.

Lemma line_item_total_stable (it : LineItem.t) :
  LineItem.new_total (LineItem.calculate_totals it) = LineItem.new_total it.
Proof.
  unfold LineItem.new_total at 1.
  rewrite line_item_subtotal_stable, line_item_tax_amount_stable.
  cbn [LineItem.calculate_totals LineItem.total].
  unfold LineItem.new_total.
  destruct (LineItem.new_subtotal it), (LineItem.new_tax_amount it); reflexivity.
Qed.

Lemma line_item_calculate_totals_idem (it : LineItem.t) :
  LineItem.calculate_totals (LineItem.calculate_totals it) = LineItem.calculate_totals it.
Proof.
  unfold LineItem.calculate_totals at 1.
  rewrite line_item_subtotal_stable, line_item_tax_amount_stable, line_item_total_stable.
  reflexivity.
Qed.

Lemma map_calculate_totals_idem (items : list LineItem.t) :
  map LineItem.calculate_totals (map LineItem.calculate_totals items)
  = map LineItem.calculate_totals items.
Proof.
  induction items as [|it items IH]; simpl; [reflexivity|].
  rewrite line_item_calculate_totals_idem, IH. reflexivity.
Qed.

(** C6.  Total derivation is idempotent: a second [calculate_all_totals]
    changes nothing, neither in a line item nor in the summary. *)
Theorem C6_calculate_all_totals_idempotent (d : StructuredInvoiceData.t) :
  StructuredInvoiceData.calculate_all_totals (StructuredInvoiceData.calculate_all_totals d)
  = StructuredInvoiceData.calculate_all_totals d.
Proof.
  unfold StructuredInvoiceData.calculate_all_totals.
  cbn [StructuredInvoiceData.line_items StructuredInvoiceData.summary
       StructuredInvoiceData.extraction_metadata StructuredInvoiceData.invoice_metadata
       StructuredInvoiceData.vendor_details StructuredInvoiceData.customer_details
       StructuredInvoiceData.payment_terms StructuredInvoiceData.additional_info].
  rewrite map_calculate_totals_idem.
  reflexivity.
Qed.

(** ** The confidence scorer *)

Lemma add_if_mono (b : bool) (w x y : Q) :
  x <= y -> GeminiAIExtractor.add_if b w x <= GeminiAIExtractor.add_if b w y.
Proof. unfold GeminiAIExtractor.add_if; destruct b; intros; lra. Qed.

Lemma add_if_nonneg (b : bool) (w x : Q) :
  0 <= w -> 0 <= x -> 0 <= GeminiAIExtractor.add_if b w x.
Proof. unfold GeminiAIExtractor.add_if; destruct b; intros; lra. Qed.

Lemma bonus_nonneg (n : nat) : 0 <= Qmin 2 (inject_Z (Z.of_nat n) * (1 # 2)).
Proof.
  apply Q.min_glb; [lra|].
  assert (0 <= inject_Z (Z.of_nat n)).
  { change 0 with (inject_Z 0). rewrite <- Zle_Qle. lia. }
  lra.
Qed.

Lemma line_items_points_mono items x y :
  x <= y ->
  GeminiAIExtractor.line_items_points items x <= GeminiAIExtractor.line_items_points items y.
Proof.
  unfold GeminiAIExtractor.line_items_points. destruct items as [|it items]; [auto|].
  cbv zeta. destruct (Nat.ltb _ _); intros; lra.
Qed.

Lemma line_items_points_nonneg items x :
  0 <= x -> 0 <= GeminiAIExtractor.line_items_points items x.
Proof.
  unfold GeminiAIExtractor.line_items_points. destruct items as [|it items]; [auto|].
  cbv zeta. destruct (Nat.ltb _ _); intros; [|lra].
  pose proof (bonus_nonneg (length (filter GeminiAIExtractor.detailed (it :: items)))). lra.
Qed.

Lemma confidence_score_bounds (d : StructuredInvoiceData.t) :
  0 <= GeminiAIExtractor._calculate_confidence_score d <= 1.
Proof.
  unfold GeminiAIExtractor._calculate_confidence_score. cbv zeta. split.
  - apply Q.min_glb; [lra|].
    apply Qle_shift_div_l; [reflexivity|]. rewrite Qmult_0_l.
    repeat first [ apply add_if_nonneg; [lra|] | apply line_items_points_nonneg ].
    lra.
  - apply Q.le_min_l.
Qed.

(** C7.  Adding an invoice number to a model that has none never lowers its
    confidence score, and both scores lie in [0, 1]. *)
Theorem C7_score_monotone_in_invoice_number (d : StructuredInvoiceData.t) (number : pystr) :
  InvoiceMetadata.invoice_number (StructuredInvoiceData.invoice_metadata d) = None ->
  number <> [] ->
  let d' := with_invoice_number d (Some number) in
  GeminiAIExtractor._calculate_confidence_score d
    <= GeminiAIExtractor._calculate_confidence_score d'
  /\ 0 <= GeminiAIExtractor._calculate_confidence_score d <= 1
  /\ 0 <= GeminiAIExtractor._calculate_confidence_score d' <= 1.
Proof.
  intros Hnone Hnum d'. split; [|split; apply confidence_score_bounds].
  unfold GeminiAIExtractor._calculate_confidence_score, d', with_invoice_number.
  cbn [StructuredInvoiceData.invoice_metadata StructuredInvoiceData.vendor_details
       StructuredInvoiceData.line_items StructuredInvoiceData.summary
       InvoiceMetadata.invoice_number InvoiceMetadata.invoice_date].
  cbv zeta. rewrite Hnone.
  destruct number as [|c number]; [congruence|].
  cbn [PyStr.truthy_opt PyStr.truthy].
  apply Q.min_le_compat_l.
  apply Qmult_le_compat_r; [|discriminate].
  repeat first [ apply add_if_mono | apply line_items_points_mono ].
  unfold GeminiAIExtractor.add_if. lra.
Qed.

Lemma C7_witness :
  let d := StructuredInvoiceData.new [] in
  let d' := with_invoice_number d (Some (PyStr.py "INV-7")) in
  GeminiAIExtractor._calculate_confidence_score d
    <= GeminiAIExtractor._calculate_confidence_score d'
  /\ 0 <= GeminiAIExtractor._calculate_confidence_score d <= 1
  /\ 0 <= GeminiAIExtractor._calculate_confidence_score d' <= 1.
Proof.
  apply (@C7_score_monotone_in_invoice_number
           (StructuredInvoiceData.new []) (PyStr.py "INV-7")).
  - reflexivity.
  - intros H; vm_compute in H; discriminate H.
Defined.

(** ** The orchestrator *)

Section Orchestrator.
Context {U : UnicodeTables}.
Variable now : pystr.
Variable parse_date : pystr -> option pystr.

Lemma no_accepted_result_falls_through (g : GeminiAIExtractor.t) (enabled : bool)
    (text : pystr) :
  no_accepted_result g text ->
  InvoiceProcessor._extract_with_ai_fallback now parse_date g enabled text
  = if enabled
    then (Some (InvoiceProcessor._convert_regex_to_structured now parse_date text),
          PyStr.py "regex_fallback")
    else (None, PyStr.py "extraction_failed").
Proof.
  unfold no_accepted_result, InvoiceProcessor._extract_with_ai_fallback,
    InvoiceProcessor.try_gemini.
  intros [H | [H | [[method H] | [d [method [score [H [Hs Hle]]]]]]]]; rewrite H.
  - reflexivity.
  - destruct (GeminiAIExtractor.is_available g); reflexivity.
  - destruct (GeminiAIExtractor.is_available g); reflexivity.
  - rewrite Hs. unfold Qlt_bool.
    apply Qle_bool_iff in Hle. rewrite Hle.
    destruct (GeminiAIExtractor.is_available g); reflexivity.
Qed.

Lemma regex_metadata (text : pystr) :
  let em := StructuredInvoiceData.extraction_metadata
              (InvoiceProcessor._convert_regex_to_structured now parse_date text) in
  ExtractionMetadata.method em = PyStr.py "regex_fallback"
  /\ ExtractionMetadata.confidence_score em = Some (6 # 10)
  /\ ExtractionMetadata.fallback_used em = true.
Proof. repeat split. Qed.

End Orchestrator.

(** C1.  Fallback law: when no smart-extraction result is accepted and the
    pattern-based fallback is enabled, the entry point returns a model tagged
    "regex_fallback" whose metadata has method "regex_fallback", confidence
    score 0.6 and fallback_used set. *)
Theorem C1_fallback_law (U : UnicodeTables) (now : pystr)
    (parse_date : pystr -> option pystr) (g : GeminiAIExtractor.t) (text : pystr) :
  no_accepted_result g text ->
  exists d,
    InvoiceProcessor._extract_with_ai_fallback now parse_date g true text
      = (Some d, PyStr.py "regex_fallback")
    /\ ExtractionMetadata.method (StructuredInvoiceData.extraction_metadata d)
       = PyStr.py "regex_fallback"
    /\ ExtractionMetadata.confidence_score (StructuredInvoiceData.extraction_metadata d)
       = Some (6 # 10)
    /\ ExtractionMetadata.fallback_used (StructuredInvoiceData.extraction_metadata d) = true.
Proof.
  intros H. eexists. split.
  - rewrite (no_accepted_result_falls_through now parse_date true H). reflexivity.
  - apply regex_metadata.
Qed.

Lemma C1_witness :
  exists d,
    InvoiceProcessor._extract_with_ai_fallback (U := plain_tables) [] (fun _ => None)
      unavailable true scenario_text
      = (Some d, PyStr.py "regex_fallback")
    /\ ExtractionMetadata.method (StructuredInvoiceData.extraction_metadata d)
       = PyStr.py "regex_fallback"
    /\ ExtractionMetadata.confidence_score (StructuredInvoiceData.extraction_metadata d)
       = Some (6 # 10)
    /\ ExtractionMetadata.fallback_used (StructuredInvoiceData.extraction_metadata d) = true.
Proof.
  apply (@C1_fallback_law plain_tables [] (fun _ => None) unavailable scenario_text).
  left. reflexivity.
Defined.

(** C9.  Extraction exhausted: when no smart-extraction result is accepted
    and the pattern-based fallback is disabled, the entry point returns no
    model with the tag "extraction_failed"; it returns, whatever the
    extractor does. *)
Theorem C9_extraction_exhausted (U : UnicodeTables) (now : pystr)
    (parse_date : pystr -> option pystr) (g : GeminiAIExtractor.t) (text : pystr) :
  no_accepted_result g text ->
  InvoiceProcessor._extract_with_ai_fallback now parse_date g false text
  = (None, PyStr.py "extraction_failed").
Proof.
  intros H. rewrite (no_accepted_result_falls_through now parse_date false H). reflexivity.
Qed.

Lemma C9_witness :
  InvoiceProcessor._extract_with_ai_fallback (U := plain_tables) [] (fun _ => None)
    failing false scenario_text
  = (None, PyStr.py "extraction_failed").
Proof.
  apply (@C9_extraction_exhausted plain_tables [] (fun _ => None) failing scenario_text).
  right. left. reflexivity.
Defined.

(** ** The pattern-based path: totals *)

(** C10.  In the regex fallback path the amount labelled "Total:" in the
    text and the tax summed from the tax items do not survive: the returned
    summary's grand_total (and total_tax) are the values recomputed from the
    returned line items, with shipping and discounts at 0. *)
Theorem C10_fallback_grand_total_recomputed (U : UnicodeTables) (now : pystr)
    (parse_date : pystr -> option pystr) (text : pystr) :
  let d := InvoiceProcessor._convert_regex_to_structured now parse_date text in
  let s := StructuredInvoiceData.summary d in
  exists tax g,
    Summary.total_tax s = Some tax /\
    Summary.grand_total s = Some g /\
    Summary.shipping s = Some 0 /\
    Summary.discounts s = Some 0 /\
    tax == total_of (tax_amounts (StructuredInvoiceData.line_items d)) /\
    g == total_of (non_tax_subtotals (StructuredInvoiceData.line_items d))
         + total_of (tax_amounts (StructuredInvoiceData.line_items d))
         + or0 (Summary.shipping s) - or0 (Summary.discounts s).
Proof.
  cbv zeta. unfold InvoiceProcessor._convert_regex_to_structured. cbv zeta.
  unfold StructuredInvoiceData.calculate_all_totals.
  cbn [StructuredInvoiceData.summary StructuredInvoiceData.line_items].
  match goal with
  | |- context [Summary.calculate_totals ?s0 ?items] =>
    destruct (summary_calculate_totals_spec s0 items)
      as (sub & tax & g & Hsub & Htax & Hg & Esub & Etax & Eg)
  end.
  exists tax, g. repeat split; try assumption; try reflexivity.
  rewrite Eg, Esub, Etax. reflexivity.
Qed.

(** ** The line-item parser: what it emits *)

Section Parser.
Context {U : UnicodeTables}.
Import PyStr InvoiceProcessor.

Lemma categorize_item_buckets (c : categorized) (it x : item) :
  In x (products (categorize_item c it) ++ services (categorize_item c it)
        ++ taxes (categorize_item c it) ++ discounts (categorize_item c it)
        ++ other (categorize_item c it)) ->
  In x (products c ++ services c ++ taxes c ++ discounts c ++ other c) \/ x = it.
Proof.
  unfold categorize_item. cbv zeta.
  repeat match goal with
         | |- context [if ?b then _ else _] => destruct b
         end;
    cbn [products services taxes discounts other];
    rewrite ?in_app_iff; cbn [In]; intuition.
Qed.

Lemma fold_categorize_buckets (items : list item) (c : categorized) (x : item) :
  let c' := fold_left categorize_item items c in
  In x (products c' ++ services c' ++ taxes c' ++ discounts c' ++ other c') ->
  In x (products c ++ services c ++ taxes c ++ discounts c ++ other c) \/ In x items.
Proof.
  cbv zeta. revert c; induction items as [|it items IH]; intros c; cbn [fold_left].
  - auto.
  - intros H. apply IH in H. destruct H as [H | H].
    + apply categorize_item_buckets in H. cbn [In]. intuition.
    + cbn [In]. auto.
Qed.

Lemma categorized_items_come_from_input (items : list item) (x : item) :
  In x (_categorize_line_items items) -> In x items.
Proof.
  unfold _categorize_line_items, categorize. cbv zeta.
  cbn [products services taxes discounts other].
  intros H. apply fold_categorize_buckets in H. destruct H as [H | H]; [|exact H].
  cbn in H. contradiction.
Qed.

Lemma collected_items_are_valid (text : pystr) (x : item) :
  In x (collect_line_items text) -> _validate_line_item x = true.
Proof.
  unfold collect_line_items. rewrite in_flat_map. intros [line [_ H]].
  unfold items_of_line in H. cbv zeta in H.
  destruct (skipped (strip line)); [contradiction|].
  destruct (try_patterns 0 line_patterns (strip line)) as [[n m]|]; [|contradiction].
  destruct (_parse_line_item m n (strip line)) as [it|]; [|contradiction].
  destruct (_validate_line_item it) eqn:E; [|contradiction].
  destruct H as [<- | []]. exact E.
Qed.

Lemma Qlt_bool_false (x y : Q) : Qlt_bool x y = false -> y <= x.
Proof.
  unfold Qlt_bool. intros H. apply negb_false_iff in H. apply Qle_bool_iff. exact H.
Qed.

Lemma valid_item_bounds (x : item) :
  _validate_line_item x = true ->
  (3 <= length (description x))%nat
  /\ 0 <= amount x <= 999999
  /\ 0 <= quantity x <= 10000.
Proof.
  unfold _validate_line_item.
  destruct (negb (truthy (description x))); [discriminate|].
  destruct (Qlt_bool (amount x) 0) eqn:A1; [discriminate|].
  destruct (Qlt_bool 999999 (amount x)) eqn:A2; [discriminate|].
  destruct (Qlt_bool (quantity x) 0) eqn:Q1; [discriminate|].
  destruct (Qlt_bool 10000 (quantity x)) eqn:Q2; [discriminate|].
  destruct (Nat.ltb (length (description x)) 3) eqn:L; [discriminate|].
  cbn [orb]. intros _.
  apply Nat.ltb_ge in L.
  repeat split; auto using Qlt_bool_false.
Qed.

End Parser.

(** C5.  Every item that the line-item parser returns has a description of
    at least 3 characters, an amount in [0, 999999] and a quantity in
    [0, 10000]: a draft outside these bounds is not in the output. *)
Theorem C5_emitted_items_within_bounds (U : UnicodeTables) (text : pystr)
    (it : InvoiceProcessor.item) :
  In it (InvoiceProcessor.extract_line_items text) ->
  (3 <= length (InvoiceProcessor.description it))%nat
  /\ 0 <= InvoiceProcessor.amount it <= 999999
  /\ 0 <= InvoiceProcessor.quantity it <= 10000.
Proof.
  intros H. apply valid_item_bounds.
  apply (collected_items_are_valid text).
  apply categorized_items_come_from_input. exact H.
Qed.

Lemma C5_witness :
  exists it,
    In it (InvoiceProcessor.extract_line_items (U := plain_tables) scenario_text)
    /\ (3 <= length (InvoiceProcessor.description it))%nat
    /\ 0 <= InvoiceProcessor.amount it <= 999999
    /\ 0 <= InvoiceProcessor.quantity it <= 10000.
Proof.
  eexists. split.
  - vm_compute. left. reflexivity.
  - apply (@C5_emitted_items_within_bounds plain_tables scenario_text).
    vm_compute. left. reflexivity.
Defined.

(** ** Scenario 1 *)

(** C3 as stated fails: the field extractor searches the lower-cased text,
    so the invoice number comes back in lower case. *)
Lemma C3_counterexample :
  ~ scenario_outcome (PyStr.py "INV-2024-001")
      (InvoiceProcessor._extract_with_ai_fallback (U := plain_tables) []
         (fun _ => None) unavailable true scenario_text).
Proof.
  intros (d & vendor & li & amount & g & Hr & Hnum & _).
  vm_compute in Hr. injection Hr as <-.
  vm_compute in Hnum. discriminate Hnum.
Qed.

(** C3, amended.  For the text of scenario 1, with the smart extractor
    unavailable and the fallback enabled, the result has invoice number
    "inv-2024-001" (lower case), a vendor name containing "ACME Corp Inc.",
    exactly one line item, a product of amount 2500, grand total 2500,
    method "regex_fallback" and confidence score 0.6. *)
Theorem C3_scenario_lowercase_number (U : UnicodeTables) (now : pystr)
    (parse_date : pystr -> option pystr) (g : GeminiAIExtractor.t) :
  GeminiAIExtractor.is_available g = false ->
  scenario_outcome (PyStr.py "inv-2024-001")
    (InvoiceProcessor._extract_with_ai_fallback now parse_date g true scenario_text).
Proof.
  intros Hav.
  rewrite (no_accepted_result_falls_through now parse_date true (or_introl Hav)).
  unfold scenario_outcome.
  eexists _, _, _, _, _.
  split; [reflexivity|].
  split; [vm_compute; reflexivity|].
  split; [vm_compute; reflexivity|].
  split; [vm_compute; reflexivity|].
  split; [vm_compute; reflexivity|].
  split; [vm_compute; reflexivity|].
  split; [vm_compute; reflexivity|].
  split; [vm_compute; reflexivity|].
  split; [vm_compute; reflexivity|].
  split; [vm_compute; reflexivity|].
  split; vm_compute; reflexivity.
Qed.

Lemma C3_witness :
  scenario_outcome (PyStr.py "inv-2024-001")
    (InvoiceProcessor._extract_with_ai_fallback (U := plain_tables) []
       (fun _ => None) unavailable true scenario_text).
Proof.
  apply (@C3_scenario_lowercase_number plain_tables [] (fun _ => None) unavailable).
  reflexivity.
Defined.

(** ** The line-item parser: pattern priority *)

Section Priority.
Context {U : UnicodeTables}.
Import PyStr Re InvoiceProcessor.

(** The loop stops at the first pattern that is found, whatever follows it
    in the list. *)
Lemma try_patterns_first_match (before after : list pystr) (pattern line : pystr)
    (m : match_obj) (i : nat) :
  forallb (fun q => negb (found q line)) before = true ->
  re_search pattern line IGNORECASE = Some m ->
  try_patterns i (before ++ pattern :: after) line = Some (S (i + length before), m).
Proof.
  revert i; induction before as [|q before IH]; intros i Hb Hm; cbn [app try_patterns].
  - rewrite Hm. cbn [length]. rewrite Nat.add_0_r. reflexivity.
  - cbn [forallb] in Hb. apply andb_true_iff in Hb. destruct Hb as [Hq Hb].
    unfold found in Hq. destruct (re_search q line IGNORECASE); [discriminate|].
    rewrite (IH (S i) Hb Hm). cbn [length]. rewrite Nat.add_succ_r. reflexivity.
Qed.

Lemma try_patterns_nth (ps : list pystr) (n : nat) (pattern line : pystr) (m : match_obj) :
  nth_error ps n = Some pattern ->
  forallb (fun q => negb (found q line)) (firstn n ps) = true ->
  re_search pattern line IGNORECASE = Some m ->
  try_patterns 0%nat ps line = Some (S n, m).
Proof.
  intros Hn Hb Hm.
  destruct (nth_error_split ps n Hn) as (l1 & l2 & -> & Hlen).
  rewrite firstn_app, firstn_all2 in Hb by lia.
  replace (n - length l1)%nat with 0%nat in Hb by lia.
  cbn [firstn] in Hb. rewrite app_nil_r in Hb.
  rewrite (@try_patterns_first_match l1 l2 pattern line m 0%nat Hb Hm). rewrite Hlen. reflexivity.
Qed.

End Priority.

(** C4 as stated fails: a line can have shapes 4 and 6 and shape 1 as well,
    and then shape 1 makes the draft, a product. *)
Lemma C4_counterexample :
  ~ (forall line : pystr,
       InvoiceProcessor.skipped (U := plain_tables) (PyStr.strip (U := plain_tables) line) = false ->
       has_shape (U := plain_tables) 4 (PyStr.strip (U := plain_tables) line) = true ->
       has_shape (U := plain_tables) 6 (PyStr.strip (U := plain_tables) line) = true ->
       forall it, In it (InvoiceProcessor.items_of_line (U := plain_tables) line) ->
                  InvoiceProcessor.item_type it = PyStr.py "tax").
Proof.
  intros H.
  assert (E : exists it,
             In it (InvoiceProcessor.items_of_line (U := plain_tables) (PyStr.py "1 GST 5.00"))
             /\ InvoiceProcessor.item_type it = PyStr.py "product").
  { eexists. split; [vm_compute; left; reflexivity | vm_compute; reflexivity]. }
  destruct E as (it & Hin & Hty).
  specialize (H (PyStr.py "1 GST 5.00")).
  assert (Hs : InvoiceProcessor.skipped (U := plain_tables)
                 (PyStr.strip (U := plain_tables) (PyStr.py "1 GST 5.00")) = false) by (vm_compute; reflexivity).
  assert (H4 : has_shape (U := plain_tables) 4 (PyStr.strip (U := plain_tables) (PyStr.py "1 GST 5.00")) = true)
    by (vm_compute; reflexivity).
  assert (H6 : has_shape (U := plain_tables) 6 (PyStr.strip (U := plain_tables) (PyStr.py "1 GST 5.00")) = true)
    by (vm_compute; reflexivity).
  specialize (H Hs H4 H6 it Hin). rewrite Hty in H.
  vm_compute in H. discriminate H.
Qed.

(** C4, amended.  For a line that is not skipped, the first of the six line
    shapes found in it, in the order 1 to 6, makes the draft, whatever the
    later shapes do; in particular a line with shape 4 (tax) and none of
    shapes 1 to 3 yields an item of type "tax", also when shape 6 is found
    in it too. *)
Theorem C4_first_matching_shape_wins (U : UnicodeTables) (line pattern : pystr)
    (n : nat) (m : Re.match_obj) :
  InvoiceProcessor.skipped (PyStr.strip line) = false ->
  nth_error InvoiceProcessor.line_patterns n = Some pattern ->
  forallb (fun q => negb (found q (PyStr.strip line)))
          (firstn n InvoiceProcessor.line_patterns) = true ->
  Re.re_search pattern (PyStr.strip line) Re.IGNORECASE = Some m ->
  InvoiceProcessor.try_patterns 0 InvoiceProcessor.line_patterns (PyStr.strip line)
    = Some (S n, m)
  /\ InvoiceProcessor.items_of_line line
     = match InvoiceProcessor._parse_line_item m (S n) (PyStr.strip line) with
       | Some it => if InvoiceProcessor._validate_line_item it then [it] else []
       | None => []
       end
  /\ (n = 3%nat ->
      forall it, In it (InvoiceProcessor.items_of_line line) ->
                 InvoiceProcessor.item_type it = PyStr.py "tax").
Proof.
  intros Hs Hn Hb Hm.
  pose proof (@try_patterns_nth U _ _ _ _ _ Hn Hb Hm) as Ht.
  assert (Hi : InvoiceProcessor.items_of_line line
               = match InvoiceProcessor._parse_line_item m (S n) (PyStr.strip line) with
                 | Some it => if InvoiceProcessor._validate_line_item it then [it] else []
                 | None => []
                 end).
  { unfold InvoiceProcessor.items_of_line. cbv zeta. rewrite Hs, Ht. reflexivity. }
  split; [exact Ht|]. split; [exact Hi|].
  intros -> it Hin. rewrite Hi in Hin.
  cbn [InvoiceProcessor._parse_line_item] in Hin.
  destruct (InvoiceProcessor._validate_line_item _) in Hin; [|contradiction].
  destruct Hin as [<- | []]. reflexivity.
Qed.

Lemma C4_witness :
  exists m,
    Re.re_search (U := plain_tables)
      (nth 3 InvoiceProcessor.line_patterns []) (PyStr.strip (U := plain_tables) (PyStr.py "CGST 18.00"))
      Re.IGNORECASE = Some m
    /\ has_shape (U := plain_tables) 6 (PyStr.strip (U := plain_tables) (PyStr.py "CGST 18.00")) = true
    /\ InvoiceProcessor.try_patterns (U := plain_tables) 0 InvoiceProcessor.line_patterns
         (PyStr.strip (U := plain_tables) (PyStr.py "CGST 18.00")) = Some (4%nat, m)
    /\ forall it, In it (InvoiceProcessor.items_of_line (U := plain_tables)
                           (PyStr.py "CGST 18.00")) ->
                  InvoiceProcessor.item_type it = PyStr.py "tax".
Proof.
  eexists. split; [vm_compute; reflexivity|]. split; [vm_compute; reflexivity|].
  match goal with
  | |- InvoiceProcessor.try_patterns _ _ _ = Some (_, ?m0) /\ _ =>
    pose proof (@C4_first_matching_shape_wins plain_tables (PyStr.py "CGST 18.00")
                  (nth 3 InvoiceProcessor.line_patterns []) 3 m0) as W
  end.
  assert (H1 : InvoiceProcessor.skipped (U := plain_tables)
                 (PyStr.strip (U := plain_tables) (PyStr.py "CGST 18.00")) = false) by (vm_compute; reflexivity).
  assert (H2 : nth_error InvoiceProcessor.line_patterns 3
               = Some (nth 3 InvoiceProcessor.line_patterns [])) by (vm_compute; reflexivity).
  assert (H3 : forallb (fun q => negb (found (U := plain_tables) q
                                         (PyStr.strip (U := plain_tables) (PyStr.py "CGST 18.00"))))
                       (firstn 3 InvoiceProcessor.line_patterns) = true)
    by (vm_compute; reflexivity).
  specialize (W H1 H2 H3).
  assert (H4 : Re.re_search (U := plain_tables)
                 (nth 3 InvoiceProcessor.line_patterns [])
                 (PyStr.strip (U := plain_tables) (PyStr.py "CGST 18.00")) Re.IGNORECASE = Some _)
    by (vm_compute; reflexivity).
  destruct (W H4) as (Wt & _ & Wtax).
  split; [exact Wt|]. exact (Wtax eq_refl).
Defined.

(** ** The vendor header scan *)

Section HeaderScan.
Context {U : UnicodeTables}.
Import PyStr Re InvoiceProcessor.

(** Substituting nothing for a negated one-character set keeps exactly the
    characters of the set. *)
Lemma sub_negated_set (items : list cset_item) (prev : option N) (s : pystr) :
  sub_from NOFLAGS (RSeq (RSet true items) REmpty) [] 0 prev s
  = filter (fun c => existsb (fun it => item_match false it c) items) s.
Proof.
  revert prev; induction s as [|c s IH]; intros prev.
  - reflexivity.
  - cbn [sub_from filter]. unfold match_here. cbn [rmatch ignorecase NOFLAGS].
    unfold set_match. cbn [xorb].
    destruct (existsb (fun it => item_match false it c) items).
    + cbn [negb]. rewrite IH. reflexivity.
    + cbn [negb m_all].
      replace (length (c :: s) - length s)%nat with 1%nat by (cbn [length]; lia).
      cbn [firstn length app]. rewrite IH. reflexivity.
Qed.

Lemma clean_name_keeps (line : pystr) : clean_name line = name_of_line line.
Proof.
  unfold clean_name, name_of_line, re_sub.
  replace (compile (py "[^\w\s&\.\-,]"))
    with (Some (RSeq (RSet true [CWord; CSpace; CChar 38; CChar 46; CChar 45; CChar 44])
                     REmpty)) by (vm_compute; reflexivity).
  unfold sub. rewrite sub_negated_set. f_equal.
  apply filter_ext. intros c. unfold kept_in_name.
  cbn [existsb item_match lit_match].
  rewrite orb_false_r, !orb_assoc.
  rewrite (N.eqb_sym 38), (N.eqb_sym 46), (N.eqb_sym 45), (N.eqb_sym 44).
  reflexivity.
Qed.

Lemma header_scan_passes_over (before rest : list pystr) :
  (forall l, In l before ->
     header_candidate (strip l) && Nat.ltb 3 (length (name_of_line (strip l))) = false) ->
  header_scan (before ++ rest) = header_scan rest.
Proof.
  induction before as [|l before IH]; intros H; cbn [app header_scan].
  - reflexivity.
  - rewrite clean_name_keeps, (H l (or_introl eq_refl)).
    apply IH. intros l' Hl'. apply H. right. exact Hl'.
Qed.

Lemma header_scan_shape : header_scan_returns name_of_line.
Proof.
  intros text before line after Hlines Hbefore Hcand.
  unfold _extract_vendor_name. cbv zeta. rewrite Hlines.
  rewrite (@header_scan_passes_over before (line :: after) Hbefore).
  cbn [header_scan]. rewrite clean_name_keeps, Hcand. cbn [andb]. split.
  - intros Hlen. apply Nat.ltb_lt in Hlen. rewrite Hlen. reflexivity.
  - intros Hlen. apply Nat.ltb_ge in Hlen. rewrite Hlen. reflexivity.
Qed.

End HeaderScan.

(** C8 as stated fails: the header scan keeps every word character, and the
    underscore is one. *)
Lemma C8_counterexample :
  ~ header_scan_returns (U := plain_tables) (filter in_listed_set).
Proof.
  intros H.
  destruct (H (PyStr.py "Acme_Tools Ltd") [] (PyStr.py "Acme_Tools Ltd") []) as [Hret _].
  - vm_compute. reflexivity.
  - intros l [].
  - vm_compute. reflexivity.
  - assert (Hlen : (3 < length (filter in_listed_set
                                 (PyStr.strip (U := plain_tables) (PyStr.py "Acme_Tools Ltd"))))%nat)
      by (vm_compute; lia).
    specialize (Hret Hlen). vm_compute in Hret. discriminate Hret.
Qed.

(** C8, amended.  When stage 1 of the vendor name resolver accepts a line
    within the first 10 lines, the returned name is that line with every
    character removed that is not a word character (letter, digit,
    underscore), a blank or one of [& . - ,], and then stripped; it is
    returned only when this cleaned form is longer than 3 characters, and
    otherwise the scan goes on with the lines after it. *)
Theorem C8_header_scan_result (U : UnicodeTables) :
  header_scan_returns name_of_line.
Proof. exact header_scan_shape. Qed.

Lemma C8_witness :
  InvoiceProcessor._extract_vendor_name (U := plain_tables) (PyStr.py "Acme_Tools Ltd")
  = Some (name_of_line (U := plain_tables)
            (PyStr.strip (U := plain_tables) (PyStr.py "Acme_Tools Ltd"))).
Proof.
  apply (@C8_header_scan_result plain_tables (PyStr.py "Acme_Tools Ltd") []
           (PyStr.py "Acme_Tools Ltd") []).
  - vm_compute. reflexivity.
  - intros l [].
  - vm_compute. reflexivity.
  - vm_compute. lia.
Defined.

(** ** Further scenarios of the specification *)

Section Scenarios.
Context {U : UnicodeTables}.
Variable now : pystr.
Variable parse_date : pystr -> option pystr.
Import PyStr InvoiceProcessor.

(** Scenario 2: a shipping fee is a service and adds nothing to the taxes. *)
Example scenario_shipping_fee :
  exists it,
    collect_line_items (py "Shipping fee 25.00") = [it]
    /\ item_type it = py "service"
    /\ amount it == 25
    /\ services (categorize [it]) = [it]
    /\ summary_tax_total (categorize [it]) == 0.
Proof.
  eexists. split; [vm_compute; reflexivity|].
  repeat split; vm_compute; reflexivity.
Qed.

(** Scenario 3: a CGST line is a tax and adds its amount to the taxes. *)
Example scenario_cgst :
  exists it,
    collect_line_items (py "CGST 18.00") = [it]
    /\ item_type it = py "tax"
    /\ taxes (categorize [it]) = [it]
    /\ summary_tax_total (categorize [it]) == 18.
Proof.
  eexists. split; [vm_compute; reflexivity|].
  repeat split; vm_compute; reflexivity.
Qed.

(** Scenario 4: no text, no extractor, no fallback. *)
Example scenario_nothing_to_extract :
  _extract_with_ai_fallback now parse_date unavailable false []
  = (None, py "extraction_failed").
Proof. reflexivity. Qed.

(** Scenario 5: a model of confidence 0.25 is discarded for the fallback. *)
Example scenario_low_confidence :
  snd (_extract_with_ai_fallback now parse_date (answering (1 # 4)) true scenario_text)
  = py "regex_fallback".
Proof. reflexivity. Qed.

(** A model of confidence 0.31 is accepted as it is. *)
Example scenario_accepted :
  snd (_extract_with_ai_fallback now parse_date (answering (31 # 100)) true scenario_text)
  = py "gemini_ai".
Proof. reflexivity. Qed.

(** A draft whose amount exceeds 999999 is dropped. *)
Example oversized_amount_dropped :
  collect_line_items (py "Turbine assembly 1000000.00") = [].
Proof. vm_compute. reflexivity. Qed.

(** The amount labelled "Total:" in the text does not reach the summary. *)
Example stated_total_ignored :
  exists g,
    Summary.grand_total
      (StructuredInvoiceData.summary
         (_convert_regex_to_structured now parse_date
            (py "Web Development Services 1 2500.00
Total: 9999.00"))) = Some g
    /\ g == 2500.
Proof. eexists. split; vm_compute; reflexivity. Qed.

End Scenarios.

(** * Further properties of the code *)

(** ** structured_data.py: derived totals, validation and the legacy format *)

Lemma Qlt_bool_true (x y : Q) : Qlt_bool x y = true <-> x < y.
Proof.
  unfold Qlt_bool. rewrite negb_true_iff. split.
  - intros H. apply Qnot_le_lt. intros Hle. apply Qle_bool_iff in Hle. congruence.
  - intros H. destruct (Qle_bool y x) eqn:E; [|reflexivity].
    apply Qle_bool_iff in E. exfalso. exact (Qlt_not_le _ _ H E).
Qed.

Lemma calculate_totals_consistent (it : LineItem.t) : consistent (LineItem.calculate_totals it).
Proof.
  unfold consistent, LineItem.calculate_totals.
  cbn [LineItem.unit_price LineItem.quantity LineItem.subtotal LineItem.tax_rate
       LineItem.tax_amount LineItem.total].
  repeat split.
  - intros p q Hp Hq. unfold LineItem.new_subtotal. rewrite Hp, Hq. reflexivity.
  - intros r s Hr Hpos Hs. unfold LineItem.new_tax_amount. rewrite Hr, Hs.
    apply Qlt_bool_true in Hpos. rewrite Hpos. reflexivity.
  - intros s ta Hs Hta. unfold LineItem.new_total. rewrite Hs, Hta. reflexivity.
  - intros s Hs Hta. unfold LineItem.new_total. rewrite Hs, Hta. reflexivity.
Qed.

(** X1.  After [calculate_all_totals] every line item is consistent: its
    subtotal is quantity x unit price when both are known, its tax amount is
    subtotal x tax rate when the rate is positive, and its total is subtotal
    plus tax amount (the subtotal alone when there is no tax amount). *)
Theorem X1_line_items_consistent (d : StructuredInvoiceData.t) :
  Forall consistent
    (StructuredInvoiceData.line_items (StructuredInvoiceData.calculate_all_totals d)).
Proof.
  unfold StructuredInvoiceData.calculate_all_totals.
  cbn [StructuredInvoiceData.line_items].
  apply Forall_forall. intros it Hin. apply in_map_iff in Hin.
  destruct Hin as (it0 & <- & _). apply calculate_totals_consistent.
Qed.

(** X2.  [calculate_all_totals] touches only derived fields: the metadata,
    the parties, the payment terms and the additional information are
    unchanged, the line items keep their number, order, identifiers,
    descriptions, quantities, unit prices, units, tax rates and categories,
    and the summary keeps its tax breakdown, discounts and shipping. *)
Theorem X2_calculate_all_totals_frame (d : StructuredInvoiceData.t) :
  let d' := StructuredInvoiceData.calculate_all_totals d in
  StructuredInvoiceData.extraction_metadata d' = StructuredInvoiceData.extraction_metadata d
  /\ StructuredInvoiceData.invoice_metadata d' = StructuredInvoiceData.invoice_metadata d
  /\ StructuredInvoiceData.vendor_details d' = StructuredInvoiceData.vendor_details d
  /\ StructuredInvoiceData.customer_details d' = StructuredInvoiceData.customer_details d
  /\ StructuredInvoiceData.payment_terms d' = StructuredInvoiceData.payment_terms d
  /\ StructuredInvoiceData.additional_info d' = StructuredInvoiceData.additional_info d
  /\ map (fun it => (LineItem.item_id it, LineItem.description it, LineItem.quantity it,
                     LineItem.unit_price it, LineItem.unit_type it, LineItem.tax_rate it,
                     LineItem.category it))
         (StructuredInvoiceData.line_items d')
     = map (fun it => (LineItem.item_id it, LineItem.description it, LineItem.quantity it,
                       LineItem.unit_price it, LineItem.unit_type it, LineItem.tax_rate it,
                       LineItem.category it))
           (StructuredInvoiceData.line_items d)
  /\ Summary.tax_breakdown (StructuredInvoiceData.summary d')
     = Summary.tax_breakdown (StructuredInvoiceData.summary d)
  /\ Summary.discounts (StructuredInvoiceData.summary d')
     = Summary.discounts (StructuredInvoiceData.summary d)
  /\ Summary.shipping (StructuredInvoiceData.summary d')
     = Summary.shipping (StructuredInvoiceData.summary d).
Proof.
  cbv zeta. unfold StructuredInvoiceData.calculate_all_totals.
  cbn [StructuredInvoiceData.extraction_metadata StructuredInvoiceData.invoice_metadata
       StructuredInvoiceData.vendor_details StructuredInvoiceData.customer_details
       StructuredInvoiceData.payment_terms StructuredInvoiceData.additional_info
       StructuredInvoiceData.line_items StructuredInvoiceData.summary].
  repeat split; try reflexivity.
  rewrite map_map. reflexivity.
Qed.

Lemma validate_after_calculate_totals (it : LineItem.t) :
  LineItem.validate (LineItem.calculate_totals it) = LineItem.validate it.
Proof. reflexivity. Qed.

Lemma line_item_errors_after_totals (items : list LineItem.t) (i : nat) :
  StructuredInvoiceData.line_item_errors i (map LineItem.calculate_totals items)
  = StructuredInvoiceData.line_item_errors i items.
Proof.
  revert i; induction items as [|it items IH]; intros i; cbn [map StructuredInvoiceData.line_item_errors].
  - reflexivity.
  - rewrite validate_after_calculate_totals, IH. reflexivity.
Qed.

Lemma validate_after_totals (U : UnicodeTables) (d : StructuredInvoiceData.t) :
  StructuredInvoiceData.validate (StructuredInvoiceData.calculate_all_totals d)
  = StructuredInvoiceData.validate d.
Proof.
  unfold StructuredInvoiceData.validate, StructuredInvoiceData.calculate_all_totals.
  cbn [StructuredInvoiceData.invoice_metadata StructuredInvoiceData.vendor_details
       StructuredInvoiceData.customer_details StructuredInvoiceData.line_items].
  rewrite line_item_errors_after_totals. reflexivity.
Qed.

(** X3.  Deriving the totals does not change what [validate] reports. *)
Theorem X3_validate_unchanged_by_totals (U : UnicodeTables) (d : StructuredInvoiceData.t) :
  StructuredInvoiceData.validate (StructuredInvoiceData.calculate_all_totals d)
  = StructuredInvoiceData.validate d.
Proof. apply validate_after_totals. Qed.

Section Legacy.
Variable format_2f format_0f : Q -> pystr.





End Legacy.


(** ** app.py: the module-level helpers *)

Lemma pystr_eqb_eq (a b : pystr) : PyStr.pystr_eqb a b = true <-> a = b.
Proof.
  revert b; induction a as [|x a IH]; destruct b as [|y b]; cbn [PyStr.pystr_eqb];
    try (split; congruence).
  rewrite andb_true_iff, N.eqb_eq, IH. split.
  - intros [-> ->]; reflexivity.
  - intros E; inversion E; auto.
Qed.

Lemma pystr_eqb_refl (a : pystr) : PyStr.pystr_eqb a a = true.
Proof. apply pystr_eqb_eq. reflexivity. Qed.

Lemma after_last_none (sep : N) (s : pystr) :
  PyStr.after_last sep s = None <-> ~ In sep s.
Proof.
  induction s as [|c s IH]; cbn [PyStr.after_last In].
  - tauto.
  - destruct (PyStr.after_last sep s) as [t|].
    + split; [discriminate|]. intros H. exfalso. apply H. right.
      destruct (in_dec N.eq_dec sep s) as [Hin|Hn]; [exact Hin|].
      apply IH in Hn. discriminate.
    + destruct (N.eqb_spec c sep) as [->|Hne].
      * split; [discriminate|]. intros H. exfalso. apply H. left. reflexivity.
      * split; [|reflexivity]. intros _ [H|H]; [congruence|]. apply (proj1 IH eq_refl H).
Qed.

Lemma py_in_singleton (c : N) (s : pystr) : PyStr.py_in [c] s = true <-> In c s.
Proof.
  induction s as [|x s IH]; cbn [PyStr.py_in PyStr.starts_with In].
  - split; [discriminate | tauto].
  - rewrite orb_true_iff, andb_true_r, N.eqb_eq, IH. split; intros [H|H]; auto.
Qed.

(** X5.  A file name is allowed exactly when [get_file_type] calls it a PDF
    document or an image file; [get_file_type] raises (IndexError) exactly on
    the names without a dot, which [allowed_file] rejects without raising. *)
Theorem X5_allowed_file_and_type (U : UnicodeTables) (filename : pystr) :
  (App.allowed_file filename = true
   <-> App.get_file_type filename = Returned (PyStr.py "PDF Document")
       \/ App.get_file_type filename = Returned (PyStr.py "Image File"))
  /\ (App.get_file_type filename = Raised <-> ~ In 46%N filename)
  /\ (~ In 46%N filename -> App.allowed_file filename = false).
Proof.
  unfold App.allowed_file, App.get_file_type.
  change (PyStr.py ".") with [46%N].
  destruct (PyStr.after_last 46 filename) as [ext|] eqn:E.
  - assert (Hdot : In 46%N filename).
    { destruct (in_dec N.eq_dec 46%N filename) as [H|H]; [exact H|].
      apply after_last_none in H. congruence. }
    rewrite (proj2 (py_in_singleton 46 filename) Hdot). cbn [andb]. cbv zeta.
    unfold App.str_in, App.ALLOWED_EXTENSIONS. cbn [map existsb].
    split; [|split].
    + destruct (PyStr.pystr_eqb (PyStr.lower ext) (PyStr.py "pdf")); cbn [orb].
      * split; auto.
      * match goal with
        | |- context [if ?b then Returned (PyStr.py "Image File") else _] => destruct b
        end.
        -- split; auto.
        -- split; [discriminate|]. intros [H|H]; vm_compute in H; discriminate H.
    + split; [|intros H; contradiction]. intros H.
      repeat match type of H with
             | context [if ?b then _ else _] => destruct b
             end; discriminate H.
    + intros H. contradiction.
  - apply after_last_none in E. split; [|split].
    + rewrite andb_false_r. split; [discriminate|]. intros [H|H]; discriminate H.
    + split; auto.
    + intros _. apply andb_false_r.
Qed.

Lemma bump_counts (k : pystr) (a : Q) (cats : App.categories) :
  list_sum (map (fun e => fst (snd e)) (App.bump k a cats))
  = S (list_sum (map (fun e => fst (snd e)) cats)).
Proof.
  unfold list_sum. induction cats as [|[k' [c t]] cats IH]; cbn [App.bump].
  - reflexivity.
  - destruct (PyStr.pystr_eqb k' k); cbn [map fold_right fst snd].
    + lia.
    + rewrite IH. lia.
Qed.

Lemma bump_totals (k : pystr) (a : Q) (cats : App.categories) :
  total_of (map (fun e => snd (snd e)) (App.bump k a cats))
  == total_of (map (fun e => snd (snd e)) cats) + a.
Proof.
  induction cats as [|[k' [c t]] cats IH]; cbn [App.bump].
  - cbn. ring.
  - destruct (PyStr.pystr_eqb k' k); cbn [map total_of fold_right fst snd].
    + unfold total_of. ring.
    + unfold total_of in *. rewrite IH. ring.
Qed.

Lemma bump_keys (k : pystr) (a : Q) (cats : App.categories) (x : pystr) :
  In x (map fst (App.bump k a cats)) <-> x = k \/ In x (map fst cats).
Proof.
  induction cats as [|[k' [c t]] cats IH]; cbn [App.bump].
  - cbn. intuition.
  - destruct (PyStr.pystr_eqb k' k) eqn:E; cbn [map In fst].
    + apply pystr_eqb_eq in E. subst. intuition.
    + rewrite IH. intuition.
Qed.

Lemma bump_nodup (k : pystr) (a : Q) (cats : App.categories) :
  NoDup (map fst cats) -> NoDup (map fst (App.bump k a cats)).
Proof.
  induction cats as [|[k' [c t]] cats IH]; cbn [App.bump]; intros H.
  - cbn. constructor; [intros []|constructor].
  - destruct (PyStr.pystr_eqb k' k) eqn:E; cbn [map fst] in *.
    + exact H.
    + inversion H as [|? ? Hn Hd]; subst. constructor; [|apply IH; exact Hd].
      intros Hin. apply bump_keys in Hin. destruct Hin as [-> | Hin]; [|contradiction].
      rewrite pystr_eqb_refl in E. discriminate.
Qed.

Lemma bump_positive (k : pystr) (a : Q) (cats : App.categories) :
  Forall (fun e => (1 <= fst (snd e))%nat) cats ->
  Forall (fun e => (1 <= fst (snd e))%nat) (App.bump k a cats).
Proof.
  induction cats as [|[k' [c t]] cats IH]; cbn [App.bump]; intros H.
  - constructor; [cbn; lia|constructor].
  - inversion H; subst. destruct (PyStr.pystr_eqb k' k); constructor; cbn in *; auto; lia.
Qed.

Lemma summary_fold (items : list App.line_dict) (cats : App.categories) :
  let cats' :=
    fold_left (fun cats item => App.bump (type_of item) (amount_of item) cats) items cats in
  list_sum (map (fun e => fst (snd e)) cats')
  = (list_sum (map (fun e => fst (snd e)) cats) + length items)%nat
  /\ total_of (map (fun e => snd (snd e)) cats')
     == total_of (map (fun e => snd (snd e)) cats) + total_of (map amount_of items)
  /\ (NoDup (map fst cats) -> NoDup (map fst cats'))
  /\ (forall k, In k (map fst cats')
                <-> In k (map fst cats) \/ exists item, In item items /\ type_of item = k)
  /\ (Forall (fun e => (1 <= fst (snd e))%nat) cats ->
      Forall (fun e => (1 <= fst (snd e))%nat) cats').
Proof.
  cbv zeta. revert cats; induction items as [|item items IH]; intros cats; cbn [fold_left].
  - cbn [length map total_of fold_right]. repeat split; auto; try lia; try ring.
    + intros [H | [item [[] _]]]. exact H.
  - destruct (IH (App.bump (type_of item) (amount_of item) cats)) as (C & T & N & K & P).
    repeat split.
    + rewrite C, bump_counts. cbn [length]. lia.
    + rewrite T, bump_totals. cbn [map total_of fold_right]. unfold total_of. ring.
    + intros H. apply N, bump_nodup, H.
    + intros H. apply K in H. destruct H as [H | (it & Hin & Ht)].
      * apply bump_keys in H. destruct H as [-> | H]; [|left; exact H].
        right. exists item. split; [left; reflexivity | reflexivity].
      * right. exists it. split; [right; exact Hin | exact Ht].
    + intros H. apply K. destruct H as [H | (it & [<- | Hin] & Ht)].
      * left. apply bump_keys. right. exact H.
      * left. apply bump_keys. left. symmetry. exact Ht.
      * right. exists it. split; assumption.
    + intros H. apply P, bump_positive, H.
Qed.

(** X6.  The category summary of an export loses nothing: the counts add
    up to the number of line items and the category totals to the sum of
    all amounts; each item type present among the items has exactly one
    entry, no other type has one, and every count is at least 1.  (An item
    without a type counts as "other", one without an amount as 0.) *)
Theorem X6_categorize_items_summary (line_items : list App.line_dict) :
  let cats := App.categorize_items_summary line_items in
  list_sum (map (fun e => fst (snd e)) cats) = length line_items
  /\ total_of (map (fun e => snd (snd e)) cats) == total_of (map amount_of line_items)
  /\ NoDup (map fst cats)
  /\ (forall k, In k (map fst cats) <-> exists item, In item line_items /\ type_of item = k)
  /\ Forall (fun e => (1 <= fst (snd e))%nat) cats.
Proof.
  cbv zeta. unfold App.categorize_items_summary.
  destruct (summary_fold line_items []) as (C & T & N & K & P).
  repeat split.
  - exact C.
  - rewrite T. cbn. ring.
  - apply N. constructor.
  - intros H. apply K in H. destruct H as [[] | H]. exact H.
  - intros H. apply K. right. exact H.
  - apply P. constructor.
Qed.

Ltac split_ifs :=
  repeat match goal with
         | |- context [if ?b then _ else _] => destruct b eqn:?
         end.

Lemma add_to_totals_grand (t : App.totals) (item : App.line_dict) :
  App.grand_total (App.add_to_totals t item) = App.grand_total t + amount_of item.
Proof. unfold App.add_to_totals, amount_of. cbv zeta. split_ifs; reflexivity. Qed.

Lemma add_to_totals_subtotal (t : App.totals) (item : App.line_dict) :
  App.subtotal (App.add_to_totals t item)
  = if has_type ["product"; "service"]%string item
    then App.subtotal t + amount_of item else App.subtotal t.
Proof.
  unfold App.add_to_totals, has_type, amount_of, type_of. cbv zeta. cbn [map].
  split_ifs; reflexivity.
Qed.

Lemma add_to_totals_tax (t : App.totals) (item : App.line_dict) :
  App.tax_total (App.add_to_totals t item)
  == if has_type ["tax"]%string item
     then App.tax_total t + amount_of item else App.tax_total t.
Proof.
  unfold App.add_to_totals, has_type, amount_of, type_of, App.str_in.
  cbv zeta. cbn [map existsb].
  destruct (PyStr.pystr_eqb _ (PyStr.py "product")) eqn:Ep.
  - apply pystr_eqb_eq in Ep. rewrite Ep. cbn. reflexivity.
  - destruct (PyStr.pystr_eqb _ (PyStr.py "service")) eqn:Es.
    + apply pystr_eqb_eq in Es. rewrite Es. cbn. reflexivity.
    + cbn [orb]. rewrite orb_false_r. split_ifs; reflexivity.
Qed.

Lemma add_to_totals_discount (t : App.totals) (item : App.line_dict) :
  App.discount_total t <= App.discount_total (App.add_to_totals t item)
  /\ (has_type ["product"; "service"; "tax"]%string item = true
      \/ (has_type ["discount"]%string item = false /\ 0 <= amount_of item) ->
      App.discount_total (App.add_to_totals t item) = App.discount_total t).
Proof.
  unfold App.add_to_totals, has_type, amount_of, type_of, App.str_in.
  cbv zeta. cbn [map existsb].
  pose proof (Qabs_nonneg (App.get (App.amount item) 0)) as Habs.
  destruct (PyStr.pystr_eqb _ (PyStr.py "product")) eqn:Ep; cbn [orb].
  { split; [apply Qle_refl | reflexivity]. }
  destruct (PyStr.pystr_eqb _ (PyStr.py "service")) eqn:Es; cbn [orb].
  { split; [apply Qle_refl | reflexivity]. }
  destruct (PyStr.pystr_eqb _ (PyStr.py "tax")) eqn:Et; cbn [orb].
  { split; [apply Qle_refl | reflexivity]. }
  rewrite orb_false_r.
  destruct (PyStr.pystr_eqb _ (PyStr.py "discount")) eqn:Ed; cbn [orb].
  { cbn [App.discount_total]. split; [lra|]. intros [H | [H _]]; discriminate H. }
  destruct (Qlt_bool _ 0) eqn:En; cbn [App.discount_total].
  - split; [lra|]. intros [H | [_ H]]; [discriminate H|].
    apply Qlt_bool_true in En. lra.
  - split; [apply Qle_refl | reflexivity].
Qed.

Lemma totals_fold (items : list App.line_dict) (t : App.totals) :
  let t' := fold_left App.add_to_totals items t in
  App.grand_total t' == App.grand_total t + total_of (map amount_of items)
  /\ App.subtotal t'
     == App.subtotal t
        + total_of (map amount_of (filter (has_type ["product"; "service"]%string) items))
  /\ App.tax_total t'
     == App.tax_total t + total_of (map amount_of (filter (has_type ["tax"]%string) items))
  /\ App.discount_total t <= App.discount_total t'
  /\ (Forall (fun item => has_type ["product"; "service"; "tax"]%string item = true
                          \/ (has_type ["discount"]%string item = false
                              /\ 0 <= amount_of item)) items ->
      App.discount_total t' == App.discount_total t).
Proof.
  cbv zeta. revert t; induction items as [|item items IH]; intros t; cbn [fold_left].
  - cbn [map filter total_of fold_right]. repeat split; try ring; try apply Qle_refl.
  - destruct (IH (App.add_to_totals t item)) as (G & S & T & D & Z). clear IH.
    destruct (add_to_totals_discount t item) as (D1 & Z1).
    repeat split.
    + rewrite G, add_to_totals_grand. cbn [map total_of fold_right]. unfold total_of. ring.
    + rewrite S, add_to_totals_subtotal. cbn [filter].
      destruct (has_type ["product"; "service"]%string item);
        cbn [map total_of fold_right]; unfold total_of; ring.
    + rewrite T, add_to_totals_tax. cbn [filter].
      destruct (has_type ["tax"]%string item);
        cbn [map total_of fold_right]; unfold total_of; ring.
    + eapply Qle_trans; [exact D1 | exact D].
    + intros F. inversion F as [|? ? F1 F2]; subst.
      rewrite (Z F2), (Z1 F1). reflexivity.
Qed.

(** X7.  The totals of an export: the grand total is the sum of all
    amounts, the subtotal the sum over the products and services, the tax
    total the sum over the tax items; the discount total is never negative,
    and it is zero when every item is a product, a service, a tax, or a
    non-negative amount of a type other than "discount". *)
Theorem X7_calculate_line_items_totals (line_items : list App.line_dict) :
  let t := App.calculate_line_items_totals line_items in
  App.grand_total t == total_of (map amount_of line_items)
  /\ App.subtotal t
     == total_of (map amount_of (filter (has_type ["product"; "service"]%string) line_items))
  /\ App.tax_total t
     == total_of (map amount_of (filter (has_type ["tax"]%string) line_items))
  /\ 0 <= App.discount_total t
  /\ (Forall (fun item => has_type ["product"; "service"; "tax"]%string item = true
                          \/ (has_type ["discount"]%string item = false
                              /\ 0 <= amount_of item)) line_items ->
      App.discount_total t == 0).
Proof.
  cbv zeta. unfold App.calculate_line_items_totals.
  destruct (totals_fold line_items
              {| App.subtotal := 0; App.tax_total := 0; App.discount_total := 0;
                 App.grand_total := 0 |}) as (G & S & T & D & Z).
  cbn [App.subtotal App.tax_total App.discount_total App.grand_total] in *.
  repeat split.
  - rewrite G. ring.
  - rewrite S. ring.
  - rewrite T. ring.
  - exact D.
  - exact Z.
Qed.

(** ** The matcher: what a match consists of *)

Section Soundness.
Context {U : UnicodeTables}.
Import PyStr Re.
Variable fl : flags.

Lemma captures_ok_refl t r cs : captures_ok fl t r cs cs.
Proof. intros i v H. left. exact H. Qed.

Lemma captures_ok_trans t r cs1 cs2 cs3 :
  captures_ok fl t r cs1 cs2 -> captures_ok fl t r cs2 cs3 -> captures_ok fl t r cs1 cs3.
Proof.
  intros H12 H23 i v H. destruct (H23 i v H) as [H2 | H2]; [|right; exact H2].
  apply H12. exact H2.
Qed.

Lemma captures_ok_weaken t r r' cs cs' :
  (forall i c, group_alphabet fl i r c = true -> group_alphabet fl i r' c = true) ->
  captures_ok fl t r cs cs' -> captures_ok fl t r' cs cs'.
Proof.
  intros Hw H i v Hin. destruct (H i v Hin) as [H1 | [H1 H2]]; [left; exact H1|].
  right. split; [|exact H2]. eapply Forall_impl; [|exact H1]. intros c. apply Hw.
Qed.

Lemma Forall_weaken (p q : N -> bool) (w : pystr) :
  (forall c, p c = true -> q c = true) ->
  Forall (fun c => p c = true) w -> Forall (fun c => q c = true) w.
Proof. intros H. apply Forall_impl. exact H. Qed.

Lemma rep_loop_sound {A} ok r (step : option N -> pystr -> captures -> cont A -> option A)
    lo hi greedy (k : cont A) :
  step_sound ok (fun t => captures_ok fl t r) step ->
  forall fuel n prev s cs a t pre,
    t = pre ++ s ->
    rep_loop step lo hi greedy k fuel n prev s cs = Some a ->
    exists w s' prev' cs',
      s = w ++ s' /\ Forall (fun c => ok c = true) w /\ captures_ok fl t r cs cs'
      /\ k prev' s' cs' = Some a.
Proof.
  intros Hstep fuel; induction fuel as [|fuel IH];
    intros n prev s cs a t pre Ht H; cbn [rep_loop] in H; [discriminate|].
  assert (Hleave : (if Nat.leb lo n then k prev s cs else None) = Some a ->
                   exists w s' prev' cs',
                     s = w ++ s' /\ Forall (fun c => ok c = true) w
                     /\ captures_ok fl t r cs cs' /\ k prev' s' cs' = Some a).
  { intros E. destruct (Nat.leb lo n); [|discriminate].
    exists [], s, prev, cs. repeat split; auto. apply captures_ok_refl. }
  assert (Hagain :
            (if below n hi then
               step prev s cs
                 (fun prev' s' cs' =>
                    if Nat.ltb (length s') (length s)
                    then rep_loop step lo hi greedy k fuel (S n) prev' s' cs' else None)
             else None) = Some a ->
            exists w s' prev' cs',
              s = w ++ s' /\ Forall (fun c => ok c = true) w
              /\ captures_ok fl t r cs cs' /\ k prev' s' cs' = Some a).
  { intros E. destruct (below n hi); [|discriminate].
    destruct (Hstep _ _ _ _ _ t pre Ht E) as (w1 & s1 & p1 & cs1 & -> & F1 & C1 & K1).
    destruct (Nat.ltb (length s1) (length (w1 ++ s1))); [|discriminate].
    destruct (IH (S n) p1 s1 cs1 a t (pre ++ w1)) as (w2 & s2 & p2 & cs2 & -> & F2 & C2 & K2).
    - rewrite Ht, app_assoc. reflexivity.
    - exact K1.
    - exists (w1 ++ w2), s2, p2, cs2. repeat split.
      + rewrite app_assoc. reflexivity.
      + apply Forall_app. split; assumption.
      + eapply captures_ok_trans; eassumption.
      + exact K2. }
  destruct greedy.
  - destruct (if below n hi then _ else None) as [a'|] eqn:E.
    + injection H as ->. apply Hagain. reflexivity.
    + apply Hleave. exact H.
  - destruct (if Nat.leb lo n then _ else None) as [a'|] eqn:E.
    + injection H as ->. apply Hleave. reflexivity.
    + apply Hagain. exact H.
Qed.

Lemma firstn_consumed (w s' : pystr) : firstn (length (w ++ s') - length s') (w ++ s') = w.
Proof.
  rewrite length_app. replace (length w + length s' - length s')%nat with (length w) by lia.
  rewrite firstn_app, Nat.sub_diag, firstn_all. cbn [firstn]. apply app_nil_r.
Qed.

(** A successful match of [r] consumes characters of its alphabet only, and
    what it adds to the captures was captured by its groups in the text. *)
Lemma rmatch_sound {A} (r : regex) :
  step_sound (alphabet fl r) (fun t => captures_ok fl t r) (rmatch (A := A) fl r).
Proof.
  induction r as [| p | | neg items | | | | r1 IH1 r2 IH2 | r1 IH1 r2 IH2
                 | r1 IH1 lo hi greedy | idx r1 IH1];
    intros prev s cs k a t pre Ht H; cbn [rmatch] in H.
  - exists [], s, prev, cs. repeat split; auto. apply captures_ok_refl.
  - destruct s as [|c s]; [discriminate|].
    destruct (lit_match (ignorecase fl) p c) eqn:E; [|discriminate].
    exists [c], s, (Some c), cs. repeat split; auto. apply captures_ok_refl.
  - destruct s as [|c s]; [discriminate|].
    destruct (c =? 10)%N eqn:E; [discriminate|].
    exists [c], s, (Some c), cs. repeat split; auto.
    + constructor; [|constructor]. cbn [alphabet]. rewrite E. reflexivity.
    + apply captures_ok_refl.
  - destruct s as [|c s]; [discriminate|].
    destruct (set_match (ignorecase fl) neg items c) eqn:E; [|discriminate].
    exists [c], s, (Some c), cs. repeat split; auto. apply captures_ok_refl.
  - exists [], s, prev, cs. repeat split; auto; [apply captures_ok_refl|].
    destruct prev as [c|]; [|exact H].
    destruct (multiline fl && (c =? 10)%N); [exact H | discriminate].
  - exists [], s, prev, cs. repeat split; auto; [apply captures_ok_refl|].
    destruct s as [|c s]; [exact H|].
    destruct ((c =? 10)%N && _); [exact H | discriminate].
  - exists [], s, prev, cs. repeat split; auto; [apply captures_ok_refl|].
    destruct (xorb _ _); [exact H | discriminate].
  - destruct (IH1 _ _ _ _ _ t pre Ht H) as (w1 & s1 & p1 & cs1 & -> & F1 & C1 & K1).
    destruct (IH2 _ _ _ _ _ t (pre ++ w1) ltac:(rewrite Ht, app_assoc; reflexivity) K1)
      as (w2 & s2 & p2 & cs2 & -> & F2 & C2 & K2).
    exists (w1 ++ w2), s2, p2, cs2. repeat split.
    + rewrite app_assoc. reflexivity.
    + apply Forall_app. split; eapply Forall_weaken; try eassumption;
        intros c Hc; cbn [alphabet]; rewrite Hc; auto using orb_true_r.
    + eapply captures_ok_trans; eapply captures_ok_weaken; try eassumption;
        intros i c Hc; cbn [group_alphabet]; rewrite Hc; auto using orb_true_r.
    + exact K2.
  - destruct (rmatch fl r1 prev s cs k) as [a'|] eqn:E.
    + injection H as ->.
      destruct (IH1 _ _ _ _ _ t pre Ht E) as (w1 & s1 & p1 & cs1 & -> & F1 & C1 & K1).
      exists w1, s1, p1, cs1. repeat split; auto.
      * eapply Forall_weaken; [|exact F1]. intros c Hc. cbn [alphabet]. rewrite Hc. auto.
      * eapply captures_ok_weaken; [|exact C1].
        intros i c Hc. cbn [group_alphabet]. rewrite Hc. auto.
    + destruct (IH2 _ _ _ _ _ t pre Ht H) as (w1 & s1 & p1 & cs1 & -> & F1 & C1 & K1).
      exists w1, s1, p1, cs1. repeat split; auto.
      * eapply Forall_weaken; [|exact F1]. intros c Hc. cbn [alphabet]. rewrite Hc.
        apply orb_true_r.
      * eapply captures_ok_weaken; [|exact C1].
        intros i c Hc. cbn [group_alphabet]. rewrite Hc. apply orb_true_r.
  - exact (@rep_loop_sound A (alphabet fl r1) r1 (rmatch fl r1) lo hi greedy k IH1
             (S (length s)) 0%nat prev s cs a t pre Ht H).
  - destruct (IH1 _ _ _ _ _ t pre Ht H) as (w1 & s1 & p1 & cs1 & -> & F1 & C1 & K1).
    rewrite firstn_consumed in K1.
    exists w1, s1, p1, ((idx, w1) :: cs1). repeat split; auto.
    intros i v [Hin | Hin].
    + injection Hin as <- <-. right. split.
      * eapply Forall_weaken; [|exact F1]. intros c Hc. cbn [group_alphabet].
        rewrite Nat.eqb_refl, Hc. reflexivity.
      * exists pre, s1. exact Ht.
    + destruct (C1 i v Hin) as [H1 | [H1 H2]]; [left; exact H1|].
      right. split; [|exact H2]. eapply Forall_weaken; [|exact H1].
      intros c Hc. cbn [group_alphabet]. rewrite Hc. apply orb_true_r.
Qed.

End Soundness.

Section SearchSoundness.
Context {U : UnicodeTables}.
Import PyStr Re.
Variable fl : flags.

Lemma match_here_sound (r : regex) (prev : option N) (s t pre : pystr) (m : match_obj) :
  t = pre ++ s ->
  match_here fl r prev s = Some m ->
  (exists s', s = m_all m ++ s')
  /\ Forall (fun c => alphabet fl r c = true) (m_all m)
  /\ captures_ok fl t r [] (m_groups m).
Proof.
  intros Ht H. unfold match_here in H.
  destruct (@rmatch_sound U fl match_obj r prev s [] _ m t pre Ht H)
    as (w & s' & p' & cs' & -> & F & C & K).
  rewrite firstn_consumed in K. injection K as <-. cbn [m_all m_groups].
  split; [exists s'; reflexivity|]. split; assumption.
Qed.

Lemma search_from_sound (r : regex) (s : pystr) :
  forall prev t pre m,
    t = pre ++ s ->
    search_from fl r prev s = Some m ->
    occurs_in (m_all m) t
    /\ Forall (fun c => alphabet fl r c = true) (m_all m)
    /\ captures_ok fl t r [] (m_groups m).
Proof.
  induction s as [|c s IH]; intros prev t pre m Ht H; cbn [search_from] in H.
  - destruct (match_here fl r prev []) as [m'|] eqn:E; [|discriminate].
    injection H as ->. destruct (@match_here_sound r prev _ t pre _ Ht E) as ((s' & Hs) & F & C).
    split; [|split; assumption]. exists pre, s'. rewrite Ht, Hs. reflexivity.
  - destruct (match_here fl r prev (c :: s)) as [m'|] eqn:E.
    + injection H as ->. destruct (@match_here_sound r prev _ t pre _ Ht E) as ((s' & Hs) & F & C).
      split; [|split; assumption]. exists pre, s'. rewrite Ht, Hs. reflexivity.
    + apply (IH (Some c) t (pre ++ [c]) m); [|exact H].
      rewrite Ht, <- app_assoc. reflexivity.
Qed.

Lemma assoc_in (i : nat) (cs : captures) (v : pystr) : assoc i cs = Some v -> In (i, v) cs.
Proof.
  induction cs as [|[j w] cs IH]; cbn [assoc]; [discriminate|].
  destruct (Nat.eqb_spec i j) as [->|Hne].
  - intros [= ->]. left. reflexivity.
  - intros H. right. apply IH. exact H.
Qed.

Lemma occurs_in_nil (t : pystr) : occurs_in [] t.
Proof. exists [], t. reflexivity. Qed.

(** What [re.search] finds is a piece of the text made of characters that
    the pattern can consume, and each of its groups is a piece of the text
    made of characters that the group can capture. *)
Lemma re_search_sound (pattern s : pystr) (m : match_obj) :
  re_search pattern s fl = Some m ->
  exists r,
    compile pattern = Some r
    /\ occurs_in (m_all m) s
    /\ Forall (fun c => alphabet fl r c = true) (m_all m)
    /\ forall i, occurs_in (group m i) s
                 /\ Forall (fun c => group_alphabet fl i r c = true) (group m i).
Proof.
  unfold re_search. destruct (compile pattern) as [r|]; [|discriminate].
  intros H. exists r. split; [reflexivity|].
  destruct (@search_from_sound r s None s [] m eq_refl H) as (O & F & C).
  split; [exact O|]. split; [exact F|].
  intros i. unfold group. destruct (assoc i (m_groups m)) as [v|] eqn:E.
  - apply assoc_in in E. destruct (C i v E) as [[] | [F' O']]. split; assumption.
  - split; [apply occurs_in_nil | constructor].
Qed.

Lemma lstrip_split (s : pystr) :
  exists a, s = a ++ lstrip s /\ Forall (fun c => isspace c = true) a.
Proof.
  induction s as [|c s (a & E & F)]; cbn [lstrip].
  - exists []. split; [reflexivity | constructor].
  - destruct (isspace c) eqn:Ec.
    + exists (c :: a). split; [cbn; rewrite <- E; reflexivity | constructor; assumption].
    + exists []. split; [reflexivity | constructor].
Qed.

Lemma lstrip_head (s : pystr) (c : N) (rest : pystr) :
  lstrip s = c :: rest -> isspace c = false.
Proof.
  induction s as [|x s IH]; cbn [lstrip]; [discriminate|].
  destruct (isspace x) eqn:E; [exact IH|]. intros [= <- <-]. exact E.
Qed.

Lemma strip_split (s : pystr) :
  exists a b, s = a ++ strip s ++ b
              /\ Forall (fun c => isspace c = true) a
              /\ Forall (fun c => isspace c = true) b.
Proof.
  unfold strip, rstrip.
  destruct (lstrip_split s) as (a & Ea & Fa).
  destruct (lstrip_split (rev (lstrip s))) as (b & Eb & Fb).
  exists a, (rev b). split; [|split].
  - rewrite Ea at 1. f_equal. rewrite <- rev_app_distr, <- Eb, rev_involutive. reflexivity.
  - exact Fa.
  - apply Forall_rev. exact Fb.
Qed.

Lemma strip_occurs_in (s : pystr) : occurs_in (strip s) s.
Proof. destruct (strip_split s) as (a & b & E & _). exists a, b. exact E. Qed.

Lemma occurs_in_trans (u v t : pystr) : occurs_in u v -> occurs_in v t -> occurs_in u t.
Proof.
  intros (a & b & ->) (a' & b' & ->). exists (a' ++ a), (b ++ b').
  rewrite <- !app_assoc. reflexivity.
Qed.

Lemma occurs_in_In (v t : pystr) (c : N) : occurs_in v t -> In c v -> In c t.
Proof. intros (a & b & ->) H. apply in_or_app. right. apply in_or_app. left. exact H. Qed.

(** A stripped string neither starts nor ends with a blank. *)
Lemma strip_edges (s : pystr) :
  (forall c rest, strip s = c :: rest -> isspace c = false)
  /\ (forall c front, strip s = front ++ [c] -> isspace c = false).
Proof.
  unfold strip, rstrip. split.
  - intros c rest H.
    destruct (lstrip_split (rev (lstrip s))) as (b & Eb & Fb).
    assert (E : lstrip s = (c :: rest) ++ rev b).
    { rewrite <- H, <- rev_app_distr, <- Eb, rev_involutive. reflexivity. }
    cbn [app] in E. exact (@lstrip_head _ _ _ E).
  - intros c front H.
    assert (E : lstrip (rev (lstrip s)) = c :: rev front).
    { rewrite <- (rev_involutive (lstrip (rev (lstrip s)))), H, rev_app_distr. reflexivity. }
    exact (@lstrip_head _ _ _ E).
Qed.

Lemma first_search_sound (ps : list pystr) (s : pystr) (m : match_obj) :
  InvoiceProcessor.first_search ps s fl = Some m ->
  exists pattern, In pattern ps /\ re_search pattern s fl = Some m.
Proof.
  induction ps as [|p ps IH]; cbn [InvoiceProcessor.first_search]; [discriminate|].
  destruct (re_search p s fl) as [m'|] eqn:E.
  - intros [= ->]. exists p. split; [left; reflexivity | exact E].
  - intros H. destruct (IH H) as (q & Hq & Eq). exists q. split; [right; exact Hq | exact Eq].
Qed.

End SearchSoundness.

(** X8.  A field value returned by [extract_field] (for a field other than
    the vendor) is copied from the lower-cased text: it is a contiguous
    piece of it, without a blank at either end.  A field name that has no
    patterns gives [None]. *)
Theorem X8_extract_field_copies_text (U : UnicodeTables) (text field_type v : pystr) :
  PyStr.pystr_eqb field_type (PyStr.py "vendor") = false ->
  (InvoiceProcessor.extract_field text field_type = Some v ->
   occurs_in v (PyStr.lower text)
   /\ (forall c rest, v = c :: rest -> PyStr.isspace c = false)
   /\ (forall c front, v = front ++ [c] -> PyStr.isspace c = false))
  /\ (InvoiceProcessor.patterns_get field_type InvoiceProcessor.patterns = [] ->
      InvoiceProcessor.extract_field text field_type = None).
Proof.
  intros Hf. unfold InvoiceProcessor.extract_field. rewrite Hf. cbv zeta. split.
  - destruct (InvoiceProcessor.first_search _ _ _) as [m|] eqn:E; [|discriminate].
    intros [= <-].
    destruct (@first_search_sound U _ _ _ _ E) as (pattern & _ & Hs).
    destruct (@re_search_sound U _ _ _ _ Hs) as (r & _ & _ & _ & G).
    split; [|apply strip_edges].
    eapply occurs_in_trans; [apply strip_occurs_in | apply (G 1%nat)].
  - intros ->. reflexivity.
Qed.

Lemma X8_witness :
  InvoiceProcessor.extract_field (U := plain_tables) scenario_text (PyStr.py "total")
    = Some (PyStr.py "2500.00")
  /\ occurs_in (PyStr.py "2500.00") (PyStr.lower (U := plain_tables) scenario_text).
Proof.
  assert (E : InvoiceProcessor.extract_field (U := plain_tables) scenario_text
                (PyStr.py "total") = Some (PyStr.py "2500.00"))
    by (vm_compute; reflexivity).
  split; [exact E|].
  assert (Hf : PyStr.pystr_eqb (PyStr.py "total") (PyStr.py "vendor") = false)
    by (vm_compute; reflexivity).
  exact (proj1 (proj1 (@X8_extract_field_copies_text plain_tables scenario_text
                         (PyStr.py "total") (PyStr.py "2500.00") Hf) E)).
Defined.

(** ** The line-item parser: amounts and item types of the drafts *)

Section Drafts.
Context {U : UnicodeTables}.
Import PyStr Re InvoiceProcessor.

Lemma no_char_of_alphabet (f : N -> bool) (v : pystr) (c : N) :
  Forall (fun x => f x = true) v -> f c = false -> ~ In c v.
Proof.
  intros F Hc Hin. rewrite Forall_forall in F. specialize (F c Hin). congruence.
Qed.

Lemma digits_value_nonneg (s : pystr) (acc : N) : (0 <= Z.of_N (digits_value acc s))%Z.
Proof. apply N2Z.is_nonneg. Qed.

(** [float] gives a negative number only for a string with a minus sign. *)
Lemma float_nonneg (s : pystr) (q : Q) : ~ In 45%N s -> float s = Some q -> 0 <= q.
Proof.
  intros Hno. unfold float. cbv zeta.
  assert (Hs : ~ In 45%N (strip s)).
  { intros H. apply Hno. exact (@occurs_in_In _ _ _ (strip_occurs_in s) H). }
  destruct (strip s) as [|c r].
  - cbn. discriminate.
  - assert (Hc : c <> 45%N) by (intros ->; apply Hs; left; reflexivity).
    match goal with
    | |- context [let (negative, body) := ?X in _] =>
      assert (Hsign : fst X = false)
    end.
    { destruct c as [|p]; [reflexivity|].
      do 6 (try destruct p as [p|p|]); try reflexivity. congruence. }
    match goal with
    | |- context [let (negative, body) := ?X in _] =>
      destruct X as [negative body]
    end.
    cbn [fst] in Hsign. subst negative.
    destruct (take_digits body) as [ip rest].
    destruct (match rest with [] => Some [] | _ => _ end) as [f|]; [|discriminate].
    destruct (truthy ip || truthy f); [|discriminate].
    intros [= <-]. unfold Qle. cbn [Qnum Qden]. rewrite Z.mul_0_l, Z.mul_1_r.
    apply N2Z.is_nonneg.
Qed.

Lemma filter_not_in (f : N -> bool) (s : pystr) (c : N) : ~ In c s -> ~ In c (filter f s).
Proof. intros H Hin. apply filter_In in Hin. apply H. exact (proj1 Hin). Qed.

(** [_clean_amount] gives a negative number only for a string with a minus
    sign. *)
Lemma clean_amount_nonneg (s : pystr) : ~ In 45%N s -> 0 <= _clean_amount s.
Proof.
  intros Hno. unfold _clean_amount.
  destruct (negb (truthy s)); [apply Qle_refl|].
  unfold re_sub.
  replace (compile (py "[^\d\.-]"))
    with (Some (RSeq (RSet true [CDigit; CChar 46; CChar 45]) REmpty))
    by (vm_compute; reflexivity).
  unfold sub. rewrite sub_negated_set.
  destruct (float _) as [x|] eqn:E; [|apply Qle_refl].
  eapply float_nonneg; [|exact E]. apply filter_not_in. exact Hno.
Qed.

Lemma try_patterns_sound (ps : list pystr) (line : pystr) :
  forall i n m,
    try_patterns i ps line = Some (n, m) ->
    exists pattern,
      (i < n)%nat /\ nth_error ps (n - 1 - i) = Some pattern
      /\ re_search pattern line IGNORECASE = Some m.
Proof.
  induction ps as [|p ps IH]; intros i n m; cbn [try_patterns]; [discriminate|].
  destruct (re_search p line IGNORECASE) as [m'|] eqn:E.
  - intros [= <- <-]. exists p. split; [lia|]. split; [|exact E].
    replace (S i - 1 - i)%nat with 0%nat by lia. reflexivity.
  - intros H. destruct (IH (S i) n m H) as (q & Hlt & Hn & Hs).
    exists q. split; [lia|]. split; [|exact Hs].
    replace (n - 1 - i)%nat with (S (n - 1 - S i)) by lia. exact Hn.
Qed.

(** A group that cannot capture a minus sign yields a non-negative amount. *)
Lemma group_amount_nonneg (pattern line : pystr) (m : match_obj) (g : nat) :
  re_search pattern line IGNORECASE = Some m ->
  (forall r, compile pattern = Some r -> group_alphabet IGNORECASE g r 45 = false) ->
  0 <= _clean_amount (group m g).
Proof.
  intros Hs Hg. destruct (@re_search_sound U _ _ _ _ Hs) as (r & Hr & _ & _ & G).
  apply clean_amount_nonneg.
  eapply no_char_of_alphabet; [exact (proj2 (G g)) | exact (Hg r Hr)].
Qed.

Ltac no_minus :=
  let r := fresh "r" in let H := fresh "H" in
  intros r H; vm_compute in H; injection H as <-; vm_compute; reflexivity.

(** What the first matching line shape makes of a line: an amount and a
    unit price that are not negative, and one of four item types. *)
Lemma parsed_draft (line : pystr) (n : nat) (m : match_obj) (it : item) :
  try_patterns 0 line_patterns line = Some (n, m) ->
  _parse_line_item m n line = Some it ->
  0 <= amount it
  /\ (forall p, unit_price it = Some p -> 0 <= p)
  /\ In (item_type it) (map py ["product"; "tax"; "service"; "other"]%string)
  /\ original_line it = line.
Proof.
  intros Ht Hp. destruct (@try_patterns_sound _ _ _ _ _ Ht) as (pattern & Hlt & Hn & Hs).
  replace (n - 1 - 0)%nat with (n - 1)%nat in Hn by lia.
  destruct n as [|[|[|[|[|[|[|n]]]]]]]; cbn [_parse_line_item] in Hp; try discriminate;
    cbn [Nat.sub nth_error line_patterns] in Hn; injection Hn as <-.
  - destruct (float (group m 1)) as [q|]; [|discriminate]. injection Hp as <-.
    cbn [amount unit_price item_type original_line]. repeat split.
    + eapply (@group_amount_nonneg _ _ _ 3%nat); [exact Hs | no_minus].
    + discriminate.
    + cbn. auto.
  - destruct (float (group m 2)) as [q|]; [|discriminate]. injection Hp as <-.
    cbn [amount unit_price item_type original_line]. repeat split.
    + eapply (@group_amount_nonneg _ _ _ 4%nat); [exact Hs | no_minus].
    + intros p [= <-]. eapply (@group_amount_nonneg _ _ _ 3%nat); [exact Hs | no_minus].
    + cbn. auto.
  - destruct (float (group m 3)) as [q|]; [|discriminate]. injection Hp as <-.
    cbn [amount unit_price item_type original_line]. repeat split.
    + eapply (@group_amount_nonneg _ _ _ 4%nat); [exact Hs | no_minus].
    + discriminate.
    + cbn. auto.
  - injection Hp as <-. cbn [amount unit_price item_type original_line]. repeat split.
    + eapply (@group_amount_nonneg _ _ _ 2%nat); [exact Hs | no_minus].
    + discriminate.
    + cbn. auto.
  - injection Hp as <-. cbn [amount unit_price item_type original_line]. repeat split.
    + eapply (@group_amount_nonneg _ _ _ 2%nat); [exact Hs | no_minus].
    + discriminate.
    + cbn. auto.
  - injection Hp as <-. cbn [amount unit_price item_type original_line]. repeat split.
    + eapply (@group_amount_nonneg _ _ _ 2%nat); [exact Hs | no_minus].
    + discriminate.
    + cbn. auto.
Qed.

Lemma collected_item_origin (text : pystr) (x : item) :
  In x (collect_line_items text) ->
  exists line n m,
    In line (map strip (split_on 10 text))
    /\ skipped line = false
    /\ try_patterns 0 line_patterns line = Some (n, m)
    /\ _parse_line_item m n line = Some x
    /\ _validate_line_item x = true.
Proof.
  unfold collect_line_items. rewrite in_flat_map. intros [line [Hl H]].
  unfold items_of_line in H. cbv zeta in H.
  destruct (skipped (strip line)) eqn:Es; [contradiction|].
  destruct (try_patterns 0 line_patterns (strip line)) as [[n m]|] eqn:Et; [|contradiction].
  destruct (_parse_line_item m n (strip line)) as [it|] eqn:Ep; [|contradiction].
  destruct (_validate_line_item it) eqn:E; [|contradiction].
  destruct H as [<- | []]. exists (strip line), n, m. repeat split; auto.
  apply in_map. exact Hl.
Qed.

End Drafts.

(** ** The regex fallback: validation of its model *)

Section FallbackValidation.
Context {U : UnicodeTables}.
Variable now : pystr.
Variable parse_date : pystr -> option pystr.
Import PyStr Re InvoiceProcessor.

Lemma extracted_item_facts (text : pystr) (it : item) :
  In it (extract_line_items text) ->
  _validate_line_item it = true
  /\ 0 <= amount it
  /\ (forall p, unit_price it = Some p -> 0 <= p)
  /\ In (item_type it) (map py ["product"; "tax"; "service"; "other"]%string).
Proof.
  intros H. apply categorized_items_come_from_input in H.
  destruct (collected_item_origin _ _ H) as (line & n & m & _ & _ & Ht & Hp & Hv).
  destruct (parsed_draft _ Ht Hp) as (Ha & Hu & Hty & _).
  repeat split; assumption.
Qed.

Lemma Qlt_bool_false_iff (x y : Q) : Qlt_bool x y = false <-> y <= x.
Proof.
  unfold Qlt_bool. rewrite negb_false_iff. apply Qle_bool_iff.
Qed.

Lemma fallback_item_validates (text : pystr) (it : item) :
  In it (extract_line_items text) -> LineItem.validate (to_line_item it) = [].
Proof.
  intros H. destruct (extracted_item_facts _ _ H) as (Hv & _ & Hu & _).
  destruct (valid_item_bounds _ Hv) as (Hlen & _ & (Hq & _)).
  unfold to_line_item. rewrite validate_after_calculate_totals.
  unfold LineItem.validate, LineItem.new.
  cbn [LineItem.description LineItem.quantity LineItem.unit_price LineItem.tax_rate
       truthy_opt LineItem.negative].
  replace (truthy (description it)) with true
    by (destruct (description it); [cbn in Hlen; lia | reflexivity]).
  rewrite (proj2 (Qlt_bool_false_iff _ _) Hq).
  replace (LineItem.negative (unit_price it)) with false.
  - reflexivity.
  - unfold LineItem.negative. destruct (unit_price it) as [p|]; [|reflexivity].
    symmetry. apply Qlt_bool_false_iff. apply Hu. reflexivity.
Qed.

Lemma no_line_item_errors (items : list LineItem.t) (i : nat) :
  Forall (fun it => LineItem.validate it = []) items ->
  StructuredInvoiceData.line_item_errors i items = [].
Proof.
  intros F. revert i. induction F as [|it items E F IH]; intros i;
    cbn [StructuredInvoiceData.line_item_errors]; [reflexivity|].
  rewrite E, IH. reflexivity.
Qed.

Lemma fallback_validate (text : pystr) (msg : pystr) :
  In msg (StructuredInvoiceData.validate (_convert_regex_to_structured now parse_date text)) ->
  msg = py "Invoice date must be in YYYY-MM-DD format"
  \/ msg = py "Invalid vendor email format".
Proof.
  unfold _convert_regex_to_structured. cbv zeta. rewrite validate_after_totals.
  unfold StructuredInvoiceData.validate.
  cbn [StructuredInvoiceData.invoice_metadata StructuredInvoiceData.vendor_details
       StructuredInvoiceData.customer_details StructuredInvoiceData.line_items].
  rewrite no_line_item_errors.
  - unfold InvoiceMetadata.validate_dates.
    cbn [InvoiceMetadata.invoice_date InvoiceMetadata.due_date InvoiceMetadata.bad_date
         CustomerDetails.contact Contact.new].
    unfold Contact.validate_email at 2. cbn [Contact.email negb].
    rewrite !app_nil_r.
    intros Hin. apply in_app_or in Hin. destruct Hin as [Hin | Hin].
    + destruct (InvoiceMetadata.bad_date _); [|contradiction].
      destruct Hin as [<- | []]. left. reflexivity.
    + destruct (negb _); [|contradiction].
      destruct Hin as [<- | []]. right. reflexivity.
  - apply Forall_forall. intros li Hin. apply in_map_iff in Hin.
    destruct Hin as (it & <- & Hit). apply (fallback_item_validates text). exact Hit.
Qed.

End FallbackValidation.

(** X9.  [validate] never finds fault with a line item of a model built by
    the regex fallback (each has a description, and no negative quantity
    or unit price): the only messages it can report there are the one on
    the invoice date and the one on the vendor's e-mail address. *)
Theorem X9_fallback_model_validation (U : UnicodeTables) (now : pystr)
    (parse_date : pystr -> option pystr) (text : pystr) :
  let d := InvoiceProcessor._convert_regex_to_structured now parse_date text in
  StructuredInvoiceData.line_item_errors 0 (StructuredInvoiceData.line_items d) = []
  /\ forall msg, In msg (StructuredInvoiceData.validate d) ->
                 msg = PyStr.py "Invoice date must be in YYYY-MM-DD format"
                 \/ msg = PyStr.py "Invalid vendor email format".
Proof.
  cbv zeta. split; [|apply fallback_validate].
  unfold InvoiceProcessor._convert_regex_to_structured. cbv zeta.
  unfold StructuredInvoiceData.calculate_all_totals. cbn [StructuredInvoiceData.line_items].
  rewrite line_item_errors_after_totals. apply no_line_item_errors.
  apply Forall_forall. intros li Hin. apply in_map_iff in Hin.
  destruct Hin as (it & <- & Hit). apply (fallback_item_validates text). exact Hit.
Qed.

(** ** The export helpers on parsed line items *)

Section ExportOfParsed.
Context {U : UnicodeTables}.
Import PyStr InvoiceProcessor.

Lemma str_in_eq (x : pystr) (xs : list pystr) : App.str_in x xs = true <-> In x xs.
Proof.
  unfold App.str_in. rewrite existsb_exists. split.
  - intros (y & Hy & E). apply pystr_eqb_eq in E. subst. exact Hy.
  - intros H. exists x. split; [exact H | apply pystr_eqb_refl].
Qed.

Lemma four_types_split (items : list App.line_dict) :
  Forall (fun item => In (type_of item)
                         (map py ["product"; "tax"; "service"; "other"]%string)) items ->
  total_of (map amount_of items)
  == total_of (map amount_of (filter (has_type ["product"; "service"]%string) items))
     + total_of (map amount_of (filter (has_type ["tax"]%string) items))
     + total_of (map amount_of (filter (has_type ["other"]%string) items)).
Proof.
  induction 1 as [|item items Hty F IH]; cbn [map filter total_of fold_right].
  - ring.
  - unfold total_of in *. rewrite IH. clear IH.
    unfold has_type. cbn [map] in *.
    destruct Hty as [E | [E | [E | [E | []]]]]; rewrite <- E;
      vm_compute (App.str_in _ _); cbn [map fold_right]; ring.
Qed.

End ExportOfParsed.

(** X10.  On the line items that the parser returns, the export totals have
    no discounts: the discount total is 0 and the grand total is the
    subtotal plus the tax total plus the amounts of the items of type
    "other"; the category summary has entries for "product", "tax",
    "service" and "other" only. *)
Theorem X10_export_of_parsed_items (U : UnicodeTables) (text : pystr) :
  let items := map App.of_item (InvoiceProcessor.extract_line_items text) in
  let t := App.calculate_line_items_totals items in
  App.discount_total t == 0
  /\ App.grand_total t
     == App.subtotal t + App.tax_total t
        + total_of (map amount_of (filter (has_type ["other"]%string) items))
  /\ forall k, In k (map fst (App.categorize_items_summary items)) ->
               In k (map PyStr.py ["product"; "tax"; "service"; "other"]%string).
Proof.
  cbv zeta.
  set (items := map App.of_item (InvoiceProcessor.extract_line_items text)).
  assert (Hfacts : Forall (fun item =>
                     In (type_of item) (map PyStr.py ["product"; "tax"; "service"; "other"]%string)
                     /\ 0 <= amount_of item) items).
  { apply Forall_forall. intros item Hin. apply in_map_iff in Hin.
    destruct Hin as (it & <- & Hit).
    destruct (extracted_item_facts _ _ Hit) as (_ & Ha & _ & Hty).
    split; [exact Hty | exact Ha]. }
  unfold App.calculate_line_items_totals.
  destruct (totals_fold items
              {| App.subtotal := 0; App.tax_total := 0; App.discount_total := 0;
                 App.grand_total := 0 |}) as (G & S & T & _ & Z).
  cbn [App.subtotal App.tax_total App.discount_total App.grand_total] in *.
  split; [|split].
  - apply Z. eapply Forall_impl; [|exact Hfacts]. intros item [Hty Ha].
    cbn [map In] in Hty.
    destruct Hty as [E | [E | [E | [E | []]]]]; unfold has_type; rewrite <- E;
      vm_compute (App.str_in _ _); auto.
  - rewrite G, S, T, four_types_split.
    + ring.
    + eapply Forall_impl; [|exact Hfacts]. intros item [Hty _]. exact Hty.
  - intros k Hk.
    destruct (summary_fold items []) as (_ & _ & _ & K & _).
    apply K in Hk. destruct Hk as [[] | (item & Hin & <-)].
    rewrite Forall_forall in Hfacts. exact (proj1 (Hfacts item Hin)).
Qed.

(** ** The categoriser and the lines of a text *)

Section Grouping.
Context {U : UnicodeTables}.
Import PyStr InvoiceProcessor.

Lemma categorize_item_spec (c : categorized) (it : item) :
  let c' := categorize_item c it in
  products c' = products c ++ in_bucket 0 [it]
  /\ services c' = services c ++ in_bucket 1 [it]
  /\ taxes c' = taxes c ++ in_bucket 2 [it]
  /\ discounts c' = discounts c ++ in_bucket 3 [it]
  /\ other c' = other c ++ in_bucket 4 [it].
Proof.
  cbv zeta. unfold categorize_item, in_bucket, bucket_of. cbv zeta. cbn [filter].
  repeat match goal with
         | |- context [if ?b then _ else _] =>
           lazymatch b with
           | Nat.eqb _ _ => fail
           | _ => destruct b
           end
         end;
    cbn [Nat.eqb products services taxes discounts other];
    rewrite ?app_nil_r; repeat split.
Qed.

Lemma fold_categorize_spec (items : list item) (c : categorized) :
  let c' := fold_left categorize_item items c in
  products c' = products c ++ in_bucket 0 items
  /\ services c' = services c ++ in_bucket 1 items
  /\ taxes c' = taxes c ++ in_bucket 2 items
  /\ discounts c' = discounts c ++ in_bucket 3 items
  /\ other c' = other c ++ in_bucket 4 items.
Proof.
  cbv zeta. revert c; induction items as [|it items IH]; intros c; cbn [fold_left].
  - unfold in_bucket. cbn [filter]. rewrite !app_nil_r. repeat split.
  - destruct (IH (categorize_item c it)) as (P & S & T & D & O).
    destruct (categorize_item_spec c it) as (P1 & S1 & T1 & D1 & O1).
    rewrite P, S, T, D, O, P1, S1, T1, D1, O1. unfold in_bucket. cbn [filter].
    repeat split; rewrite <- app_assoc; f_equal;
      destruct (Nat.eqb (bucket_of it) _); reflexivity.
Qed.

Lemma categorize_flat (items : list item) :
  _categorize_line_items items
  = in_bucket 0 items ++ in_bucket 1 items ++ in_bucket 2 items
    ++ in_bucket 3 items ++ in_bucket 4 items.
Proof.
  unfold _categorize_line_items, categorize. cbv zeta.
  cbn [products services taxes discounts other].
  match goal with
  | |- context [fold_left categorize_item items ?c0] =>
    destruct (fold_categorize_spec items c0) as (P & S & T & D & O)
  end.
  rewrite P, S, T, D, O. reflexivity.
Qed.

Lemma bucket_range (it : item) : (bucket_of it <= 4)%nat.
Proof.
  unfold bucket_of. cbv zeta.
  repeat match goal with |- context [if ?b then _ else _] => destruct b end; lia.
Qed.

Lemma buckets_permutation (items : list item) :
  Permutation
    (in_bucket 0 items ++ in_bucket 1 items ++ in_bucket 2 items
     ++ in_bucket 3 items ++ in_bucket 4 items) items.
Proof.
  unfold in_bucket. induction items as [|it items IH]; cbn [filter]; [constructor|].
  pose proof (bucket_range it) as Hr.
  destruct (bucket_of it) as [|[|[|[|[|n]]]]]; cbn [Nat.eqb]; try lia.
  - cbn [app]. constructor. exact IH.
  - symmetry. etransitivity; [|apply Permutation_middle]. constructor. symmetry. exact IH.
  - symmetry. rewrite app_assoc. etransitivity; [|apply Permutation_middle].
    rewrite <- app_assoc. constructor. symmetry. exact IH.
  - symmetry. rewrite 2 app_assoc. etransitivity; [|apply Permutation_middle].
    rewrite <- 2 app_assoc. constructor. symmetry. exact IH.
  - symmetry. rewrite 3 app_assoc. etransitivity; [|apply Permutation_middle].
    rewrite <- 3 app_assoc. constructor. symmetry. exact IH.
Qed.

Lemma in_bucket_app (b : nat) (l1 l2 : list item) :
  in_bucket b (l1 ++ l2) = in_bucket b l1 ++ in_bucket b l2.
Proof. apply filter_app. Qed.

Lemma in_bucket_twice (b b' : nat) (items : list item) :
  in_bucket b (in_bucket b' items) = if Nat.eqb b' b then in_bucket b' items else [].
Proof.
  unfold in_bucket. induction items as [|it items IH]; cbn [filter].
  - destruct (Nat.eqb b' b); reflexivity.
  - destruct (Nat.eqb_spec (bucket_of it) b') as [E|E]; cbn [filter]; [|exact IH].
    rewrite IH, E. destruct (Nat.eqb b' b); reflexivity.
Qed.

Lemma split_on_nonempty (sep : N) (s : pystr) : split_on sep s <> [].
Proof.
  destruct s as [|c s]; cbn [split_on]; [discriminate|].
  destruct (c =? sep)%N; [discriminate|]. destruct (split_on sep s); discriminate.
Qed.

Lemma split_on_app (sep : N) (a b : pystr) :
  split_on sep (a ++ sep :: b) = split_on sep a ++ split_on sep b.
Proof.
  induction a as [|c a IH]; cbn [app split_on].
  - rewrite N.eqb_refl. reflexivity.
  - destruct (c =? sep)%N.
    + rewrite IH. reflexivity.
    + rewrite IH. pose proof (split_on_nonempty sep a) as Hne.
      destruct (split_on sep a) as [|w ws]; [congruence|]. reflexivity.
Qed.

End Grouping.

(** X11.  The categoriser only regroups: the flat list it returns is the
    products, then the services, the taxes, the discounts and the other
    items, each group in source order; it is a permutation of its input;
    and categorising a second time changes nothing. *)
Theorem X11_categorize_regroups (U : UnicodeTables) (items : list InvoiceProcessor.item) :
  InvoiceProcessor._categorize_line_items items
  = in_bucket 0 items ++ in_bucket 1 items ++ in_bucket 2 items
    ++ in_bucket 3 items ++ in_bucket 4 items
  /\ Permutation (InvoiceProcessor._categorize_line_items items) items
  /\ InvoiceProcessor._categorize_line_items (InvoiceProcessor._categorize_line_items items)
     = InvoiceProcessor._categorize_line_items items.
Proof.
  split; [apply categorize_flat|]. split.
  - rewrite categorize_flat. apply buckets_permutation.
  - rewrite (categorize_flat (InvoiceProcessor._categorize_line_items items)).
    rewrite (categorize_flat items).
    rewrite !in_bucket_app, !in_bucket_twice. cbn [Nat.eqb].
    rewrite ?app_nil_r. reflexivity.
Qed.

(** X12.  The parser treats each line on its own: the items collected from
    two texts joined by a newline are those of the first text followed by
    those of the second, and the list returned for the joined text is a
    permutation of the two returned lists put together. *)
Theorem X12_lines_are_independent (U : UnicodeTables) (a b : pystr) :
  InvoiceProcessor.collect_line_items (a ++ 10%N :: b)
  = InvoiceProcessor.collect_line_items a ++ InvoiceProcessor.collect_line_items b
  /\ Permutation
       (InvoiceProcessor.extract_line_items (a ++ 10%N :: b))
       (InvoiceProcessor.extract_line_items a ++ InvoiceProcessor.extract_line_items b).
Proof.
  assert (E : InvoiceProcessor.collect_line_items (a ++ 10%N :: b)
              = InvoiceProcessor.collect_line_items a ++ InvoiceProcessor.collect_line_items b).
  { unfold InvoiceProcessor.collect_line_items. rewrite split_on_app. apply flat_map_app. }
  split; [exact E|].
  unfold InvoiceProcessor.extract_line_items. rewrite E, !categorize_flat.
  etransitivity; [apply buckets_permutation|].
  apply Permutation_app; symmetry; apply buckets_permutation.
Qed.

(** ** The legacy dicts: [_extract_with_regex_only] and [process_invoice] *)

Section Process.
Context {U : UnicodeTables}.
Variable now : pystr.
Variable parse_date : pystr -> option pystr.
Variable str_float format_2f format_0f : Q -> pystr.
Import PyStr Re InvoiceProcessor.

Lemma regex_only_total (text t : pystr) :
  d_total (_extract_with_regex_only now parse_date text) = Some t ->
  Forall (fun c => isdecimal c = true \/ c = 46%N) t.
Proof.
  unfold _extract_with_regex_only. cbv zeta. cbn [d_total].
  destruct (extract_field text (py "total")) as [t0|]; [|discriminate].
  destruct (truthy t0) eqn:Et.
  - intros [= <-]. unfold re_sub.
    replace (compile (py "[^\d\.]"))
      with (Some (RSeq (RSet true [CDigit; CChar 46]) REmpty)) by (vm_compute; reflexivity).
    unfold sub. rewrite sub_negated_set. apply Forall_forall. intros c Hc.
    apply filter_In in Hc. destruct Hc as [_ Hc]. cbn [existsb item_match lit_match] in Hc.
    rewrite orb_false_r in Hc. apply orb_true_iff in Hc. destruct Hc as [Hc | Hc].
    + left. exact Hc.
    + right. apply N.eqb_eq in Hc. symmetry. exact Hc.
  - intros [= <-]. destruct t0; [constructor | discriminate].
Qed.

Lemma fallback_legacy_item (it : item) :
  exists e,
    LegacyFormat.legacy_item format_2f format_0f (LineItem.calculate_totals (to_line_item it))
    = Returned e
    /\ legacy_of_parsed it e.
Proof.
  unfold to_line_item. rewrite line_item_calculate_totals_idem.
  unfold LegacyFormat.legacy_item, LineItem.calculate_totals, LineItem.new.
  cbn [LineItem.total LineItem.quantity LineItem.description LineItem.unit_price
       LineItem.category].
  unfold LineItem.new_total, LineItem.new_tax_amount, LineItem.new_subtotal.
  cbn [LineItem.unit_price LineItem.quantity LineItem.subtotal LineItem.tax_rate
       LineItem.tax_amount LineItem.total].
  destruct (unit_price it) as [p|] eqn:Eu.
  - change (Qlt_bool 0 0) with false. cbv iota.
    eexists. split; [reflexivity|]. unfold legacy_of_parsed.
    cbn [LegacyFormat.description LegacyFormat.item_type LegacyFormat.quantity
         LegacyFormat.unit_price LegacyFormat.amount].
    rewrite Eu. repeat split. ring.
  - change (Qlt_bool 0 0) with false. cbv iota.
    eexists. split; [reflexivity|]. unfold legacy_of_parsed.
    cbn [LegacyFormat.description LegacyFormat.item_type LegacyFormat.quantity
         LegacyFormat.unit_price LegacyFormat.amount].
    rewrite Eu. repeat split. ring.
Qed.

Lemma fallback_comprehension (items : list item) :
  exists es,
    LegacyFormat.comprehension (LegacyFormat.legacy_item format_2f format_0f)
      (map LineItem.calculate_totals (map to_line_item items)) = Returned es
    /\ Forall2 legacy_of_parsed items es.
Proof.
  induction items as [|it items (es & E & F)]; cbn [map LegacyFormat.comprehension].
  - exists []. split; [reflexivity | constructor].
  - destruct (fallback_legacy_item it) as (e & Ee & Re). rewrite Ee, E.
    exists (e :: es). split; [reflexivity | constructor; assumption].
Qed.

(** The legacy dict of a fallback model. *)
Lemma fallback_legacy (text : pystr) :
  exists data es,
    legacy_with_text str_float format_2f format_0f
      (_convert_regex_to_structured now parse_date text) text = Returned data
    /\ d_raw_text data = text
    /\ d_extraction_method data = py "regex_fallback"
    /\ d_line_items data = Legacy es
    /\ Forall2 legacy_of_parsed (extract_line_items text) es.
Proof.
  unfold legacy_with_text, LegacyFormat.get_legacy_format. cbv zeta.
  unfold _convert_regex_to_structured. cbv zeta.
  unfold StructuredInvoiceData.calculate_all_totals at 1.
  cbn [StructuredInvoiceData.line_items].
  destruct (fallback_comprehension (extract_line_items text)) as (es & E & F).
  rewrite E. eexists. exists es. split; [reflexivity|].
  cbn [d_raw_text d_extraction_method d_line_items LegacyFormat.line_items
       LegacyFormat.extraction_method].
  repeat split. exact F.
Qed.

Lemma process_invoice_without_ai (g : GeminiAIExtractor.t) (enabled : bool) (text : pystr) :
  no_accepted_result g text ->
  text <> [] ->
  exists data,
    process_invoice now parse_date g enabled str_float format_2f format_0f text
    = Returned (Some data)
    /\ d_raw_text data = text
    /\ d_extraction_method data = py (if enabled then "regex_fallback" else "regex_only")
    /\ if enabled
       then exists es, d_line_items data = Legacy es
                       /\ Forall2 legacy_of_parsed (extract_line_items text) es
       else data = _extract_with_regex_only now parse_date text.
Proof.
  intros Hno Hne. unfold process_invoice.
  replace (truthy text) with true by (destruct text; [congruence | reflexivity]).
  cbn [negb]. rewrite (no_accepted_result_falls_through now parse_date enabled Hno).
  destruct enabled.
  - destruct (fallback_legacy text) as (data & es & E & R & M & L & F).
    rewrite E. exists data. repeat split; auto. exists es. split; assumption.
  - eexists. split; [reflexivity|]. repeat split.
Qed.

End Process.

(** X13.  The total of the regex-only dict holds decimal digits and dots
    only: currency signs, thousands separators and blanks are removed. *)
Theorem X13_regex_only_total_is_numeric (U : UnicodeTables) (now : pystr)
    (parse_date : pystr -> option pystr) (text t : pystr) :
  InvoiceProcessor.d_total (InvoiceProcessor._extract_with_regex_only now parse_date text)
    = Some t ->
  Forall (fun c => PyStr.isdecimal c = true \/ c = 46%N) t.
Proof. apply regex_only_total. Qed.

Lemma X13_witness :
  InvoiceProcessor.d_total
    (InvoiceProcessor._extract_with_regex_only (U := plain_tables) [] (fun _ => None)
       (PyStr.py "Total: $1,234.50")) = Some (PyStr.py "1234.50")
  /\ Forall (fun c => PyStr.isdecimal (U := plain_tables) c = true \/ c = 46%N)
            (PyStr.py "1234.50").
Proof.
  assert (E : InvoiceProcessor.d_total
                (InvoiceProcessor._extract_with_regex_only (U := plain_tables) []
                   (fun _ => None) (PyStr.py "Total: $1,234.50"))
              = Some (PyStr.py "1234.50")) by (vm_compute; reflexivity).
  split; [exact E|].
  exact (@X13_regex_only_total_is_numeric plain_tables [] (fun _ => None)
           (PyStr.py "Total: $1,234.50") (PyStr.py "1234.50") E).
Defined.

(** X14.  [process_invoice] without a usable smart result: an empty text
    gives None; any other text gives invoice data (it neither returns None
    nor raises) that carries the text as raw_text and is tagged
    "regex_fallback" when the fallback is enabled and "regex_only" when it
    is not, in which case the data are those of [_extract_with_regex_only]. *)
Theorem X14_process_invoice_without_ai (U : UnicodeTables) (now : pystr)
    (parse_date : pystr -> option pystr) (g : GeminiAIExtractor.t) (enabled : bool)
    (str_float format_2f format_0f : Q -> pystr) (text : pystr) :
  no_accepted_result g text ->
  (text = [] ->
   InvoiceProcessor.process_invoice now parse_date g enabled str_float format_2f format_0f
     text = Returned None)
  /\ (text <> [] ->
      exists data,
        InvoiceProcessor.process_invoice now parse_date g enabled str_float format_2f
          format_0f text = Returned (Some data)
        /\ InvoiceProcessor.d_raw_text data = text
        /\ InvoiceProcessor.d_extraction_method data
           = PyStr.py (if enabled then "regex_fallback" else "regex_only")
        /\ (enabled = false ->
            data = InvoiceProcessor._extract_with_regex_only now parse_date text)).
Proof.
  intros Hno. split.
  - intros ->. reflexivity.
  - intros Hne.
    destruct (process_invoice_without_ai now parse_date str_float format_2f format_0f
                enabled Hno Hne) as (data & E & R & M & L).
    exists data. repeat split; auto. intros ->. exact L.
Qed.

Lemma X14_witness :
  exists data,
    InvoiceProcessor.process_invoice (U := plain_tables) [] (fun _ => None) unavailable true
      (fun _ => []) (fun _ => []) (fun _ => []) scenario_text = Returned (Some data)
    /\ InvoiceProcessor.d_extraction_method data = PyStr.py "regex_fallback".
Proof.
  assert (Hno : no_accepted_result unavailable scenario_text) by (left; reflexivity).
  assert (Hne : scenario_text <> []) by (intros H; vm_compute in H; discriminate H).
  destruct (proj2 (@X14_process_invoice_without_ai plain_tables [] (fun _ => None)
                     unavailable true (fun _ => []) (fun _ => []) (fun _ => [])
                     scenario_text Hno) Hne) as (data & E & _ & M & _).
  exists data. split; [exact E | exact M].
Defined.

(** X15.  With the fallback enabled and no usable smart result, the line
    items of the returned data are those of the parser, one for one and in
    the same order, with the same description, type, quantity and unit
    price; the amount is the parsed amount, except that an item with a unit
    price carries quantity x unit price instead. *)
Theorem X15_fallback_line_items (U : UnicodeTables) (now : pystr)
    (parse_date : pystr -> option pystr) (g : GeminiAIExtractor.t)
    (str_float format_2f format_0f : Q -> pystr) (text : pystr)
    (data : InvoiceProcessor.invoice_data) :
  no_accepted_result g text ->
  InvoiceProcessor.process_invoice now parse_date g true str_float format_2f format_0f text
    = Returned (Some data) ->
  exists es,
    InvoiceProcessor.d_line_items data = InvoiceProcessor.Legacy es
    /\ Forall2 legacy_of_parsed (InvoiceProcessor.extract_line_items text) es.
Proof.
  intros Hno E. destruct text as [|c text]; [discriminate E|].
  destruct (process_invoice_without_ai now parse_date str_float format_2f format_0f
              true Hno (text := c :: text) ltac:(discriminate)) as (data' & E' & _ & _ & L).
  rewrite E in E'. injection E' as <-. exact L.
Qed.

Lemma X15_witness :
  exists data es,
    InvoiceProcessor.process_invoice (U := plain_tables) [] (fun _ => None) unavailable true
      (fun _ => []) (fun _ => []) (fun _ => []) (PyStr.py "Widget A 2 10.00 25.00")
    = Returned (Some data)
    /\ InvoiceProcessor.d_line_items data = InvoiceProcessor.Legacy es
    /\ Forall2 legacy_of_parsed
         (InvoiceProcessor.extract_line_items (U := plain_tables)
            (PyStr.py "Widget A 2 10.00 25.00")) es.
Proof.
  eexists. 
  assert (Hno : no_accepted_result unavailable (PyStr.py "Widget A 2 10.00 25.00"))
    by (left; reflexivity).
  match goal with
  | |- exists es, ?P = Returned (Some ?d) /\ _ =>
    assert (E : P = Returned (Some d)) by (vm_compute; reflexivity)
  end.
  destruct (@X15_fallback_line_items plain_tables [] (fun _ => None) unavailable
              (fun _ => []) (fun _ => []) (fun _ => [])
              (PyStr.py "Widget A 2 10.00 25.00") _ Hno E) as (es & L & F).
  exists es. split; [exact E|]. split; [exact L | exact F].
Defined.

(** ** The extractor: requests and pauses *)

Section Retry.
Context {U : UnicodeTables}.
Import GeminiAIExtractor.

Lemma retry_loop_spec (generate : nat -> outcome pystr) (n : nat) :
  forall (remaining attempt : nat),
    let result := retry_loop generate n attempt remaining in
    exists k : nat,
      (k <= remaining)%nat
      /\ requests (snd result) = seq attempt k
      /\ (forall j, (attempt <= j)%nat -> (S j < attempt + k)%nat -> unanswered (generate j))
      /\ match fst result with
         | Some text =>
           exists k' t, k = S k' /\ generate (attempt + k')%nat = Returned t
                        /\ PyStr.truthy t = true /\ text = PyStr.strip t
         | None =>
           k = remaining
           /\ forall j, (attempt <= j)%nat -> (j < attempt + k)%nat -> unanswered (generate j)
         end
      /\ (total_sleep (snd result) + 2 ^ attempt <= 2 ^ Nat.max attempt (n - 1))%nat.
Proof.
  induction remaining as [|remaining IH]; intros attempt; cbv zeta.
  - exists 0%nat. cbn [retry_loop fst snd requests total_sleep seq].
    repeat split; try lia. apply Nat.pow_le_mono_r; lia.
  - cbn [retry_loop].
    specialize (IH (S attempt)). cbv zeta in IH.
    destruct (retry_loop generate n (S attempt) remaining) as [r events] eqn:E.
    cbn [fst snd] in IH. destruct IH as [k [Hk [Hreq [Hun [Hres Hsleep]]]]].
    destruct (generate attempt) as [text|] eqn:G.
    + destruct (PyStr.truthy text) eqn:T.
      * exists 1%nat. cbn [fst snd requests seq total_sleep].
        split; [lia|]. split; [reflexivity|]. split; [intros j H1 H2; lia|]. split.
        -- exists 0%nat, text. rewrite Nat.add_0_r. repeat split; assumption.
        -- apply Nat.pow_le_mono_r; lia.
      * exists (S k). cbn [fst snd requests seq total_sleep].
        split; [lia|]. split; [now rewrite Hreq|].
        split.
        { intros j H1 H2. destruct (Nat.eq_dec j attempt) as [->|Hne].
          - rewrite G. exact T.
          - apply Hun; lia. }
        split.
        { destruct r as [text'|].
          - destruct Hres as [k' [t [-> [Hg [Ht Hs]]]]].
            exists (S k'), t. repeat split; try assumption.
            replace (attempt + S k')%nat with (S attempt + k')%nat by lia. exact Hg.
          - destruct Hres as [-> Hall]. split; [reflexivity|].
            intros j H1 H2. destruct (Nat.eq_dec j attempt) as [->|Hne].
            + rewrite G. exact T.
            + apply Hall; lia. }
        { assert (2 ^ attempt <= 2 ^ S attempt)%nat by (apply Nat.pow_le_mono_r; lia).
          assert (2 ^ Nat.max (S attempt) (n - 1) = 2 ^ Nat.max attempt (n - 1)
                  \/ Nat.max (S attempt) (n - 1) = S attempt)%nat as [Hm|Hm].
          { destruct (Nat.le_gt_cases (S attempt) (n - 1)).
            - left. f_equal. lia.
            - right. lia. }
          - lia.
          - assert (2 ^ attempt <= 2 ^ Nat.max attempt (n - 1))%nat
              by (apply Nat.pow_le_mono_r; lia).
            rewrite Hm in Hsleep. lia. }
    + exists (S k). cbn [fst snd requests].
      assert (Hreq' : forall pause,
                 (pause = [] \/ exists s, pause = [Sleep s]) ->
                 requests (Request attempt :: pause ++ events) = seq attempt (S k)).
      { intros pause [->|[s ->]]; cbn [requests app seq]; now rewrite Hreq. }
      split; [lia|]. split.
      { apply Hreq'. destruct (attempt <? n - 1)%nat; [right; eauto | left; reflexivity]. }
      split.
      { intros j H1 H2. destruct (Nat.eq_dec j attempt) as [->|Hne].
        - rewrite G. exact I.
        - apply Hun; lia. }
      split.
      { destruct r as [text'|].
        - destruct Hres as [k' [t [-> [Hg [Ht Hs]]]]].
          exists (S k'), t. repeat split; try assumption.
          replace (attempt + S k')%nat with (S attempt + k')%nat by lia. exact Hg.
        - destruct Hres as [-> Hall]. split; [reflexivity|].
          intros j H1 H2. destruct (Nat.eq_dec j attempt) as [->|Hne].
          + rewrite G. exact I.
          + apply Hall; lia. }
      { destruct (attempt <? n - 1)%nat eqn:L.
        - apply Nat.ltb_lt in L. cbn [total_sleep app].
          replace (Nat.max (S attempt) (n - 1)) with (n - 1)%nat in Hsleep by lia.
          replace (Nat.max attempt (n - 1)) with (n - 1)%nat by lia.
          assert (2 ^ S attempt = 2 * 2 ^ attempt)%nat by (apply Nat.pow_succ_r; lia).
          lia.
        - apply Nat.ltb_ge in L. cbn [total_sleep app].
          replace (Nat.max (S attempt) (n - 1)) with (S attempt) in Hsleep by lia.
          assert (0 < 2 ^ S attempt)%nat by (apply Nat.neq_0_lt_0, Nat.pow_nonzero; lia).
          assert (0 < 2 ^ Nat.max attempt (n - 1))%nat
            by (apply Nat.neq_0_lt_0, Nat.pow_nonzero; lia).
          assert (2 ^ attempt <= 2 ^ Nat.max attempt (n - 1))%nat
            by (apply Nat.pow_le_mono_r; lia).
          lia. }
Qed.

End Retry.

(** X16.  [_generate_with_retry] sends its requests one after the other,
    attempts 0, 1, ..., and stops at the first attempt that gives a
    non-empty reply, whose stripped text it returns; it returns None
    exactly when all [max_retries] attempts raised or gave an empty reply
    (none at all when [max_retries] is not positive).  It sleeps less than
    2^(max_retries - 1) seconds in all. *)
Theorem X16_generate_with_retry (U : UnicodeTables) (generate : nat -> outcome pystr)
    (max_retries : Z) :
  let result := GeminiAIExtractor._generate_with_retry generate max_retries in
  let n := Z.to_nat max_retries in
  exists k : nat,
    (k <= n)%nat
    /\ requests (snd result) = seq 0 k
    /\ (forall j, (S j < k)%nat -> unanswered (generate j))
    /\ match fst result with
       | Some text =>
         exists k' t, k = S k' /\ generate k' = Returned t
                      /\ PyStr.truthy t = true /\ text = PyStr.strip t
       | None => k = n /\ forall j, (j < n)%nat -> unanswered (generate j)
       end
    /\ (total_sleep (snd result) < 2 ^ (n - 1))%nat.
Proof.
  cbv zeta. unfold GeminiAIExtractor._generate_with_retry.
  destruct (retry_loop_spec generate (Z.to_nat max_retries) (Z.to_nat max_retries) 0)
    as [k [Hk [Hreq [Hun [Hres Hsleep]]]]].
  exists k. split; [exact Hk|]. split; [exact Hreq|]. split.
  { intros j Hj. apply Hun; lia. }
  split.
  { destruct (fst _) as [text|].
    - destruct Hres as [k' [t [-> [Hg H]]]]. exists k', t. split; [reflexivity|].
      split; [exact Hg | exact H].
    - destruct Hres as [-> Hall]. split; [reflexivity|].
      intros j Hj. apply Hall; lia. }
  { rewrite Nat.max_0_l in Hsleep. cbn [Nat.pow] in Hsleep. lia. }
Qed.

(** ** The extractor: replies, and the entry point run with it *)

Section Replies.
Context {U : UnicodeTables}.
Import GeminiAIExtractor.

Variable loads : pystr -> option StructuredInvoiceData.t.
Variable now : pystr.
Variable processing_time : Q.

Lemma lstrip_unchanged (c : N) (rest : pystr) :
  PyStr.isspace c = false -> PyStr.lstrip (c :: rest) = c :: rest.
Proof. intros H. cbn [PyStr.lstrip]. rewrite H. reflexivity. Qed.

(** A string with no blank at either end is its own [strip]. *)
Lemma strip_unchanged (c : N) (middle : pystr) (c' : N) :
  PyStr.isspace c = false -> PyStr.isspace c' = false ->
  PyStr.strip (c :: middle ++ [c']) = c :: middle ++ [c'].
Proof.
  intros H H'. unfold PyStr.strip, PyStr.rstrip. rewrite (@lstrip_unchanged c (middle ++ [c']) H).
  change (c :: middle ++ [c']) with ((c :: middle) ++ [c']) at 1.
  rewrite rev_app_distr. cbn [rev app]. rewrite (@lstrip_unchanged c' (rev middle ++ [c]) H').
  change (c' :: rev middle ++ [c]) with ([c'] ++ rev (c :: middle)).
  rewrite rev_app_distr, rev_involutive. reflexivity.
Qed.

Lemma strip_idempotent (s : pystr) : PyStr.strip (PyStr.strip s) = PyStr.strip s.
Proof.
  destruct (strip_edges s) as [Hfirst Hlast].
  destruct (PyStr.strip s) as [|c rest] eqn:E; [reflexivity|].
  destruct (@exists_last _ (c :: rest)) as [front [c' E']]; [discriminate|].
  pose proof (Hlast c' front E') as Hc'.
  pose proof (Hfirst c rest eq_refl) as Hc.
  destruct front as [|x front]; cbn [app] in E'; injection E' as E1 E2; subst.
  - unfold PyStr.strip, PyStr.rstrip. cbn [PyStr.lstrip]. rewrite Hc.
    cbn [rev app PyStr.lstrip]. rewrite Hc. reflexivity.
  - apply strip_unchanged; assumption.
Qed.

Lemma starts_with_app (p s : pystr) : PyStr.starts_with p (p ++ s) = true.
Proof. induction p as [|x p IH]; cbn; [reflexivity|]. rewrite N.eqb_refl. exact IH. Qed.

Lemma starts_with_prefix (p q s : pystr) :
  PyStr.starts_with (p ++ q) s = true -> PyStr.starts_with p s = true.
Proof.
  revert s. induction p as [|x p IH]; intros s; cbn [app PyStr.starts_with]; [reflexivity|].
  destruct s as [|y s]; [discriminate|].
  intros H. apply andb_true_iff in H as [H1 H2]. rewrite H1. exact (IH s H2).
Qed.

Lemma ends_with_app (p s : pystr) : PyStr.ends_with p (s ++ p) = true.
Proof. unfold PyStr.ends_with. rewrite rev_app_distr. apply starts_with_app. Qed.

Lemma drop_last_app (p s : pystr) : PyStr.drop_last (length p) (s ++ p) = s.
Proof.
  unfold PyStr.drop_last. rewrite length_app, Nat.add_sub.
  rewrite firstn_app, Nat.sub_diag, firstn_all. cbn [firstn]. apply app_nil_r.
Qed.

Lemma unfence_fenced (body : pystr) :
  PyStr.starts_with (PyStr.py "```") (body ++ PyStr.py "```") = false ->
  unfence (fenced body) = PyStr.strip body.
Proof.
  intros H. unfold unfence.
  assert (E : PyStr.strip (fenced body) = fenced body).
  { unfold fenced.
    change (PyStr.py "```json") with (96%N :: PyStr.py "``json").
    change (PyStr.py "```") with (PyStr.py "``" ++ [96%N]).
    cbn [app]. rewrite !app_assoc.
    rewrite <- (app_assoc (PyStr.py "``json")).
    apply strip_unchanged; reflexivity. }
  rewrite E. cbv zeta. unfold fenced.
  rewrite (starts_with_app (PyStr.py "```json")).
  change (skipn 7 (PyStr.py "```json" ++ body ++ PyStr.py "```"))
    with (body ++ PyStr.py "```").
  rewrite H. rewrite (ends_with_app (PyStr.py "```") body).
  change 3%nat with (length (PyStr.py "```")).
  rewrite drop_last_app. reflexivity.
Qed.

Lemma unfence_bare (body : pystr) :
  PyStr.starts_with (PyStr.py "```") (PyStr.strip body) = false ->
  PyStr.ends_with (PyStr.py "```") (PyStr.strip body) = false ->
  unfence body = PyStr.strip body.
Proof.
  intros H1 H2. unfold unfence.
  assert (H0 : PyStr.starts_with (PyStr.py "```json") (PyStr.strip body) = false).
  { destruct (PyStr.starts_with (PyStr.py "```json") (PyStr.strip body)) eqn:E;
      [|reflexivity].
    rewrite <- H1. symmetry.
    exact (@starts_with_prefix (PyStr.py "```") (PyStr.py "json") (PyStr.strip body) E). }
  rewrite H0, H1, H2. apply strip_idempotent.
Qed.

Lemma parse_response_spec (model_name reply : pystr) :
  match _parse_response loads now processing_time model_name reply with
  | None => loads (unfence reply) = None
  | Some d =>
    exists d0,
      loads (unfence reply) = Some d0
      /\ StructuredInvoiceData.calculate_all_totals d = d
      /\ StructuredInvoiceData.line_items d
         = StructuredInvoiceData.line_items (StructuredInvoiceData.calculate_all_totals d0)
      /\ StructuredInvoiceData.summary d
         = StructuredInvoiceData.summary (StructuredInvoiceData.calculate_all_totals d0)
      /\ StructuredInvoiceData.invoice_metadata d = StructuredInvoiceData.invoice_metadata d0
      /\ StructuredInvoiceData.vendor_details d = StructuredInvoiceData.vendor_details d0
      /\ StructuredInvoiceData.customer_details d = StructuredInvoiceData.customer_details d0
      /\ (let em := StructuredInvoiceData.extraction_metadata d in
          ExtractionMetadata.method em = PyStr.py "gemini_ai"
          /\ ExtractionMetadata.model em = Some model_name
          /\ ExtractionMetadata.fallback_used em = false
          /\ ExtractionMetadata.confidence_score em = Some (_calculate_confidence_score d)
          /\ ExtractionMetadata.errors em = StructuredInvoiceData.validate d)
  end.
Proof.
  unfold _parse_response.
  destruct (loads (unfence reply)) as [d0|]; [|reflexivity].
  exists d0. split; [reflexivity|]. split.
  { unfold StructuredInvoiceData.calculate_all_totals.
    cbn [StructuredInvoiceData.line_items StructuredInvoiceData.summary
         StructuredInvoiceData.extraction_metadata StructuredInvoiceData.invoice_metadata
         StructuredInvoiceData.vendor_details StructuredInvoiceData.customer_details
         StructuredInvoiceData.payment_terms StructuredInvoiceData.additional_info].
    rewrite map_calculate_totals_idem.
    reflexivity. }
  repeat split.
Qed.

End Replies.

Section Extraction.
Context {U : UnicodeTables}.
Import GeminiAIExtractor.

Variable loads : pystr -> option StructuredInvoiceData.t.
Variable clock : pystr.
Variable processing_time : Q.
Variable prompt_head prompt_tail : pystr.

Lemma requests_length (generate : nat -> outcome pystr) (max_retries : Z) :
  (length (requests (snd (_generate_with_retry generate max_retries)))
   <= Z.to_nat max_retries)%nat.
Proof.
  unfold _generate_with_retry.
  destruct (retry_loop_spec generate (Z.to_nat max_retries) (Z.to_nat max_retries) 0)
    as [k [Hk [Hreq _]]].
  rewrite Hreq, length_seq. exact Hk.
Qed.

Lemma extract_spec (e : state) (text : pystr) :
  let result :=
    extract_with_events loads clock processing_time prompt_head prompt_tail e text in
  (length (requests (snd result)) <= Z.to_nat (AIConfig.max_retries (config e)))%nat
  /\ match fst result with
     | (Some d, method) =>
       method = PyStr.py "gemini_ai"
       /\ model e <> None
       /\ exists reply,
            PyStr.truthy reply = true
            /\ _parse_response loads clock processing_time (AIConfig.model (config e)) reply
               = Some d
     | (None, method) =>
       (method = PyStr.py "model_unavailable" /\ model e = None /\ snd result = [])
       \/ (model e <> None
           /\ (method = PyStr.py "no_response" \/ method = PyStr.py "parse_error"))
     end.
Proof.
  cbv zeta. unfold extract_with_events.
  destruct (model e) as [m|].
  2:{ cbn [fst snd requests length]. split; [lia|]. left. repeat split. }
  pose proof (requests_length (m (_create_extraction_prompt prompt_head prompt_tail text))
                (AIConfig.max_retries (config e))) as Hlen.
  destruct (_generate_with_retry _ _) as [response events]. cbn [snd] in Hlen.
  destruct response as [r|].
  - destruct (PyStr.truthy r) eqn:T.
    + destruct (_parse_response _ _ _ _ r) as [d|] eqn:P; cbn [fst snd].
      * split; [exact Hlen|]. split; [reflexivity|]. split; [discriminate|].
        exists r. split; [exact T | exact P].
      * split; [exact Hlen|]. right. split; [discriminate|]. right. reflexivity.
    + cbn [fst snd]. split; [exact Hlen|]. right. split; [discriminate|]. left. reflexivity.
  - cbn [fst snd]. split; [exact Hlen|]. right. split; [discriminate|]. left. reflexivity.
Qed.

Variable now : pystr.
Variable parse_date : pystr -> option pystr.

Lemma entry_point_spec (e : state) (enabled : bool) (text : pystr) :
  match InvoiceProcessor._extract_with_ai_fallback now parse_date
          (extractor loads clock processing_time prompt_head prompt_tail e) enabled text with
  | (Some d, method) =>
    (method = PyStr.py "gemini_ai"
     /\ state_is_available e = true
     /\ (exists reply,
            _parse_response loads clock processing_time (AIConfig.model (config e)) reply
            = Some d)
     /\ exists score,
          ExtractionMetadata.confidence_score (StructuredInvoiceData.extraction_metadata d)
          = Some score
          /\ 3 # 10 < score)
    \/ (method = PyStr.py "regex_fallback" /\ enabled = true
        /\ d = InvoiceProcessor._convert_regex_to_structured now parse_date text)
  | (None, method) => method = PyStr.py "extraction_failed" /\ enabled = false
  end.
Proof.
  assert (Hfall : match fallback_result now parse_date enabled text with
                  | (Some d, method) =>
                    method = PyStr.py "regex_fallback" /\ enabled = true
                    /\ d = InvoiceProcessor._convert_regex_to_structured now parse_date text
                  | (None, method) => method = PyStr.py "extraction_failed" /\ enabled = false
                  end).
  { unfold fallback_result. destruct enabled; repeat split. }
  assert (Hfall' : match fallback_result now parse_date enabled text with
                   | (Some d, method) =>
                     (method = PyStr.py "gemini_ai"
                      /\ state_is_available e = true
                      /\ (exists reply,
                             _parse_response loads clock processing_time
                               (AIConfig.model (config e)) reply = Some d)
                      /\ exists score,
                           ExtractionMetadata.confidence_score
                             (StructuredInvoiceData.extraction_metadata d) = Some score
                           /\ 3 # 10 < score)
                     \/ (method = PyStr.py "regex_fallback" /\ enabled = true
                         /\ d = InvoiceProcessor._convert_regex_to_structured now parse_date
                                  text)
                   | (None, method) =>
                     method = PyStr.py "extraction_failed" /\ enabled = false
                   end).
  { destruct (fallback_result now parse_date enabled text) as [[d|] method];
      [right; exact Hfall | exact Hfall]. }
  clear Hfall.
  unfold InvoiceProcessor._extract_with_ai_fallback, InvoiceProcessor.try_gemini.
  fold (fallback_result now parse_date enabled text).
  cbn [extractor is_available extract].
  destruct (state_is_available e) eqn:Av; [|exact Hfall'].
  pose proof (extract_spec e text) as [_ Hx]. cbv zeta in Hx.
  destruct (fst (extract_with_events loads clock processing_time prompt_head prompt_tail
                   e text)) as [[d|] method]; [|exact Hfall'].
  destruct Hx as [-> [_ [reply [_ P]]]].
  destruct (ExtractionMetadata.confidence_score
              (StructuredInvoiceData.extraction_metadata d)) as [score|] eqn:S;
    [|exact Hfall'].
  destruct (Qlt_bool (3 # 10) score) eqn:L; [|exact Hfall'].
  left. split; [reflexivity|]. split; [reflexivity|]. split; [exists reply; exact P|].
  exists score. split; [exact S|]. apply Qlt_bool_true. exact L.
Qed.

Lemma unconfigured_state (c : AIConfig.t) (built : outcome generative_model) :
  AIConfig.is_configured c = false -> model (_initialize_model c built) = None.
Proof. intros H. unfold _initialize_model. cbn [model]. rewrite H. reflexivity. Qed.

End Extraction.


(** X18.  A reply wrapped in a markdown fence, [```json] before it and
    [```] after it, is parsed like the bare reply, provided the bare reply
    itself, stripped, neither starts nor ends with a fence and the reply
    followed by the closing fence does not start with one. *)
Theorem X18_fenced_reply (U : UnicodeTables)
    (loads : pystr -> option StructuredInvoiceData.t) (clock : pystr) (processing_time : Q)
    (model_name body : pystr) :
  PyStr.starts_with (PyStr.py "```") (body ++ PyStr.py "```") = false ->
  PyStr.starts_with (PyStr.py "```") (PyStr.strip body) = false ->
  PyStr.ends_with (PyStr.py "```") (PyStr.strip body) = false ->
  GeminiAIExtractor._parse_response loads clock processing_time model_name (fenced body)
  = GeminiAIExtractor._parse_response loads clock processing_time model_name body.
Proof.
  intros H H1 H2. unfold GeminiAIExtractor._parse_response.
  rewrite (unfence_fenced body H), (unfence_bare body H1 H2). reflexivity.
Qed.

Lemma X18_witness :
  GeminiAIExtractor._parse_response (U := plain_tables)
    (fun s => if PyStr.pystr_eqb s (PyStr.py "{}")
              then Some (StructuredInvoiceData.new []) else None)
    [] 0 [] (fenced (10%N :: PyStr.py "{}" ++ [10%N]))
  = GeminiAIExtractor._parse_response (U := plain_tables)
      (fun s => if PyStr.pystr_eqb s (PyStr.py "{}")
                then Some (StructuredInvoiceData.new []) else None)
      [] 0 [] (10%N :: PyStr.py "{}" ++ [10%N]).
Proof.
  apply (@X18_fenced_reply plain_tables); vm_compute; reflexivity.
Defined.

(** X19.  [extract] sends at most [max_retries] requests.  It returns a
    model only together with the tag "gemini_ai", and then the model is
    what [_parse_response] makes of a non-empty reply; without a model the
    tag is "model_unavailable" when the extractor holds no model object (no
    request is sent then), and "no_response" or "parse_error" otherwise. *)
Theorem X19_extract (U : UnicodeTables) (loads : pystr -> option StructuredInvoiceData.t)
    (clock : pystr) (processing_time : Q) (prompt_head prompt_tail : pystr)
    (e : GeminiAIExtractor.state) (text : pystr) :
  let result :=
    GeminiAIExtractor.extract_with_events loads clock processing_time prompt_head
      prompt_tail e text in
  (length (requests (snd result))
   <= Z.to_nat (AIConfig.max_retries (GeminiAIExtractor.config e)))%nat
  /\ match fst result with
     | (Some d, method) =>
       method = PyStr.py "gemini_ai"
       /\ GeminiAIExtractor.model e <> None
       /\ exists reply,
            PyStr.truthy reply = true
            /\ GeminiAIExtractor._parse_response loads clock processing_time
                 (AIConfig.model (GeminiAIExtractor.config e)) reply = Some d
     | (None, method) =>
       (method = PyStr.py "model_unavailable" /\ GeminiAIExtractor.model e = None
        /\ snd result = [])
       \/ (GeminiAIExtractor.model e <> None
           /\ (method = PyStr.py "no_response" \/ method = PyStr.py "parse_error"))
     end.
Proof. exact (extract_spec loads clock processing_time prompt_head prompt_tail e text). Qed.

(** X20.  The entry point [_extract_with_ai_fallback] run with the real
    extractor.  What it returns is one of three things: a model of the
    extractor, tagged "gemini_ai", whose confidence score is above 0.3 and
    at most 1, whose metadata say that no fallback was used and whose
    totals a recalculation leaves unchanged; or, with the fallback enabled,
    the model built
    from the regex parser, tagged "regex_fallback"; or, with the fallback
    disabled, no model and the tag "extraction_failed". *)
Theorem X20_entry_point_with_extractor (U : UnicodeTables)
    (loads : pystr -> option StructuredInvoiceData.t) (clock : pystr) (processing_time : Q)
    (prompt_head prompt_tail : pystr) (now : pystr) (parse_date : pystr -> option pystr)
    (e : GeminiAIExtractor.state) (enabled : bool) (text : pystr) :
  match InvoiceProcessor._extract_with_ai_fallback now parse_date
          (GeminiAIExtractor.extractor loads clock processing_time prompt_head prompt_tail e)
          enabled text with
  | (Some d, method) =>
    (method = PyStr.py "gemini_ai"
     /\ GeminiAIExtractor.state_is_available e = true
     /\ (exists score,
           ExtractionMetadata.confidence_score (StructuredInvoiceData.extraction_metadata d)
           = Some score
           /\ 3 # 10 < score /\ score <= 1)
     /\ ExtractionMetadata.method (StructuredInvoiceData.extraction_metadata d)
        = PyStr.py "gemini_ai"
     /\ ExtractionMetadata.fallback_used (StructuredInvoiceData.extraction_metadata d) = false
     /\ StructuredInvoiceData.calculate_all_totals d = d)
    \/ (method = PyStr.py "regex_fallback" /\ enabled = true
        /\ d = InvoiceProcessor._convert_regex_to_structured now parse_date text)
  | (None, method) => method = PyStr.py "extraction_failed" /\ enabled = false
  end.
Proof.
  pose proof (entry_point_spec loads clock processing_time prompt_head prompt_tail now
                parse_date e enabled text) as H.
  destruct (InvoiceProcessor._extract_with_ai_fallback now parse_date _ enabled text)
    as [[d|] method]; [|exact H].
  destruct H as [[-> [Av [[reply P] [score [S L]]]]] | H]; [left | right; exact H].
  pose proof (parse_response_spec loads clock processing_time
                (AIConfig.model (GeminiAIExtractor.config e)) reply) as Hp.
  rewrite P in Hp.
  destruct Hp as [d0 [_ [Hfix [_ [_ [_ [_ [_ [Hm [_ [Hf [Hs _]]]]]]]]]]]].
  split; [reflexivity|]. split; [exact Av|]. split.
  { exists score. split; [exact S|]. split; [exact L|].
    rewrite Hs in S. injection S as <-. apply confidence_score_bounds. }
  split; [exact Hm|]. split; [exact Hf | exact Hfix].
Qed.

(** X21.  An extractor built from a configuration that is not configured
    (no API key, or extraction disabled) holds no model, whatever building
    the model would have done: it reports itself unavailable, [extract]
    sends no request and answers "model_unavailable", and the entry point
    returns its fallback result.  If extraction is enabled, [validate]
    reports the missing key. *)
Theorem X21_unconfigured_extractor (U : UnicodeTables)
    (loads : pystr -> option StructuredInvoiceData.t) (clock : pystr) (processing_time : Q)
    (prompt_head prompt_tail : pystr) (now : pystr) (parse_date : pystr -> option pystr)
    (c : AIConfig.t) (built : outcome GeminiAIExtractor.generative_model)
    (enabled : bool) (text : pystr) :
  AIConfig.is_configured c = false ->
  let e := GeminiAIExtractor._initialize_model c built in
  GeminiAIExtractor.state_is_available e = false
  /\ GeminiAIExtractor.extract_with_events loads clock processing_time prompt_head
       prompt_tail e text = ((None, PyStr.py "model_unavailable"), [])
  /\ InvoiceProcessor._extract_with_ai_fallback now parse_date
       (GeminiAIExtractor.extractor loads clock processing_time prompt_head prompt_tail e)
       enabled text
     = fallback_result now parse_date enabled text
  /\ (AIConfig.enabled c = true ->
      In (PyStr.py "GEMINI_API_KEY is required when AI extraction is enabled")
         (AIConfig.validate c)).
Proof.
  intros H. cbv zeta.
  pose proof (unconfigured_state c built H) as Hm.
  assert (Av : GeminiAIExtractor.state_is_available
                 (GeminiAIExtractor._initialize_model c built) = false).
  { unfold GeminiAIExtractor.state_is_available. rewrite Hm. reflexivity. }
  split; [exact Av|]. split.
  { unfold GeminiAIExtractor.extract_with_events. rewrite Hm. reflexivity. }
  split.
  { unfold InvoiceProcessor._extract_with_ai_fallback.
    cbn [GeminiAIExtractor.extractor GeminiAIExtractor.is_available]. rewrite Av.
    reflexivity. }
  intros En. unfold AIConfig.is_configured in H. rewrite En, andb_true_r in H.
  unfold AIConfig.validate. rewrite En, H. cbn [andb negb]. left. reflexivity.
Qed.

Lemma X21_witness :
  GeminiAIExtractor.state_is_available
    (GeminiAIExtractor._initialize_model
       {| AIConfig.api_key := None; AIConfig.model := PyStr.py "gemini-2.0-flash";
          AIConfig.temperature := 1 # 10; AIConfig.max_tokens := 8192;
          AIConfig.enabled := true; AIConfig.fallback_enabled := true;
          AIConfig.timeout := 30; AIConfig.max_retries := 3 |}
       (Returned (fun _ _ => Returned (PyStr.py "{}")))) = false.
Proof.
  exact (proj1 (@X21_unconfigured_extractor plain_tables (fun _ => None) [] 0 [] [] []
                  (fun _ => None)
                  {| AIConfig.api_key := None; AIConfig.model := PyStr.py "gemini-2.0-flash";
                     AIConfig.temperature := 1 # 10; AIConfig.max_tokens := 8192;
                     AIConfig.enabled := true; AIConfig.fallback_enabled := true;
                     AIConfig.timeout := 30; AIConfig.max_retries := 3 |}
                  (Returned (fun _ _ => Returned (PyStr.py "{}"))) true [] eq_refl)).
Defined.

(** X22.  The number of attempts is not validated: [AIConfig.validate]
    gives the same messages whatever [max_retries] is.  With a value that
    is not positive, an extractor that holds a model sends no request and
    answers "no_response" to every text. *)
Theorem X22_no_attempts (U : UnicodeTables)
    (loads : pystr -> option StructuredInvoiceData.t) (clock : pystr) (processing_time : Q)
    (prompt_head prompt_tail : pystr) (c : AIConfig.t) (n : Z)
    (m : GeminiAIExtractor.generative_model) (text : pystr) :
  (n <= 0)%Z ->
  AIConfig.validate (with_max_retries c n) = AIConfig.validate c
  /\ GeminiAIExtractor.extract_with_events loads clock processing_time prompt_head
       prompt_tail
       {| GeminiAIExtractor.config := with_max_retries c n;
          GeminiAIExtractor.model := Some m |} text
     = ((None, PyStr.py "no_response"), []).
Proof.
  intros Hn. split; [reflexivity|].
  unfold GeminiAIExtractor.extract_with_events, GeminiAIExtractor._generate_with_retry.
  cbn [GeminiAIExtractor.model GeminiAIExtractor.config with_max_retries
       AIConfig.max_retries].
  replace (Z.to_nat n) with 0%nat by lia. reflexivity.
Qed.

Lemma X22_witness :
  GeminiAIExtractor.extract_with_events (U := plain_tables) (fun _ => None) [] 0 [] []
    {| GeminiAIExtractor.config :=
         with_max_retries
           {| AIConfig.api_key := Some (PyStr.py "key");
              AIConfig.model := PyStr.py "gemini-2.0-flash";
              AIConfig.temperature := 1 # 10; AIConfig.max_tokens := 8192;
              AIConfig.enabled := true; AIConfig.fallback_enabled := true;
              AIConfig.timeout := 30; AIConfig.max_retries := 3 |} 0;
       GeminiAIExtractor.model := Some (fun _ _ => Returned (PyStr.py "{}")) |} []
  = ((None, PyStr.py "no_response"), []).
Proof.
  refine (proj2 (@X22_no_attempts plain_tables (fun _ => None) [] 0 [] []
                   {| AIConfig.api_key := Some (PyStr.py "key");
                      AIConfig.model := PyStr.py "gemini-2.0-flash";
                      AIConfig.temperature := 1 # 10; AIConfig.max_tokens := 8192;
                      AIConfig.enabled := true; AIConfig.fallback_enabled := true;
                      AIConfig.timeout := 30; AIConfig.max_retries := 3 |} 0
                   (fun _ _ => Returned (PyStr.py "{}")) [] _)).
  lia.
Defined.

(** ** The export of an extracted model *)

Section ExportOfModel.
Context {U : UnicodeTables}.
Import InvoiceProcessor.

Variable now : pystr.
Variable parse_date : pystr -> option pystr.
Variable str_float format_2f format_0f : Q -> pystr.




End ExportOfModel.


